(** * Gilgal deployment core: webhook ingestion, deployment pipeline,
      container lifecycle.

    A shallow embedding of
      - src/services/WebhookService.ts and the POST /webhooks/github/:projectId
        handler of src/routes/webhooks.ts,
      - src/services/DeploymentService.ts,
      - src/services/DockerService.ts (buildImage, runContainer, stopContainer),
    together with the statements checked against the specification. *)

From Stdlib Require Import ZArith List String Ascii Bool Lia DecimalString.
Import ListNotations.
Local Open Scope string_scope.
Local Open Scope list_scope.
Local Open Scope Z_scope.

(* ===================================================================== *)
(** * Node's [crypto]: SHA-256 and HMAC (FIPS 180-4, RFC 2104)

    [WebhookService.verifySignature] calls
    [crypto.createHmac('sha256', secret).update(payload).digest('hex')].
    Bytes are [Z] in 0..255, words are [Z] in 0..2^32-1 with the
    wrap-around written out. *)
(* ===================================================================== *)

Module Sha256.

Definition w32 (x : Z) : Z := x mod 4294967296.
Definition add32 (a b : Z) : Z := w32 (a + b).
Definition not32 (x : Z) : Z := Z.lxor x 4294967295.
Definition rotr (n x : Z) : Z :=
  Z.lor (Z.shiftr x n) (w32 (Z.shiftl x (32 - n))).
Definition shr (n x : Z) : Z := Z.shiftr x n.

Definition Ch (x y z : Z) : Z := Z.lxor (Z.land x y) (Z.land (not32 x) z).
Definition Maj (x y z : Z) : Z :=
  Z.lxor (Z.lxor (Z.land x y) (Z.land x z)) (Z.land y z).
Definition Sigma0 (x : Z) : Z := Z.lxor (Z.lxor (rotr 2 x) (rotr 13 x)) (rotr 22 x).
Definition Sigma1 (x : Z) : Z := Z.lxor (Z.lxor (rotr 6 x) (rotr 11 x)) (rotr 25 x).
Definition sigma0 (x : Z) : Z := Z.lxor (Z.lxor (rotr 7 x) (rotr 18 x)) (shr 3 x).
Definition sigma1 (x : Z) : Z := Z.lxor (Z.lxor (rotr 17 x) (rotr 19 x)) (shr 10 x).

(** The round constants of FIPS 180-4, 4.2.2, in decimal. *)
Definition K : list Z :=
  [
    1116352408; 1899447441; 3049323471; 3921009573; 961987163;
    1508970993; 2453635748; 2870763221; 3624381080; 310598401;
    607225278; 1426881987; 1925078388; 2162078206; 2614888103;
    3248222580; 3835390401; 4022224774; 264347078; 604807628;
    770255983; 1249150122; 1555081692; 1996064986; 2554220882;
    2821834349; 2952996808; 3210313671; 3336571891; 3584528711;
    113926993; 338241895; 666307205; 773529912; 1294757372;
    1396182291; 1695183700; 1986661051; 2177026350; 2456956037;
    2730485921; 2820302411; 3259730800; 3345764771; 3516065817;
    3600352804; 4094571909; 275423344; 430227734; 506948616;
    659060556; 883997877; 958139571; 1322822218; 1537002063;
    1747873779; 1955562222; 2024104815; 2227730452; 2361852424;
    2428436474; 2756734187; 3204031479; 3329325298 ].

(** The initial hash value of FIPS 180-4, 5.3.3, in decimal. *)
Definition H0 : list Z :=
  [
    1779033703; 3144134277; 1013904242; 2773480762;
    1359893119; 2600822924; 528734635; 1541459225 ].

(** Big-endian encoding of [x] on [n] bytes. *)
Fixpoint be_bytes (n : nat) (x : Z) : list Z :=
  match n with
  | O => []
  | S n' => be_bytes n' (x / 256) ++ [x mod 256]
  end.

(** Padding: 0x80, zeros up to 56 mod 64, then the bit length on 8 bytes. *)
Definition pad (msg : list Z) : list Z :=
  let len := Z.of_nat (List.length msg) in
  let zeros := Z.to_nat ((55 - len) mod 64) in
  msg ++ [128] ++ repeat 0 zeros ++ be_bytes 8 (8 * len).

Fixpoint words_of_bytes (bs : list Z) : list Z :=
  match bs with
  | a :: b :: c :: d :: rest =>
      (((a * 256 + b) * 256 + c) * 256 + d) :: words_of_bytes rest
  | _ => []
  end.

Fixpoint blocks (n : nat) (ws : list Z) : list (list Z) :=
  match n with
  | O => []
  | S n' => firstn 16 ws :: blocks n' (skipn 16 ws)
  end.

(** Message schedule, kept most-recent-first while it is extended. *)
Fixpoint schedule_rev (n : nat) (acc : list Z) : list Z :=
  match n with
  | O => acc
  | S n' =>
      let w := add32 (add32 (sigma1 (nth 1 acc 0)) (nth 6 acc 0))
                     (add32 (sigma0 (nth 14 acc 0)) (nth 15 acc 0)) in
      schedule_rev n' (w :: acc)
  end.

Definition schedule (block : list Z) : list Z :=
  rev (schedule_rev 48 (rev block)).

Record regs := Regs { ra : Z; rb : Z; rc : Z; rd : Z; re : Z; rf : Z; rg : Z; rh : Z }.

Definition round (r : regs) (kw : Z * Z) : regs :=
  let '(k, w) := kw in
  let t1 := add32 (add32 (add32 (rh r) (Sigma1 (re r)))
                         (add32 (Ch (re r) (rf r) (rg r)) k)) w in
  let t2 := add32 (Sigma0 (ra r)) (Maj (ra r) (rb r) (rc r)) in
  Regs (add32 t1 t2) (ra r) (rb r) (rc r) (add32 (rd r) t1) (re r) (rf r) (rg r).

Definition regs_of (h : list Z) : regs :=
  Regs (nth 0 h 0) (nth 1 h 0) (nth 2 h 0) (nth 3 h 0)
       (nth 4 h 0) (nth 5 h 0) (nth 6 h 0) (nth 7 h 0).

Definition compress (h : list Z) (block : list Z) : list Z :=
  let r := fold_left round (combine K (schedule block)) (regs_of h) in
  [ add32 (nth 0 h 0) (ra r); add32 (nth 1 h 0) (rb r);
    add32 (nth 2 h 0) (rc r); add32 (nth 3 h 0) (rd r);
    add32 (nth 4 h 0) (re r); add32 (nth 5 h 0) (rf r);
    add32 (nth 6 h 0) (rg r); add32 (nth 7 h 0) (rh r) ].

Definition sha256 (msg : list Z) : list Z :=
  let ws := words_of_bytes (pad msg) in
  let bl := blocks (Nat.div (List.length ws) 16) ws in
  flat_map (be_bytes 4) (fold_left compress bl H0).

(** HMAC with block size 64. *)
Definition hmac_key (key : list Z) : list Z :=
  let k := if (64 <? Z.of_nat (List.length key)) then sha256 key else key in
  k ++ repeat 0 (64 - List.length k)%nat.

Definition hmac_sha256 (key msg : list Z) : list Z :=
  let k := hmac_key key in
  let ipad := map (fun b => Z.lxor b 0x36) k in
  let opad := map (fun b => Z.lxor b 0x5c) k in
  sha256 (opad ++ sha256 (ipad ++ msg)).

(** UTF-8 bytes of a string: a [string] is the byte sequence itself. *)
Fixpoint bytes_of_string (s : string) : list Z :=
  match s with
  | EmptyString => []
  | String c s' => Z.of_N (N_of_ascii c) :: bytes_of_string s'
  end.

Definition hex_digit (d : Z) : ascii :=
  ascii_of_N (Z.to_N (if d <? 10 then 48 + d else 87 + d)).

(** [digest('hex')]: two lower-case digits per byte. *)
Fixpoint hex (bs : list Z) : string :=
  match bs with
  | [] => EmptyString
  | b :: bs' => String (hex_digit (b / 16)) (String (hex_digit (b mod 16)) (hex bs'))
  end.

Definition hmac_sha256_hex (secret payload : string) : string :=
  hex (hmac_sha256 (bytes_of_string secret) (bytes_of_string payload)).

End Sha256.


(* ===================================================================== *)
(** * JavaScript values, exceptions and template strings *)
(* ===================================================================== *)

(** Values thrown in the services: [new Error(msg)] (also what dockerode
    and [execSync] throw), [ApiError] of src/utils/error.ts (a subclass of
    [Error]), the [DatabaseError] of the database driver (a subclass of
    [Error] whose [name] is [error]), and any value that is not an [Error]. *)
Inductive Exn : Type :=
| Error (message : string)
| ApiError (statusCode : Z) (errorCode : string) (message : string)
| DatabaseError (message : string)
| NonError (text : string).

(** [error instanceof Error] *)
Definition instanceof_Error (e : Exn) : bool :=
  match e with
  | Error _ | ApiError _ _ _ | DatabaseError _ => true
  | NonError _ => false
  end.

(** [error.message] of an [Error] instance. *)
Definition message (e : Exn) : string :=
  match e with
  | Error m => m
  | ApiError _ _ m => m
  | DatabaseError m => m
  | NonError _ => EmptyString
  end.

(** [`${error}`]: [Error.prototype.toString] gives [name + ": " + message];
    [ApiError] does not override [name], the driver sets it to [error]. *)
Definition toString (e : Exn) : string :=
  match e with
  | Error m => "Error: " ++ m
  | ApiError _ _ m => "Error: " ++ m
  | DatabaseError m => "error: " ++ m
  | NonError t => t
  end.

Definition double_quote : string := String (ascii_of_nat 34) EmptyString.

(** [text] between double quotes, as the messages of the database name
    things. *)
Definition quoted (text : string) : string := double_quote ++ text ++ double_quote.

(** An outcome: the value thrown, or the value returned. *)
Definition Result (A : Type) : Type := (Exn + A)%type.

(** [`${n}`] for an integer [n]. *)
Definition show (n : Z) : string := NilZero.string_of_int (Z.to_int n).

(** src/constants: HTTP_STATUS and ERROR_CODES. *)
Module HTTP_STATUS.
Definition OK : Z := 200.
Definition BAD_REQUEST : Z := 400.
Definition UNAUTHORIZED : Z := 401.
Definition NOT_FOUND : Z := 404.
End HTTP_STATUS.

Module ERROR_CODES.
Definition VALIDATION_ERROR : string := "VALIDATION_ERROR".
Definition NOT_FOUND : string := "NOT_FOUND".
Definition PROJECT_NOT_FOUND : string := "PROJECT_NOT_FOUND".
End ERROR_CODES.

(** A JavaScript value as far as the services look at it. *)
Inductive JsValue : Type :=
| JsUndefined
| JsNull
| JsString (s : string)
| JsNumber (n : Z)
| JsDate (ms : Z).

(** Truthiness ([if (v)], [!v], [v || d]). *)
Definition truthy (v : JsValue) : bool :=
  match v with
  | JsUndefined | JsNull => false
  | JsString s => negb (s =? EmptyString)%string
  | JsNumber n => negb (n =? 0)
  | JsDate _ => true
  end.

(** A row object returned by the database driver: one own property per
    selected column, named as the column is named in the SELECT list
    ([src/database/index.ts] returns [result.rows] as the driver built
    them).  Reading a property the object does not have gives [undefined]. *)
Definition Row : Type := list (string * JsValue).

Fixpoint prop (row : Row) (name : string) : JsValue :=
  match row with
  | [] => JsUndefined
  | (k, v) :: rest => if (k =? name)%string then v else prop rest name
  end.

Definition of_option_string (o : option string) : JsValue :=
  match o with Some s => JsString s | None => JsNull end.
Definition of_option_number (o : option Z) : JsValue :=
  match o with Some n => JsNumber n | None => JsNull end.
Definition of_option_date (o : option Z) : JsValue :=
  match o with Some n => JsDate n | None => JsNull end.

(** Query parameters: the driver sends [undefined] and [null] as SQL NULL,
    and a comparison with NULL is never true. *)

Definition sql_lt_timestamp (column : Z) (param : JsValue) : bool :=
  match param with
  | JsDate ms => column <? ms
  | _ => false
  end.

(* ===================================================================== *)
(** * Identifiers: the type uuid of the database

    Every id column of src/database/migrations.ts is of type UUID.  A query
    parameter compared with such a column, or inserted into it, arrives as
    text and goes through the input function of the type; a value that
    leaves the database is printed by its output function. *)
(* ===================================================================== *)

(** The value of a hexadecimal digit, of either case. *)
Definition hex_value (c : ascii) : option Z :=
  let n := Z.of_N (N_of_ascii c) in
  if (48 <=? n) && (n <=? 57) then Some (n - 48)
  else if (97 <=? n) && (n <=? 102) then Some (n - 87)
  else if (65 <=? n) && (n <=? 70) then Some (n - 55)
  else None.

(** [n] bytes from [src], [i] being the index of the first of them: two
    digits for a byte; a hyphen is passed over after a byte of odd index
    that is not the last of the sixteen. *)
Fixpoint uuid_read (n i : nat) (src : string) : option (list Z * string) :=
  match n with
  | O => Some ([], src)
  | S n' =>
      match src with
      | String a (String b rest) =>
          match hex_value a, hex_value b with
          | Some x, Some y =>
              let rest' :=
                match rest with
                | String c r =>
                    if Ascii.eqb c "-" && Nat.odd i && (i <? 15)%nat then r else rest
                | EmptyString => rest
                end in
              match uuid_read n' (S i) rest' with
              | Some (bs, tail) => Some (16 * x + y :: bs, tail)
              | None => None
              end
          | _, _ => None
          end
      | _ => None
      end
  end.

(** The input function: sixteen bytes, optionally between braces, and
    nothing after them.  [None] is the error
    [invalid input syntax for type uuid]. *)
Definition uuid_in (text : string) : option (list Z) :=
  let braces := match text with String c _ => Ascii.eqb c "{" | EmptyString => false end in
  let src := match text with String c r => if Ascii.eqb c "{" then r else text
                           | EmptyString => text end in
  match uuid_read 16 0 src with
  | Some (bs, tail) =>
      if (tail =? (if braces then "}" else EmptyString))%string then Some bs else None
  | None => None
  end.

(** The output function: lower-case digits in groups of 8, 4, 4, 4 and 12. *)
Definition uuid_out (bs : list Z) : string :=
  Sha256.hex (firstn 4 bs) ++ "-" ++ Sha256.hex (firstn 2 (skipn 4 bs)) ++ "-"
  ++ Sha256.hex (firstn 2 (skipn 6 bs)) ++ "-" ++ Sha256.hex (firstn 2 (skipn 8 bs)) ++ "-"
  ++ Sha256.hex (skipn 10 bs).

(** The text under which the database stores and returns the id it is
    given as [text]. *)
Definition canonical (text : string) : string :=
  match uuid_in text with
  | Some bs => uuid_out bs
  | None => text
  end.

(** [column = $n] for a uuid column, given as the database prints it, and a
    parameter the input function accepts. *)
Definition same_uuid (column param : string) : bool :=
  match uuid_in param with
  | Some bs => (column =? uuid_out bs)%string
  | None => false
  end.

(** What the driver throws when the database refuses a parameter. *)
Definition invalid_uuid (text : string) : Exn :=
  DatabaseError ("invalid input syntax for type uuid: " ++ quoted text).

(** [column = $n] for a parameter that is a JavaScript value. *)
Definition sql_eq_uuid (column : string) (param : JsValue) : bool :=
  match param with
  | JsString s => same_uuid column s
  | _ => false
  end.

(** The parameters of a statement are read in order; the first one the
    input function refuses ends the statement. *)
Fixpoint refused (params : list string) : option Exn :=
  match params with
  | [] => None
  | p :: rest =>
      match uuid_in p with
      | Some _ => refused rest
      | None => Some (invalid_uuid p)
      end
  end.

Arguments uuid_in : simpl never.
Arguments uuid_out : simpl never.
Arguments canonical : simpl never.
Arguments same_uuid : simpl never.
Arguments refused : simpl never.

(** A byte. *)
Definition byte (b : Z) : Prop := 0 <= b < 256.

(** The uuid package: [v4()] draws sixteen random bytes, sets the version
    and the variant, and prints them as the database does. *)
Definition v4 (rnds : list Z) : list Z :=
  map (fun i => let b := nth i rnds 0 mod 256 in
                if (i =? 6)%nat then Z.lor (Z.land b 15) 64
                else if (i =? 8)%nat then Z.lor (Z.land b 63) 128
                else b)
      (seq 0 16).

(** [VARCHAR(n)]: the first [n] characters of a value and what follows
    them.  A value is a sequence of UTF-8 bytes, and a character starts at
    every byte that is not a continuation byte (10xxxxxx). *)
Definition continuation (c : ascii) : bool :=
  let n := nat_of_ascii c in ((128 <=? n) && (n <? 192))%nat.

Fixpoint clip (n : nat) (s : string) : string * string :=
  match s with
  | EmptyString => (EmptyString, EmptyString)
  | String c rest =>
      if continuation c
      then let (keep, excess) := clip n rest in (String c keep, excess)
      else match n with
           | O => (EmptyString, s)
           | S n' => let (keep, excess) := clip n' rest in (String c keep, excess)
           end
  end.

Fixpoint spaces_only (s : string) : bool :=
  match s with
  | EmptyString => true
  | String c rest => Ascii.eqb c " " && spaces_only rest
  end.

(** Assignment to a [VARCHAR(n)] column: excess characters are cut off when
    they are all spaces; otherwise the value is refused ([None]) with
    [value too long for type character varying(n)]. *)
Definition varchar (n : nat) (value : string) : option string :=
  let (keep, excess) := clip n value in
  if spaces_only excess then Some keep else None.

(** The same for a value that may be NULL. *)
Definition varchar_null (n : nat) (value : option string) : option (option string) :=
  match value with
  | Some v => option_map Some (varchar n v)
  | None => Some None
  end.

(* ===================================================================== *)
(** * The database: src/database/migrations.ts

    The tables as the services read and write them, with the columns they
    use; an id column holds its values as the database prints them.  Of the
    VARCHAR columns, [commit_sha] VARCHAR(40) is the one a request can
    exceed, and its length is modelled; the levels and statuses the code
    writes are short literals, and the ids the daemon gives its containers
    are taken to fit [container_id] VARCHAR(255).  A text is taken to hold
    no character NUL, which the database takes in no value. *)
(* ===================================================================== *)

(** DEPLOYMENT_STATUS of src/constants, and the literal ['cancelled'] that
    [cancelDeployment] writes. *)
Inductive Status : Type := pending | building | success | failed | cancelled.

Definition status_text (st : Status) : string :=
  match st with
  | pending => "pending"
  | building => "building"
  | success => "success"
  | failed => "failed"
  | cancelled => "cancelled"
  end.

Definition status_eqb (a b : Status) : bool :=
  (status_text a =? status_text b)%string.

(** Terminal statuses of the specification. *)
Definition terminal (st : Status) : bool :=
  match st with
  | success | failed | cancelled => true
  | pending | building => false
  end.

Module Project.
Record t : Type := mk {
  id : string;
  user_id : string;
  name : string;
  slug : string;
  repository_url : option string;
  webhook_secret : option string;
  deleted_at : option Z
}.
End Project.

Module Environment.
Record t : Type := mk {
  id : string;
  project_id : string;
  name : string;
  (** JSONB object, as [Object.entries] lists it. *)
  environment_variables : list (string * string);
  deleted_at : option Z
}.
End Environment.

Module Deployment.
Record t : Type := mk {
  id : string;
  project_id : string;
  environment_id : string;
  commit_sha : option string;
  commit_message : option string;
  status : Status;
  duration_seconds : option Z;
  deployed_at : option Z;
  container_id : option string;
  container_port : option Z;
  error_message : option string;
  created_at : Z;
  updated_at : Z
}.
End Deployment.

Module DeploymentLog.
Record t : Type := mk {
  id : string;
  deployment_id : string;
  log_level : string;
  message : string;
  timestamp : Z
}.
End DeploymentLog.

Record Db : Type := mkDb {
  projects : list Project.t;
  environments : list Environment.t;
  deployments : list Deployment.t;
  deployment_logs : list DeploymentLog.t
}.

(** The row an id denotes: [WHERE id = $n] with the id given as text. *)
Definition find_deployment (db : Db) (id : string) : option Deployment.t :=
  find (fun d => same_uuid (Deployment.id d) id) (deployments db).

Definition find_project (db : Db) (id : string) : option Project.t :=
  find (fun p => same_uuid (Project.id p) id) (projects db).

Definition find_environment (db : Db) (id : string) : option Environment.t :=
  find (fun e => same_uuid (Environment.id e) id) (environments db).

(** The log entries of one deployment, in insertion order. *)
Definition logs_of (db : Db) (deploymentId : string) : list DeploymentLog.t :=
  filter (fun l => same_uuid (DeploymentLog.deployment_id l) deploymentId)
         (deployment_logs db).

(** [UPDATE deployments SET ... WHERE id = $n] *)
Definition update_deployments (db : Db) (id : string)
    (set : Deployment.t -> Deployment.t) : Db :=
  mkDb (projects db) (environments db)
       (map (fun d => if same_uuid (Deployment.id d) id then set d else d)
            (deployments db))
       (deployment_logs db).

Definition live {A : Type} (deleted_at : A -> option Z) (row : A) : bool :=
  match deleted_at row with None => true | Some _ => false end.

(** [FROM projects WHERE id = $1 AND deleted_at IS NULL] *)
Definition live_projects (d : Db) (projectId : string) : list Project.t :=
  filter (fun p => same_uuid (Project.id p) projectId && live Project.deleted_at p)
         (projects d).

(** [FROM environments WHERE project_id = $1 AND deleted_at IS NULL] *)
Definition live_environments (d : Db) (projectId : string) : list Environment.t :=
  filter (fun e => same_uuid (Environment.project_id e) projectId
                   && live Environment.deleted_at e)
         (environments d).

(** [FROM projects WHERE id = $1 AND user_id = $2 AND deleted_at IS NULL] *)
Definition owned_projects (d : Db) (projectId userId : string) : list Project.t :=
  filter (fun p => same_uuid (Project.id p) projectId
                   && same_uuid (Project.user_id p) userId
                   && live Project.deleted_at p)
         (projects d).

(** [FROM environments WHERE id = $1 AND project_id = $2 AND deleted_at IS NULL] *)
Definition project_environments (d : Db) (environmentId projectId : string)
  : list Environment.t :=
  filter (fun e => same_uuid (Environment.id e) environmentId
                   && same_uuid (Environment.project_id e) projectId
                   && live Environment.deleted_at e)
         (environments d).

(** A statement that reads: it is refused when one of its uuid parameters
    [params] is, and otherwise answers [rows] and leaves the tables. *)
Definition select {R : Type} (params : list string) (rows : Db -> R)
    (now : Z) (d : Db) : Result R * Db :=
  match refused params with
  | Some e => (inl e, d)
  | None => (inr (rows d), d)
  end.

(* ===================================================================== *)
(** * The Docker daemon behind dockerode, and the host *)
(* ===================================================================== *)

Module Docker.

(** The options object of [docker.createContainer] in [runContainer]. *)
Record Options : Type := mkOptions {
  Image : string;
  name : string;
  Env : list string;
  ExposedPort : Z;
  HostIp : string;
  HostPort : string;
  Memory : Z;
  MemorySwap : Z;
  CpuShares : Z;
  RestartPolicy_Name : string;
  RestartPolicy_MaximumRetryCount : Z;
  Labels : list (string * string)
}.

Record Container : Type := mkContainer {
  Id : string;
  Config : Options;
  Running : bool
}.

Record t : Type := mk {
  containers : list Container;
  images : list string;
  created : nat   (* containers created so far *)
}.

(** [docker.getContainer(ref)] addresses a container by id or by name. *)
Definition matches (ref : string) (c : Container) : bool :=
  ((Id c =? ref) || (name (Config c) =? ref))%string.

Definition lookup (d : t) (ref : string) : option Container :=
  find (matches ref) (containers d).

Definition set_running (d : t) (ref : string) (b : bool) : t :=
  mk (map (fun c => if matches ref c then mkContainer (Id c) (Config c) b else c)
          (containers d))
     (images d) (created d).

Definition delete (d : t) (ref : string) : t :=
  mk (filter (fun c => negb (matches ref c)) (containers d))
     (images d) (created d).

(** A host port is taken when a running container is bound to it. *)
Definition port_in_use (d : t) (hostPort : string) : bool :=
  existsb (fun c => Running c && (HostPort (Config c) =? hostPort)%string)
          (containers d).

End Docker.

(** Effects on the outside world, in the order they were issued. *)
Inductive Event : Type :=
| EvExec (command : string)                  (* child_process.execSync *)
| EvInspect (ref : string)
| EvStop (ref : string) (t : Z)
| EvRemove (ref : string)
| EvCreate (name : string)
| EvStart (id : string)
| EvNginxApply.

(** Work handed to the event loop without being awaited. *)
Inductive Task : Type :=
| PipelineTask (deploymentId projectId environmentId userId : string)
| WebhookReadyCheck (deploymentId : string).

(** A value of a JSON document, as far as a condition looks at it: what an
    array or an object holds does not matter to its truthiness. *)
Inductive Json : Type :=
| JsonNull
| JsonBool (b : bool)
| JsonNumber (n : Z)
| JsonString (s : string)
| JsonArray
| JsonObject.

Definition Json_truthy (v : Json) : bool :=
  match v with
  | JsonNull => false
  | JsonBool b => b
  | JsonNumber n => negb (n =? 0)
  | JsonString s => negb (s =? EmptyString)%string
  | JsonArray | JsonObject => true
  end.

(** What [package.json] holds when [buildImage] reads it: no file; a file
    on which [JSON.parse], or reading [dependencies] of what it returns,
    throws; or the own properties of [packageJson.dependencies] and of
    [packageJson.devDependencies], which the spread copies, each name once
    (a property that is missing, or is no object, gives none under a name
    [buildImage] looks up). *)
Inductive Manifest : Type :=
| NoManifest
| BadManifest (e : Exn)
| Dependencies (dependencies devDependencies : list (string * Json)).

(** The parts of the host the services call into. *)
Class Host : Type := mkHost {
  rng : nat -> list Z;                        (* the random bytes of the n-th uuidv4() *)
  random1000 : nat -> Z;                      (* n-th Math.floor(Math.random() * 1000) *)
  container_id : nat -> string;               (* id the daemon gives its n-th container *)
  execSync : string -> Result string;         (* outcome of a shell command *)
  package_json : string -> Manifest;          (* by path *)
  applyNginxConfig : Db -> Result unit;       (* NginxConfigService.applyNginxConfig *)
  elapsed : Event -> Z                        (* milliseconds an external call takes *)
}.

(** The n-th value of [uuidv4()]. *)
Definition uuidv4 {host : Host} (n : nat) : string := uuid_out (v4 (rng n)).

Record Sys : Type := mkSys {
  db : Db;
  docker : Docker.t;
  clock : Z;                                  (* Date.now() and CURRENT_TIMESTAMP *)
  uuids : nat;
  randoms : nat;
  spawned : list Task;
  trace : list Event
}.

Definition with_db (s : Sys) (d : Db) : Sys :=
  mkSys d (docker s) (clock s) (uuids s) (randoms s) (spawned s) (trace s).

Definition with_docker (s : Sys) (d : Docker.t) : Sys :=
  mkSys (db s) d (clock s) (uuids s) (randoms s) (spawned s) (trace s).

(* ===================================================================== *)
(** * Asynchronous functions

    An [async] function is a tree of awaited effects: [Await act k] performs
    one effect [act] on the system and resumes with [k] on its outcome, a
    value or a rejection.  Other tasks may run between two awaited effects. *)
(* ===================================================================== *)

Inductive Async (A : Type) : Type :=
| Ret (a : A)
| Throw (e : Exn)
| Await (R : Type) (act : Sys -> Result R * Sys) (k : Result R -> Async A).

Arguments Ret {A} a.
Arguments Throw {A} e.
Arguments Await {A R} act k.

Fixpoint bind {A B : Type} (m : Async A) (f : A -> Async B) : Async B :=
  match m with
  | Ret a => f a
  | Throw e => Throw e
  | Await act k => Await act (fun r => bind (k r) f)
  end.

(** [try { m } catch (e) { h e }] *)
Fixpoint try_catch {A : Type} (m : Async A) (h : Exn -> Async A) : Async A :=
  match m with
  | Ret a => Ret a
  | Throw e => h e
  | Await act k => Await act (fun r => try_catch (k r) h)
  end.

(** [await act]: a rejection is thrown at the await. *)
Definition await {R : Type} (act : Sys -> Result R * Sys) : Async R :=
  Await act (fun r => match r with inl e => Throw e | inr v => Ret v end).

Declare Scope async_scope.
Delimit Scope async_scope with async.
Notation "x <- m ;; k" := (bind m (fun x => k))
  (at level 61, m at next level, right associativity) : async_scope.
Notation "m ;; k" := (bind m (fun _ => k))
  (at level 61, right associativity) : async_scope.
Local Open Scope async_scope.

(** Run to completion with no other task in between. *)
Fixpoint run {A : Type} (m : Async A) (s : Sys) : Result A * Sys :=
  match m with
  | Ret a => (inr a, s)
  | Throw e => (inl e, s)
  | Await act k => let (r, s') := act s in run (k r) s'
  end.

(** One awaited effect. *)
Definition step {A : Type} (m : Async A) (s : Sys) : Async A * Sys :=
  match m with
  | Await act k => let (r, s') := act s in (k r, s')
  | _ => (m, s)
  end.

Fixpoint steps {A : Type} (n : nat) (m : Async A) (s : Sys) : Async A * Sys :=
  match n with
  | O => (m, s)
  | S n' => let (m', s') := step m s in steps n' m' s'
  end.

(** The function settles normally whatever the awaited effects answer. *)
Fixpoint never_rejects {A : Type} (m : Async A) : Prop :=
  match m with
  | Ret _ => True
  | Throw _ => False
  | Await act k => forall r, never_rejects (k r)
  end.

Section Effects.

Context {host : Host}.

(** An external call: recorded, and the clock moves on by what it takes. *)
Definition emit (e : Event) (s : Sys) : Sys :=
  mkSys (db s) (docker s) (clock s + elapsed e) (uuids s) (randoms s)
        (spawned s) (trace s ++ [e]).

(** [Date.now()] *)
Definition Date_now : Async Z := await (fun s => (inr (clock s), s)).

(** [uuidv4()] *)
Definition new_uuid : Async string :=
  await (fun s => (inr (uuidv4 (uuids s)),
                   mkSys (db s) (docker s) (clock s) (S (uuids s)) (randoms s)
                         (spawned s) (trace s))).

(** [await query(...)] of src/database/index.ts: the statement [q] runs on the
    tables with CURRENT_TIMESTAMP being the clock. *)
Definition query {R : Type} (q : Z -> Db -> Result R * Db) : Async R :=
  await (fun s => let (r, d) := q (clock s) (db s) in (r, with_db s d)).

(** [child_process.execSync(command)] *)
Definition exec (command : string) : Async string :=
  await (fun s => (execSync command, emit (EvExec command) s)).

End Effects.

(* ===================================================================== *)
(** * DockerService (src/services/DockerService.ts) *)
(* ===================================================================== *)

Module Dockerode.
Section Dockerode.
Context {host : Host}.

Definition no_such_container (ref : string) : Exn :=
  Error ("(HTTP code 404) no such container - No such container: " ++ ref).

(** [container.inspect()] *)
Definition inspect (ref : string) (s : Sys) : Result Docker.Container * Sys :=
  let s := emit (EvInspect ref) s in
  match Docker.lookup (docker s) ref with
  | Some c => (inr c, s)
  | None => (inl (no_such_container ref), s)
  end.

(** [container.stop({ t })] *)
Definition stop (ref : string) (t : Z) (s : Sys) : Result unit * Sys :=
  let s := emit (EvStop ref t) s in
  match Docker.lookup (docker s) ref with
  | Some c =>
      if Docker.Running c
      then (inr tt, with_docker s (Docker.set_running (docker s) ref false))
      else (inl (Error "(HTTP code 304) container already stopped - "), s)
  | None => (inl (no_such_container ref), s)
  end.

(** [container.remove()] *)
Definition remove (ref : string) (s : Sys) : Result unit * Sys :=
  let s := emit (EvRemove ref) s in
  match Docker.lookup (docker s) ref with
  | Some c =>
      if Docker.Running c
      then (inl (Error "(HTTP code 409) conflict - cannot remove a running container"), s)
      else (inr tt, with_docker s (Docker.delete (docker s) ref))
  | None => (inl (no_such_container ref), s)
  end.

(** [docker.createContainer(options)]; the result stands for the container
    object, of which the services read [id]. *)
Definition createContainer (o : Docker.Options) (s : Sys) : Result string * Sys :=
  let s := emit (EvCreate (Docker.name o)) s in
  let d := docker s in
  if existsb (fun c => (Docker.name (Docker.Config c) =? Docker.name o)%string)
             (Docker.containers d)
  then (inl (Error "(HTTP code 409) conflict - the container name is already in use"), s)
  else if negb (existsb (fun i => (i =? Docker.Image o)%string) (Docker.images d))
  then (inl (Error ("(HTTP code 404) no such image - " ++ Docker.Image o)), s)
  else
    let id := container_id (Docker.created d) in
    (inr id,
     with_docker s
       (Docker.mk (Docker.containers d ++ [Docker.mkContainer id o false])
                  (Docker.images d) (S (Docker.created d)))).

(** [container.start()] *)
Definition start (id : string) (s : Sys) : Result unit * Sys :=
  let s := emit (EvStart id) s in
  match Docker.lookup (docker s) id with
  | Some c =>
      if Docker.Running c
      then (inl (Error "(HTTP code 304) container already started - "), s)
      else if Docker.port_in_use (docker s) (Docker.HostPort (Docker.Config c))
      then (inl (Error "(HTTP code 500) server error - port is already allocated"), s)
      else (inr tt, with_docker s (Docker.set_running (docker s) id true))
  | None => (inl (no_such_container id), s)
  end.

(** [execSync(`docker build -t ${imageName} ${dir}`)]: on success the daemon
    holds the image. *)
Definition build (imageName dir : string) (s : Sys) : Result string * Sys :=
  let command := ("docker build -t " ++ imageName ++ " " ++ dir)%string in
  let s := emit (EvExec command) s in
  match execSync command with
  | inr out =>
      (inr out,
       with_docker s (Docker.mk (Docker.containers (docker s))
                                (imageName :: Docker.images (docker s))
                                (Docker.created (docker s))))
  | inl e => (inl e, s)
  end.

End Dockerode.
End Dockerode.

Module DockerService.
Section DockerService.
Context {host : Host}.

(** [deps[name]] for [deps = { ...dependencies, ...devDependencies }]: the
    later spread overrides the earlier one. *)
Fixpoint property (name : string) (object : list (string * Json)) : option Json :=
  match object with
  | [] => None
  | (k, v) :: rest => if (k =? name)%string then Some v else property name rest
  end.

Definition dependency (dependencies devDependencies : list (string * Json))
    (name : string) : option Json :=
  match property name devDependencies with
  | Some v => Some v
  | None => property name dependencies
  end.

(** The framework test of [buildImage]: [if (deps[name])] looks at the
    value, a missing property being [undefined]. *)
Definition detect (dependencies devDependencies : list (string * Json)) : string :=
  let has name :=
    match dependency dependencies devDependencies name with
    | Some v => Json_truthy v
    | None => false
    end in
  if has "react" || has "react-dom" then "react"
  else if has "next" then "next"
  else if has "express" then "express"
  else "node".

Record Image : Type := mkImage {
  imageId : string;
  imageName : string;
  framework : string
}.

(** The shell commands and the manifest are answered by the host; creating
  the directory and writing [nginx.conf], [.dockerignore] and the
  [Dockerfile] into it are taken to succeed. *)
Definition buildImage (projectId deploymentId : string) (sourceUrl : option string)
  : Async Image :=
  let tempDir := ("/tmp/gilgal-" ++ deploymentId)%string in
  u <- new_uuid ;;
  let imageName := ("gilgal-" ++ projectId ++ "-" ++ substring 0 8 u)%string in
  let hasSource := truthy (of_option_string sourceUrl) in
  let sourceDir := (if hasSource then tempDir ++ "/source" else tempDir)%string in
  try_catch
    ((if hasSource
      then
        try_catch
          (exec ("git clone " ++ match sourceUrl with Some url => url | None => EmptyString end
                  ++ " " ++ tempDir ++ "/source") ;; Ret tt)
          (fun gitError =>
             Throw (Error ("Failed to clone repository: " ++ toString gitError)))
      else Ret tt) ;;
     framework <-
       match package_json (sourceDir ++ "/package.json") with
       | NoManifest => Ret "node"
       | BadManifest e => Throw e
       | Dependencies dependencies devDependencies =>
           Ret (detect dependencies devDependencies)
       end ;;
     (if hasSource
      then
        exec ("ls -la " ++ sourceDir) ;;
        exec ("cd " ++ sourceDir ++ " && cp -r . " ++ tempDir) ;;
        exec ("ls -la " ++ tempDir) ;;
        exec ("rm -rf " ++ sourceDir) ;;
        Ret tt
      else Ret tt) ;;
     try_catch
       (await (Dockerode.build imageName tempDir) ;; Ret tt)
       (fun buildError =>
          try_catch (await (Dockerode.build imageName tempDir) ;; Ret tt)
                    (fun _ => Ret tt) ;;
          Throw (Error ("Failed to build Docker image: " ++ toString buildError))) ;;
     Ret (mkImage imageName imageName framework))
    (fun error =>
       Throw (Error ("Failed to build Docker image: " ++ toString error))).

(** [allocatePort]: 8000 plus [Math.floor(Math.random() * 1000)], which is in
    0..999. *)
Definition allocatePort : Async Z :=
  await (fun s => (inr (8000 + random1000 (randoms s) mod 1000),
                   mkSys (db s) (docker s) (clock s) (uuids s) (S (randoms s))
                         (spawned s) (trace s))).

(** [Object.entries(envVariables).map(([key, value]) => `${key}=${value}`)]
    followed by [env.push('NODE_ENV=production')]. *)
Definition container_env (envVariables : list (string * string)) : list string :=
  map (fun kv => (fst kv ++ "=" ++ snd kv)%string) envVariables ++ ["NODE_ENV=production"].

Definition container_options (imageName projectId environmentId : string)
    (envVariables : list (string * string)) (framework : string) (port : Z)
  : Docker.Options :=
  let containerName := ("gilgal-" ++ projectId ++ "-" ++ substring 0 8 environmentId)%string in
  let containerPort :=
    if ((framework =? "react") || (framework =? "next"))%string then 80 else 3000 in
  Docker.mkOptions imageName containerName (container_env envVariables)
    containerPort "0.0.0.0" (show port)
    (512 * 1024 * 1024) (1024 * 1024 * 1024) 1024 "on-failure" 5
    [ ("gilgal.projectId", projectId);
      ("gilgal.environmentId", environmentId);
      ("gilgal.deploymentId", containerName) ].

Definition runContainer (imageName projectId environmentId : string)
    (envVariables : list (string * string)) (framework : string)
  : Async (string * Z) :=
  try_catch
    (port <- allocatePort ;;
     let containerName := ("gilgal-" ++ projectId ++ "-" ++ substring 0 8 environmentId)%string in
     try_catch
       (_ <- await (Dockerode.inspect containerName) ;;
        try_catch (await (Dockerode.stop containerName 5)) (fun _ => Ret tt) ;;
        await (Dockerode.remove containerName))
       (fun _ => Ret tt) ;;
     container <- await (Dockerode.createContainer
                           (container_options imageName projectId environmentId
                                              envVariables framework port)) ;;
     await (Dockerode.start container) ;;
     Ret (container, port))
    (fun error =>
       Throw (Error ("Failed to run Docker container: " ++ toString error))).

Definition stopContainer (containerId : string) : Async unit :=
  try_catch
    (try_catch
       (data <- await (Dockerode.inspect containerId) ;;
        if Docker.Running data
        then await (Dockerode.stop containerId 10)
        else Ret tt)
       (fun _ => Ret tt) ;;
     try_catch (await (Dockerode.remove containerId)) (fun _ => Ret tt))
    (fun error =>
       Throw (Error ("Failed to stop Docker container: " ++ toString error))).

End DockerService.
End DockerService.

(* ===================================================================== *)
(** * DeploymentService (src/services/DeploymentService.ts) *)
(* ===================================================================== *)

(** The columns every deployment SELECT and RETURNING list of the service
    names, in that order. *)
Definition row_of_deployment (d : Deployment.t) : Row :=
  [ ("id", JsString (Deployment.id d));
    ("project_id", JsString (Deployment.project_id d));
    ("environment_id", JsString (Deployment.environment_id d));
    ("commit_sha", of_option_string (Deployment.commit_sha d));
    ("commit_message", of_option_string (Deployment.commit_message d));
    ("status", JsString (status_text (Deployment.status d)));
    ("duration_seconds", of_option_number (Deployment.duration_seconds d));
    ("deployed_at", of_option_date (Deployment.deployed_at d));
    ("container_id", of_option_string (Deployment.container_id d));
    ("error_message", of_option_string (Deployment.error_message d));
    ("created_at", JsDate (Deployment.created_at d));
    ("updated_at", JsDate (Deployment.updated_at d)) ].

(** [a !== b] on the values compared in the service. *)
Definition strict_eq (a b : JsValue) : bool :=
  match a, b with
  | JsUndefined, JsUndefined => true
  | JsNull, JsNull => true
  | JsString x, JsString y => (x =? y)%string
  | JsNumber x, JsNumber y => x =? y
  | _, _ => false
  end.

(** [x || d] on an optional string. *)
Definition or_else (x : option string) (d : string) : string :=
  match x with
  | Some s => if (s =? EmptyString)%string then d else s
  | None => d
  end.

(** [x || null] *)
Definition or_null (x : option string) : option string :=
  match x with
  | Some s => if (s =? EmptyString)%string then None else Some s
  | None => None
  end.

(** [INSERT INTO deployments (...)]: the three ids are read as uuids; the
    value of [commit_sha] is fitted to its VARCHAR(40); the primary key is
    checked when the row is stored, the foreign keys after that; the other
    columns take their defaults.  The row is what RETURNING would list. *)
Definition insert_deployment (id project_id environment_id : string)
    (st : Status) (commit_sha commit_message : option string)
    (now : Z) (d : Db) : Result Deployment.t * Db :=
  match refused [id; project_id; environment_id] with
  | Some e => (inl e, d)
  | None =>
    match varchar_null 40 commit_sha with
    | None => (inl (DatabaseError "value too long for type character varying(40)"), d)
    | Some sha =>
      match find_deployment d id, find_project d project_id,
            find_environment d environment_id with
      | Some _, _, _ =>
          (inl (DatabaseError ("duplicate key value violates unique constraint "
                               ++ quoted "deployments_pkey")), d)
      | None, None, _ =>
          (inl (DatabaseError ("insert or update on table " ++ quoted "deployments"
                               ++ " violates foreign key constraint "
                               ++ quoted "deployments_project_id_fkey")), d)
      | None, Some _, None =>
          (inl (DatabaseError ("insert or update on table " ++ quoted "deployments"
                               ++ " violates foreign key constraint "
                               ++ quoted "deployments_environment_id_fkey")), d)
      | None, Some _, Some _ =>
          let row := Deployment.mk (canonical id) (canonical project_id)
                                   (canonical environment_id) sha commit_message
                                   st None None None None None now now in
          (inr row, mkDb (projects d) (environments d) (deployments d ++ [row])
                         (deployment_logs d))
      end
    end
  end.

(** [ORDER BY created_at DESC LIMIT 1] *)
Fixpoint latest (rows : list Deployment.t) : list Deployment.t :=
  match rows with
  | [] => []
  | d :: rest =>
      match latest rest with
      | [] => [d]
      | m :: _ => if Deployment.created_at m <=? Deployment.created_at d then [d] else [m]
      end
  end.

Record CreateDeploymentRequest : Type := mkCreateDeploymentRequest {
  environmentId : string;
  commitSha : option string;
  commitMessage : option string
}.

Module DeploymentService.
Section DeploymentService.
Context {host : Host}.

Definition spawn (t : Task) : Async unit :=
  await (fun s => (inr tt,
                   mkSys (db s) (docker s) (clock s) (uuids s) (randoms s)
                         (spawned s ++ [t]) (trace s))).

(** The id of the entry is a value of [uuidv4()], which is in the form the
    database prints. *)
Definition addDeploymentLog (deploymentId level message : string) : Async unit :=
  id <- new_uuid ;;
  query (fun now d =>
    match refused [deploymentId], find_deployment d deploymentId with
    | Some e, _ => (inl e, d)
    | None, Some _ =>
        (inr tt,
         mkDb (projects d) (environments d) (deployments d)
              (deployment_logs d
               ++ [DeploymentLog.mk id (canonical deploymentId) level message now]))
    | None, None =>
        (inl (DatabaseError ("insert or update on table " ++ quoted "deployment_logs"
                             ++ " violates foreign key constraint "
                             ++ quoted "deployment_logs_deployment_id_fkey")), d)
    end).

(** The branch on [result.rowCount === 0] after the INSERT is not reached: an
  INSERT ... RETURNING that does not throw returns its row. *)
Definition createDeployment (projectId userId : string) (data : CreateDeploymentRequest)
  : Async Row :=
  deploymentId <- new_uuid ;;
  projectCheck <- query (select [projectId; userId]
                           (fun d => owned_projects d projectId userId)) ;;
  match projectCheck with
  | [] => Throw (ApiError HTTP_STATUS.NOT_FOUND ERROR_CODES.PROJECT_NOT_FOUND "Project not found")
  | _ :: _ =>
    envCheck <- query (select [environmentId data; projectId]
                         (fun d => project_environments d (environmentId data) projectId)) ;;
    match envCheck with
    | [] => Throw (ApiError HTTP_STATUS.NOT_FOUND ERROR_CODES.NOT_FOUND "Environment not found")
    | _ :: _ =>
      deployment <- query (insert_deployment deploymentId projectId (environmentId data)
                             pending (or_null (commitSha data))
                             (or_null (commitMessage data))) ;;
      spawn (PipelineTask deploymentId projectId (environmentId data) userId) ;;
      Ret (row_of_deployment deployment)
    end
  end.

(** Never called in the repository. *)
Definition executeWebhookDeployment (deploymentId : string) : Async unit :=
  try_catch
    (result <- query (select [deploymentId]
                        (fun d => filter (fun x => same_uuid (Deployment.id x) deploymentId)
                                         (deployments d))) ;;
     match result with
     | [] => Ret tt
     | deployment :: _ =>
       projectResult <- query (select [Deployment.project_id deployment]
         (fun d => filter (fun p => same_uuid (Project.id p) (Deployment.project_id deployment))
                          (projects d))) ;;
       match projectResult with
       | [] => Ret tt
       | p :: _ =>
         spawn (PipelineTask (Deployment.id deployment) (Deployment.project_id deployment)
                             (Deployment.environment_id deployment) (Project.user_id p))
       end
     end)
    (fun _ => Ret tt).

Definition set_building (d : Deployment.t) : Deployment.t :=
  Deployment.mk (Deployment.id d) (Deployment.project_id d) (Deployment.environment_id d)
    (Deployment.commit_sha d) (Deployment.commit_message d)
    building
    (Deployment.duration_seconds d) (Deployment.deployed_at d)
    (Deployment.container_id d) (Deployment.container_port d)
    (Deployment.error_message d) (Deployment.created_at d) (Deployment.updated_at d).

Definition set_success (containerId : string) (port duration now : Z)
    (d : Deployment.t) : Deployment.t :=
  Deployment.mk (Deployment.id d) (Deployment.project_id d) (Deployment.environment_id d)
    (Deployment.commit_sha d) (Deployment.commit_message d)
    success
    (Some duration) (Some now)
    (Some containerId) (Some port)
    (Deployment.error_message d) (Deployment.created_at d) now.

Definition set_failed (errorMessage : string) (duration now : Z)
    (d : Deployment.t) : Deployment.t :=
  Deployment.mk (Deployment.id d) (Deployment.project_id d) (Deployment.environment_id d)
    (Deployment.commit_sha d) (Deployment.commit_message d)
    failed
    (Some duration) (Deployment.deployed_at d)
    (Deployment.container_id d) (Deployment.container_port d)
    (Some errorMessage) (Deployment.created_at d) now.

Definition set_cancelled (now : Z) (d : Deployment.t) : Deployment.t :=
  Deployment.mk (Deployment.id d) (Deployment.project_id d) (Deployment.environment_id d)
    (Deployment.commit_sha d) (Deployment.commit_message d)
    cancelled
    (Deployment.duration_seconds d) (Deployment.deployed_at d)
    (Deployment.container_id d) (Deployment.container_port d)
    (Deployment.error_message d) (Deployment.created_at d) now.

(** [UPDATE deployments SET ... WHERE id = $n], for an id that the database
    has accepted before: the id of a row it has returned, or a value of
    [uuidv4()]. *)
Definition update (id : string) (set : Z -> Deployment.t -> Deployment.t) : Async unit :=
  query (fun now d => (inr tt, update_deployments d id (set now))).

(** [await NginxConfigService.applyNginxConfig()] *)
Definition applyNginx : Async unit :=
  await (fun s => (applyNginxConfig (db s), emit EvNginxApply s)).

(** The handler of the pipeline's [catch (error)]. *)
Definition on_pipeline_error (deploymentId : string) (startTime : Z) (error : Exn)
  : Async unit :=
  now <- Date_now ;;
  let duration := (now - startTime) / 1000 in
  let errorMessage := if instanceof_Error error then message error else "Unknown error" in
  update deploymentId (set_failed errorMessage duration) ;;
  addDeploymentLog deploymentId "error" ("Deployment failed: " ++ errorMessage).

(** The block under [// Regenerate nginx config with new deployment]. *)
Definition regenerate_nginx (deploymentId : string) : Async unit :=
  addDeploymentLog deploymentId "info" "Updating nginx configuration..." ;;
  try_catch
    (applyNginx ;;
     addDeploymentLog deploymentId "info"
       "Nginx configuration updated - app now accessible at subdomain")
    (fun nginxError =>
       addDeploymentLog deploymentId "warn"
         "Deployment successful but nginx config update failed (may require manual setup)").

(** The [try] block of [executeDeployment].  The function is private: its
    ids are the ones [createDeployment] has had the database accept in its
    own statements, or the columns of a row ([executeWebhookDeployment]), so
    the two SELECTs are not refused for the syntax of an id. *)
Definition pipeline (deploymentId projectId environmentId : string) (startTime : Z)
  : Async unit :=
  update deploymentId (fun _ => set_building) ;;
  addDeploymentLog deploymentId "info" "Starting deployment pipeline..." ;;
  envVariables <- query (fun _ d =>
    (inr match find_environment d environmentId with
         | Some e => Environment.environment_variables e
         | None => []
         end, d)) ;;
  repositoryUrl <- query (fun _ d =>
    (inr match find_project d projectId with
         | Some p => Project.repository_url p
         | None => None
         end, d)) ;;
  addDeploymentLog deploymentId "info" "Building Docker image..." ;;
  image <- DockerService.buildImage projectId deploymentId repositoryUrl ;;
  addDeploymentLog deploymentId "info"
    ("Docker image built: " ++ DockerService.imageName image) ;;
  addDeploymentLog deploymentId "info" "Starting container..." ;;
  started <- DockerService.runContainer (DockerService.imageName image) projectId
               environmentId envVariables (DockerService.framework image) ;;
  let containerId := fst started in
  let port := snd started in
  addDeploymentLog deploymentId "info" ("Container running on port " ++ show port) ;;
  now <- Date_now ;;
  let duration := (now - startTime) / 1000 in
  update deploymentId (set_success containerId port duration) ;;
  addDeploymentLog deploymentId "info"
    ("Deployment completed successfully in " ++ show duration ++ "s") ;;
  regenerate_nginx deploymentId.

Definition executeDeployment (deploymentId projectId environmentId userId : string)
  : Async unit :=
  startTime <- Date_now ;;
  try_catch (pipeline deploymentId projectId environmentId startTime)
            (on_pipeline_error deploymentId startTime).

(** [FROM deployments d JOIN projects p ON d.project_id = p.id
    WHERE d.id = $1 AND p.user_id = $2] *)
Definition select_deployment (d : Db) (deploymentId userId : string)
  : list Deployment.t :=
  filter (fun x =>
            same_uuid (Deployment.id x) deploymentId
            && existsb (fun p => (Project.id p =? Deployment.project_id x)%string
                                 && same_uuid (Project.user_id p) userId)
                       (projects d))
         (deployments d).

Definition getDeployment (deploymentId userId : string) : Async Row :=
  result <- query (select [deploymentId; userId]
                     (fun d => select_deployment d deploymentId userId)) ;;
  match result with
  | [] => Throw (ApiError HTTP_STATUS.NOT_FOUND ERROR_CODES.NOT_FOUND "Deployment not found")
  | x :: _ => Ret (row_of_deployment x)
  end.

(** [WHERE project_id = $1 AND environment_id = $2 AND status = $3 AND
    created_at < $4 ORDER BY created_at DESC LIMIT 1] *)
Definition previous_successful (projectId environmentId createdAt : JsValue) (d : Db)
  : list Deployment.t :=
  latest (filter (fun x =>
                    sql_eq_uuid (Deployment.project_id x) projectId
                    && sql_eq_uuid (Deployment.environment_id x) environmentId
                    && status_eqb (Deployment.status x) success
                    && sql_lt_timestamp (Deployment.created_at x) createdAt)
                 (deployments d)).

(** [currentDeployment] is the row object of [getDeployment]; the service
  reads its properties [projectId], [environmentId], [createdAt] and
  [containerId].  A [containerId] that is a string is passed to
  [stopContainer]; [undefined] and [null] are falsy. *)
Definition rollbackDeployment (deploymentId userId : string) : Async Row :=
  currentDeployment <- getDeployment deploymentId userId ;;
  previousResult <- query (fun _ d =>
    (inr (previous_successful (prop currentDeployment "projectId")
                              (prop currentDeployment "environmentId")
                              (prop currentDeployment "createdAt") d), d)) ;;
  match previousResult with
  | [] => Throw (ApiError HTTP_STATUS.BAD_REQUEST ERROR_CODES.VALIDATION_ERROR
                          "No previous successful deployment found")
  | previousDeployment :: _ =>
    match prop currentDeployment "containerId" with
    | JsString c =>
        if truthy (JsString c)
        then try_catch (DockerService.stopContainer c) (fun _ => Ret tt)
        else Ret tt
    | _ => Ret tt
    end ;;
    addDeploymentLog deploymentId "info"
      ("Rolling back to deployment " ++ Deployment.id previousDeployment) ;;
    Ret (row_of_deployment previousDeployment)
  end.

(** [deployment.status] and [deployment.containerId] are read from the row
  object in the same way. *)
Definition cancelDeployment (deploymentId userId : string) : Async unit :=
  deployment <- getDeployment deploymentId userId ;;
  if negb (strict_eq (prop deployment "status") (JsString (status_text pending)))
     && negb (strict_eq (prop deployment "status") (JsString (status_text building)))
  then Throw (ApiError HTTP_STATUS.BAD_REQUEST ERROR_CODES.VALIDATION_ERROR
                       "Cannot cancel completed deployment")
  else
    match prop deployment "containerId" with
    | JsString c =>
        if truthy (JsString c)
        then try_catch (DockerService.stopContainer c) (fun _ => Ret tt)
        else Ret tt
    | _ => Ret tt
    end ;;
    update deploymentId set_cancelled ;;
    addDeploymentLog deploymentId "info" "Deployment cancelled by user".

End DeploymentService.
End DeploymentService.

(* ===================================================================== *)
(** * WebhookService (src/services/WebhookService.ts) and the route
      POST /webhooks/github/:projectId (src/routes/webhooks.ts) *)
(* ===================================================================== *)

(** The fields of the push event the service reads; [pusher_name] is
    [payload.pusher?.name], [sender_login] is [payload.sender?.login]. *)
Record PushPayload : Type := mkPushPayload {
  ref : option string;
  after : option string;
  pusher_name : option string;
  sender_login : option string
}.

Module PushResult.
Record t : Type := mk {
  success : bool;
  deploymentId : option string;
  message : string
}.
End PushResult.

(** [ref.split('/').pop()] *)
Fixpoint last_segment (s acc : string) : string :=
  match s with
  | EmptyString => acc
  | String c s' =>
      if Ascii.eqb c "/"%char then last_segment s' EmptyString
      else last_segment s' (acc ++ String c EmptyString)
  end.

(** [ORDER BY name ASC LIMIT 1] *)
Fixpoint first_by_name (rows : list Environment.t) : list Environment.t :=
  match rows with
  | [] => []
  | e :: rest =>
      match first_by_name rest with
      | [] => [e]
      | m :: _ => if String.leb (Environment.name e) (Environment.name m) then [e] else [m]
      end
  end.

Module WebhookService.
Section WebhookService.
Context {host : Host}.

(** [crypto.timingSafeEqual(Buffer.from(a), Buffer.from(b))]: throws when
    the byte lengths differ, otherwise tells whether the bytes are equal. *)
Definition timingSafeEqual (a b : string) : Result bool :=
  if (String.length a =? String.length b)%nat
  then inr (a =? b)%string
  else inl (Error "Input buffers must have the same byte length").

(** [payload] is [None] when the request carries no [rawBody]:
    [hmac.update(undefined)] throws. *)
Definition verifySignature (payload : option string) (signature secret : string)
  : Result bool :=
  match payload with
  | None => inl (Error "The data argument must be of type string or an instance of Buffer, TypedArray, or DataView. Received undefined")
  | Some p =>
      let hash := ("sha256=" ++ Sha256.hmac_sha256_hex secret p)%string in
      timingSafeEqual hash signature
  end.

Definition handlePushWebhook (payload : PushPayload) (projectId : string)
  : Async PushResult.t :=
  try_catch
    (projectResult <- query (select [projectId] (fun d => live_projects d projectId)) ;;
     match projectResult with
     | [] => Ret (PushResult.mk false None "Project not found")
     | project :: _ =>
       let ref := or_else (ref payload) EmptyString in
       let branch := or_else (Some (last_segment ref EmptyString)) "main" in
       envResult <- query (select [projectId]
         (fun d => first_by_name (live_environments d projectId))) ;;
       match or_null (option_map Environment.id (hd_error envResult)) with
       | None => Ret (PushResult.mk false None "No environment configured for this project")
       | Some environmentId =>
         deploymentId <- new_uuid ;;
         let commit := or_else (after payload) "unknown" in
         let committer :=
           or_else (pusher_name payload) (or_else (sender_login payload) "Unknown") in
         let commitMessage :=
           ("Webhook deployment from " ++ committer ++ " on " ++ branch)%string in
         query (insert_deployment deploymentId projectId environmentId pending
                                  (Some commit) (Some commitMessage)) ;;
         DeploymentService.spawn (WebhookReadyCheck deploymentId) ;;
         Ret (PushResult.mk true (Some deploymentId)
                            ("Deployment triggered for " ++ branch ++ " branch"))
       end
     end)
    (fun error =>
       Ret (PushResult.mk false None ("Webhook processing failed: " ++ toString error))).

End WebhookService.
End WebhookService.

(** The request as the route handler reads it. *)
Record Request : Type := mkRequest {
  projectId : string;                       (* req.params.projectId *)
  x_hub_signature_256 : option string;      (* header *)
  x_github_event : option string;           (* header *)
  rawBody : option string;                  (* set by parseWebhookBody for a Buffer body *)
  body : PushPayload                        (* req.body *)
}.

Inductive ResponseData : Type :=
| DataDeploymentId (deploymentId : option string)
| DataPong
| DataIgnored.

Inductive Response : Type :=
| sendError (statusCode : Z) (errorCode message : string)
| sendSuccess (data : ResponseData) (message : string)
| next (error : Exn).

(** [eventType === name] for a header that may be missing. *)
Definition is_event (eventType : option string) (name : string) : bool :=
  match eventType with
  | Some e => (e =? name)%string
  | None => false
  end.

Module Routes.
Section Routes.
Context {host : Host}.

Definition github_webhook (req : Request) : Async Response :=
  try_catch
    (match x_hub_signature_256 req with
     | None | Some EmptyString =>
         Ret (sendError HTTP_STATUS.UNAUTHORIZED "MISSING_SIGNATURE"
                        "Missing X-Hub-Signature-256 header")
     | Some signature =>
       result <- query (select [projectId req]
                          (fun d => live_projects d (projectId req))) ;;
       match result with
       | [] => Ret (sendError HTTP_STATUS.NOT_FOUND "PROJECT_NOT_FOUND" "Project not found")
       | p :: _ =>
         match or_null (Project.webhook_secret p) with
         | None =>
             Ret (sendError HTTP_STATUS.BAD_REQUEST "WEBHOOK_NOT_CONFIGURED"
                    "Webhook is not configured for this project. Generate a secret first.")
         | Some webhookSecret =>
           match WebhookService.verifySignature (rawBody req) signature webhookSecret with
           | inl _ =>
               Ret (sendError HTTP_STATUS.UNAUTHORIZED "INVALID_SIGNATURE"
                              "Invalid webhook signature")
           | inr _ =>
             let eventType := x_github_event req in
             if is_event eventType "push" then
               result <- WebhookService.handlePushWebhook (body req) (projectId req) ;;
               if negb (PushResult.success result)
               then Ret (sendError HTTP_STATUS.BAD_REQUEST "WEBHOOK_FAILED"
                                   (PushResult.message result))
               else Ret (sendSuccess (DataDeploymentId (PushResult.deploymentId result))
                                     (PushResult.message result))
             else if is_event eventType "ping" then
               Ret (sendSuccess DataPong "Pong!")
             else
               Ret (sendSuccess DataIgnored
                      ("Event type '"
                       ++ match eventType with Some e => e | None => "undefined" end
                       ++ "' is not handled"))
           end
         end
       end
     end)
    (fun error => Ret (next error)).

End Routes.
End Routes.

(* ===================================================================== *)
(** * The event loop: tasks started without being awaited *)
(* ===================================================================== *)

Section EventLoop.
Context {host : Host}.

Definition program (t : Task) : Async unit :=
  match t with
  | PipelineTask deploymentId projectId environmentId userId =>
      (* executeDeployment(...).catch(console.error) *)
      try_catch (DeploymentService.executeDeployment deploymentId projectId
                   environmentId userId)
                (fun _ => Ret tt)
  | WebhookReadyCheck deploymentId =>
      (* the setImmediate callback of handlePushWebhook *)
      try_catch
        (_ <- query (select [deploymentId]
                       (fun d => filter (fun x => same_uuid (Deployment.id x) deploymentId)
                                        (deployments d))) ;;
         Ret tt)
        (fun _ => Ret tt)
  end.

(** Run the queued tasks, oldest first, each to completion. *)
Fixpoint drain (fuel : nat) (s : Sys) : Sys :=
  match fuel with
  | O => s
  | S fuel' =>
      match spawned s with
      | [] => s
      | t :: rest =>
          drain fuel'
            (snd (run (program t)
                      (mkSys (db s) (docker s) (clock s) (uuids s) (randoms s)
                             rest (trace s))))
      end
  end.

End EventLoop.

(* ===================================================================== *)
(** * Observations used in the statements *)
(* ===================================================================== *)

(** Whether the daemon has a running container under [ref]. *)
Definition is_running (d : Docker.t) (ref : string) : bool :=
  match Docker.lookup d ref with
  | Some c => Docker.Running c
  | None => false
  end.

(** The daemon calls of one [stopContainer ref]: inspect, stop with the ten
    second grace period when the container runs, remove. *)
Definition stop_events (running : bool) (ref : string) : list Event :=
  [EvInspect ref] ++ (if running then [EvStop ref 10] else []) ++ [EvRemove ref].

(** How the container runtime reads the [Env] array it is given (outside the
    repository): an entry is [name=value], split at its first [=], and of two
    entries for one name the later one stands. *)
Fixpoint split_entry (entry : string) : string * string :=
  match entry with
  | EmptyString => (EmptyString, EmptyString)
  | String c rest =>
      if Ascii.eqb c "="%char then (EmptyString, rest)
      else let (n, v) := split_entry rest in (String c n, v)
  end.

Definition getenv (env : list string) (name : string) : option string :=
  fold_left (fun found entry =>
               let (n, v) := split_entry entry in
               if (n =? name)%string then Some v else found)
            env None.

(** The value the mapping holds for a name. *)
Fixpoint assoc (name : string) (l : list (string * string)) : option string :=
  match l with
  | [] => None
  | (k, v) :: rest => if (k =? name)%string then Some v else assoc name rest
  end.

(** A name without [=]. *)
Fixpoint plain_name (name : string) : bool :=
  match name with
  | EmptyString => true
  | String c rest => negb (Ascii.eqb c "="%char) && plain_name rest
  end.

(** The system after one [addDeploymentLog] on an existing deployment: the
    entry is last in the table, stamped with the clock, and one uuid is used. *)
Definition appended_log {host : Host} (deploymentId level message : string) (s : Sys) : Sys :=
  mkSys (mkDb (projects (db s)) (environments (db s)) (deployments (db s))
              (deployment_logs (db s)
               ++ [DeploymentLog.mk (uuidv4 (uuids s)) (canonical deploymentId)
                                    level message (clock s)]))
        (docker s) (clock s) (S (uuids s)) (randoms s) (spawned s) (trace s).

(** Invariants of the effects: the ids in the deployments table and the task
    queue stay ([keeps]); the deployments table stays as a whole ([keeps_rows]). *)
Definition keeps (s s' : Sys) : Prop :=
  map Deployment.id (deployments (db s')) = map Deployment.id (deployments (db s))
  /\ spawned s' = spawned s.

Definition keeps_rows (s s' : Sys) : Prop :=
  deployments (db s') = deployments (db s).

Definition preserves_id (f : Deployment.t -> Deployment.t) : Prop :=
  forall d, Deployment.id (f d) = Deployment.id d.

(** The deployment is [success] with duration, container and port recorded. *)
Definition deployed (id : string) (s : Sys) : Prop :=
  exists d, find_deployment (db s) id = Some d
    /\ Deployment.status d = success
    /\ exists n c port, Deployment.duration_seconds d = Some n
                        /\ Deployment.container_id d = Some c
                        /\ Deployment.container_port d = Some port.

(** The variables the environment row holds, none when there is no row:
    [envResult.rows[0]?.environment_variables || {}]. *)
Definition variables_of (d : Db) (environmentId : string) : list (string * string) :=
  match find_environment d environmentId with
  | Some e => Environment.environment_variables e
  | None => []
  end.

(** The container is in the daemon, running, and its [Env] is made of
    [envVariables]. *)
Definition runs_with (containerId : string) (envVariables : list (string * string))
    (s : Sys) : Prop :=
  exists c, In c (Docker.containers (docker s)) /\
            Docker.Id c = containerId /\
            Docker.Running c = true /\
            Docker.Env (Docker.Config c) = DockerService.container_env envVariables.

(** The deployment is [success] and the container its record names runs
    with [envVariables]. *)
Definition deployed_with (id : string) (envVariables : list (string * string))
    (s : Sys) : Prop :=
  exists d containerId,
    find_deployment (db s) id = Some d /\
    Deployment.status d = success /\
    Deployment.container_id d = Some containerId /\
    runs_with containerId envVariables s.

(** Neither the deployments table nor the daemon changes. *)
Definition keeps_rows_and_daemon (s s' : Sys) : Prop :=
  deployments (db s') = deployments (db s) /\ docker s' = docker s.

(** The deployment is [success] or [failed], and its duration is the whole
    seconds between [startTime] and the UPDATE that made it so. *)
Definition measured (id : string) (startTime : Z) (s : Sys) : Prop :=
  exists d, find_deployment (db s) id = Some d /\
    (Deployment.status d = success \/ Deployment.status d = failed) /\
    Deployment.duration_seconds d = Some ((Deployment.updated_at d - startTime) / 1000).

(** Partial correctness of an asynchronous function that settles normally. *)
Definition triple {A : Type} (P : Sys -> Prop) (m : Async A) (Q : A -> Sys -> Prop) : Prop :=
  forall s, P s ->
    match run m s with
    | (inr a, s') => Q a s'
    | (inl _, _) => True
    end.

(** Every exception of [m], started where [P] holds, satisfies [E]. *)
Definition raises_only {A : Type} (P : Sys -> Prop) (m : Async A) (E : Exn -> Prop) : Prop :=
  forall s e s', P s -> run m s = (inl e, s') -> E e.

(** What the build step and the run step throw. *)
Definition build_or_run_error (e : Exn) : Prop :=
  exists cause,
    e = Error ("Failed to build Docker image: " ++ toString cause)
    \/ e = Error ("Failed to run Docker container: " ++ toString cause).

(** Tasks that are not a pipeline. *)
Definition is_ready_check (t : Task) : Prop := exists d, t = WebhookReadyCheck d.

Definition spawns_no_pipeline (s s' : Sys) : Prop :=
  exists l, spawned s' = spawned s ++ l /\ Forall is_ready_check l.

(* ===================================================================== *)
(** * Concrete systems used in the examples *)
(* ===================================================================== *)

Module Fixture.

Definition command_fails (command : string) : Result string :=
  inl (Error ("Command failed: " ++ command)).

(** A host on which every shell command succeeds and nginx reloads. *)
Definition host_ok : Host :=
  mkHost (fun n => repeat 0 15 ++ [Z.of_nat n])
         (fun n => 342 + Z.of_nat n)
         (fun n => "container-" ++ show (Z.of_nat n))%string
         (fun _ => inr EmptyString)
         (fun _ => Dependencies [("express", JsonString "^4.18.2")]%string [])
         (fun _ => inr tt)
         (fun e => match e with EvExec _ => 45000 | _ => 100 end).

(** A host on which every shell command fails, [git clone] included. *)
Definition host_clone_fails : Host :=
  mkHost (fun n => repeat 0 15 ++ [Z.of_nat n])
         (fun n => 342 + Z.of_nat n)
         (fun n => "container-" ++ show (Z.of_nat n))%string
         command_fails
         (fun _ => NoManifest)
         (fun _ => inr tt)
         (fun e => match e with EvExec _ => 2000 | _ => 100 end).

(** A host on which the nginx reconfiguration fails. *)
Definition host_nginx_fails : Host :=
  mkHost (fun n => repeat 0 15 ++ [Z.of_nat n])
         (fun n => 342 + Z.of_nat n)
         (fun n => "container-" ++ show (Z.of_nat n))%string
         (fun _ => inr EmptyString)
         (fun _ => Dependencies [("express", JsonString "^4.18.2")]%string [])
         (fun _ => inl (Error "nginx: configuration file test failed"))
         (fun e => match e with EvExec _ => 45000 | _ => 100 end).

(** Ids: of a user, a project, an environment, stored deployments, and the
    first value of [uuidv4()] on the hosts above. *)
Definition u1 : string := "7a1f0c52-9d3e-4b61-8a27-5c0e9b4d1f36".
Definition u2 : string := "b6e8f0a2-4c1d-4f93-a5b7-d9e1f3a5c7b9".
Definition p1 : string := "c2d8e4a6-1b3f-4a5c-9e7d-0f2a4c6e8b10".
Definition e1 : string := "e5b7a9c1-3d2f-4e6a-8c0b-1a3c5e7f9b2d".
Definition d1 : string := "0d1e2f3a-4b5c-4d6e-8f70-8192a3b4c5d6".
Definition d2 : string := "1e2f3a4b-5c6d-4e7f-8091-a2b3c4d5e6f7".
Definition d3 : string := "2f3a4b5c-6d7e-4f80-91a2-b3c4d5e6f708".
Definition p9 : string := "93c5e7a9-b1d3-4f57-8a9c-e1f3a5c7e9b1".
Definition e9 : string := "a4d6f8b0-c2e4-4a68-9bad-f2a4c6e8f0b2".
Definition deployment0 : string := "00000000-0000-4000-8000-000000000000".

Definition project1 : Project.t :=
  Project.mk p1 u1 "demo" "demo" (Some "https://example.org/demo.git")
             (Some "s3cret") None.

Definition env1 : Environment.t :=
  Environment.mk e1 p1 "production" [("APP_NAME", "demo")] None.

Definition db0 : Db := mkDb [project1] [env1] [] [].

Definition sys (d : Db) : Sys :=
  mkSys d (Docker.mk [] [] 0) 1000000 0 0 [] [].

Definition push1 : PushPayload :=
  mkPushPayload (Some "refs/heads/main")
                (Some "3f786850e387550fdab836ed7e6dc881de23001b")
                (Some "octocat") None.

(** The parsed body of the payload [{}]. *)
Definition empty_push : PushPayload := mkPushPayload None None None None.

Definition push_request (signature payload : string) : Request :=
  mkRequest p1 (Some signature) (Some "push") (Some payload) empty_push.

Definition request1 : CreateDeploymentRequest :=
  mkCreateDeploymentRequest e1 None None.

(** A deployment created through the API on host [h]; its pipeline task is
    taken off the queue, not yet run. *)
Definition created (h : Host) : Sys :=
  let s := snd (run (DeploymentService.createDeployment (host := h) p1 u1 request1)
                    (sys db0)) in
  mkSys (db s) (docker s) (clock s) (uuids s) (randoms s) [] (trace s).

(** The pipeline of that deployment after [n] awaited effects ... *)
Definition paused (h : Host) (n : nat) : Async unit * Sys :=
  steps n (program (host := h) (PipelineTask deployment0 p1 e1 u1)) (created h).

(** ... a cancel request served at that point ... *)
Definition cancel_at (h : Host) (n : nat) : Result unit * Sys :=
  run (DeploymentService.cancelDeployment (host := h) deployment0 u1) (snd (paused h n)).

(** ... and the rest of the pipeline. *)
Definition resumed (h : Host) (n : nat) : Result unit * Sys :=
  run (fst (paused h n)) (snd (cancel_at h n)).

Definition status_in (s : Sys) : option Status :=
  option_map Deployment.status (find_deployment (db s) deployment0).

(** The record of that deployment once its pipeline has run on [host_ok]. *)
Definition deployed0 : Deployment.t :=
  Deployment.mk deployment0 p1 e1 None None success (Some 270) (Some 1270300)
                (Some "container-0") (Some 8342) None 1000000 1270300.

(** Two deployments of one environment: [old] succeeded, [new] came later. *)
Definition old : Deployment.t :=
  Deployment.mk d1 p1 e1 None None success (Some 120) (Some 1120000)
                (Some "container-0") (Some 8342) None 1000000 1120000.

Definition new : Deployment.t :=
  Deployment.mk d2 p1 e1 None None success (Some 95) (Some 2095000)
                (Some "container-1") (Some 8417) None 2000000 2095000.

Definition db_two : Db := mkDb [project1] [env1] [old; new] [].

(** A deployment still [building] whose row names a container, and the
    daemon running that container. *)
Definition rebuilding : Deployment.t :=
  Deployment.mk d3 p1 e1 None None building None None
                (Some "container-0") (Some 8342) None 3000000 3000000.

Definition sys_rebuilding : Sys :=
  mkSys (mkDb [project1] [env1] [rebuilding] [])
        (Docker.mk [Docker.mkContainer "container-0"
                      (DockerService.container_options "gilgal-p1-aaaa" p1 e1
                         [("APP_NAME", "demo")] "express" 8342)
                      true]
                   ["gilgal-p1-aaaa"] 1)
        3100000 0 0 [] [].

(** The created deployment on a daemon where another container already runs
  on the port that will be drawn. *)
Definition created_port_taken : Sys :=
  with_docker (created host_ok)
    (Docker.mk [Docker.mkContainer "container-0"
                  (DockerService.container_options "gilgal-p9-bbbb" p9 e9 [] "node" 8342)
                  true]
               ["gilgal-p9-bbbb"] 1).

End Fixture.


(* ===================================================================== *)
(** * The rest of the services and routes

    The functions around the ones above: the callers of the services (the
    routers and the app), the other functions of the same files, and the
    observations their properties are stated with. *)
(* ===================================================================== *)

From Stdlib Require Import Permutation Sorted.

(* ===================================================================== *)
(** * Further observations: the webhook service *)
(* ===================================================================== *)

(** A string without [/]. *)
Fixpoint no_slash (s : string) : bool :=
  match s with
  | EmptyString => true
  | String c rest => negb (Ascii.eqb c "/"%char) && no_slash rest
  end.

(** The [branch] of [handlePushWebhook]:
    [(payload.ref || '').split('/').pop() || 'main']. *)
Definition branch_of (ref : option string) : string :=
  or_else (Some (last_segment (or_else ref EmptyString) EmptyString)) "main".

(** The system after one [uuidv4()]. *)
Definition used_uuid (s : Sys) : Sys :=
  mkSys (db s) (docker s) (clock s) (S (uuids s)) (randoms s) (spawned s) (trace s).

(** Nothing but the uuid and random counters differs. *)
Definition unchanged (s s' : Sys) : Prop :=
  db s' = db s /\ docker s' = docker s /\ spawned s' = spawned s /\ trace s' = trace s.

(* ===================================================================== *)
(** * The webhook router (src/routes/webhooks.ts) *)
(* ===================================================================== *)

(** [req.body] as it reaches the router: a [Buffer] when no body parser ran
    before, otherwise the object a parser made of it. *)
Inductive Body : Type :=
| BufferBody (bytes : string)
| ParsedBody (payload : PushPayload).

Record Incoming : Type := mkIncoming {
  in_projectId : string;
  in_signature : option string;
  in_event : option string;
  in_body : Body
}.

(** The answers of the route before the event is looked at. *)
Definition early_answers : list (Z * string) :=
  [ (401, "MISSING_SIGNATURE"); (404, "PROJECT_NOT_FOUND");
    (400, "WEBHOOK_NOT_CONFIGURED"); (401, "INVALID_SIGNATURE") ]%string.

Module WebhookRouter.
Section WebhookRouter.
Context {host : Host}.

(** [JSON.parse], as far as the fields of the push event go. *)
Variable JSON_parse : string -> Result PushPayload.

(** [parseWebhookBody]: answers itself, or passes the request on. *)
Definition parseWebhookBody (req : Incoming) : Response + Request :=
  match in_body req with
  | BufferBody bytes =>
      match JSON_parse bytes with
      | inr payload =>
          inr (mkRequest (in_projectId req) (in_signature req) (in_event req)
                         (Some bytes) payload)
      | inl _ =>
          inl (sendError HTTP_STATUS.BAD_REQUEST "INVALID_JSON"
                         "Request body is not valid JSON")
      end
  | ParsedBody payload =>
      inr (mkRequest (in_projectId req) (in_signature req) (in_event req) None payload)
  end.

(** [router.use(parseWebhookBody)] followed by the route. *)
Definition post_github (req : Incoming) : Async Response :=
  match parseWebhookBody req with
  | inl response => Ret response
  | inr req' => Routes.github_webhook req'
  end.

End WebhookRouter.
End WebhookRouter.

(* ===================================================================== *)
(** * Further observations: the deployment service *)
(* ===================================================================== *)

(** [error instanceof ApiError] *)
Definition instanceof_ApiError (e : Exn) : bool :=
  match e with
  | ApiError _ _ _ => true
  | _ => false
  end.

(** What a pipeline of deployment [id] may change: rows of [deployments]
    that are the row of [id], and log entries of [id] at the end of
    [deployment_logs]; nothing else in the tables, and not the queue. *)
Definition same_or_own (id : string) (x x' : Deployment.t) : Prop :=
  x' = x \/ (Deployment.id x = canonical id /\ Deployment.id x' = canonical id).

Definition isolated (id : string) (s s' : Sys) : Prop :=
  Forall2 (same_or_own id) (deployments (db s)) (deployments (db s')) /\
  projects (db s') = projects (db s) /\
  environments (db s') = environments (db s) /\
  (exists l, deployment_logs (db s') = deployment_logs (db s) ++ l /\
             Forall (fun e => DeploymentLog.deployment_id e = canonical id) l) /\
  spawned s' = spawned s.

(* ===================================================================== *)
(** * Further observations: the Docker service *)
(* ===================================================================== *)

(** [`gilgal-${projectId}-${environmentId.substring(0, 8)}`] *)
Definition containerName (projectId environmentId : string) : string :=
  ("gilgal-" ++ projectId ++ "-" ++ substring 0 8 environmentId)%string.

(** The port [allocatePort] draws next. *)
Definition drawn_port {host : Host} (s : Sys) : Z :=
  8000 + random1000 (randoms s) mod 1000.

(** What the steps of [buildImage] before [docker build] change: the clock,
    the uuid counter and the record of external calls, nothing else. *)
Definition before_build (s s' : Sys) : Prop :=
  docker s' = docker s /\ db s' = db s /\ spawned s' = spawned s /\
  exists events, trace s' = trace s ++ events.

(** [`docker build -t ${imageName} ${tempDir}`] of [buildImage]. *)
Definition build_command (imageName deploymentId : string) : string :=
  ("docker build -t " ++ imageName ++ " " ++ "/tmp/gilgal-" ++ deploymentId)%string.

Definition frameworks : list string := ["react"; "next"; "express"; "node"]%string.

(* ===================================================================== *)
(** * Answers of the API (src/utils/error.ts) *)
(* ===================================================================== *)

Module Http.

(** What a handler does with a request: [sendError], [sendSuccess] with its
    data, message and status code, or [next(error)]. *)
Inductive Reply (D : Type) : Type :=
| sendError (statusCode : Z) (errorCode message : string)
| sendSuccess (data : D) (message : string) (statusCode : Z)
| next (error : Exn).

Arguments sendError {D} statusCode errorCode message.
Arguments sendSuccess {D} data message statusCode.
Arguments next {D} error.

(** [errorHandler], the last middleware of the app. *)
Definition errorHandler {D : Type} (error : Exn) : Reply D :=
  match error with
  | ApiError statusCode errorCode message => sendError statusCode errorCode message
  | _ => sendError 500 "INTERNAL_SERVER_ERROR" "An unexpected error occurred"
  end.

(** The answer that leaves the app: an error handed to [next] goes through
    [errorHandler]. *)
Definition respond {D : Type} (r : Reply D) : Reply D :=
  match r with
  | next error => errorHandler error
  | _ => r
  end.

End Http.

(* ===================================================================== *)
(** * Tokens (src/utils/jwt.ts) and authMiddleware (src/middleware/auth.ts) *)
(* ===================================================================== *)

Module JwtPayload.
Record t : Type := mk {
  userId : string;
  email : string;
  username : string;
  iat : Z;
  exp : Z
}.

(** The decoded token as the object [req.user]. *)
Definition object (p : t) : Row :=
  [ ("userId", JsString (userId p));
    ("email", JsString (email p));
    ("username", JsString (username p));
    ("iat", JsNumber (iat p));
    ("exp", JsNumber (exp p)) ].
End JwtPayload.

(** [s.split(sep)] for a separator of one character. *)
Fixpoint split (sep : ascii) (s : string) : list string :=
  match s with
  | EmptyString => [EmptyString]
  | String c rest =>
      if Ascii.eqb c sep then EmptyString :: split sep rest
      else match split sep rest with
           | part :: parts => String c part :: parts
           | [] => [String c EmptyString]
           end
  end.

(** A string without a space. *)
Fixpoint no_space (s : string) : bool :=
  match s with
  | EmptyString => true
  | String c rest => negb (Ascii.eqb c " "%char) && no_space rest
  end.

Module Jwt.

(** What [jwt.verify(token, secret)] does. *)
Inductive Verified : Type :=
| Decoded (payload : JwtPayload.t)
| TokenExpiredError
| OtherError.

Section Jwt.
Variable jwt_verify : string -> Verified.

Definition verifyToken (token : string) : Result JwtPayload.t :=
  match jwt_verify token with
  | Decoded payload => inr payload
  | TokenExpiredError => inl (ApiError 401 "TOKEN_EXPIRED" "Token has expired")
  | OtherError => inl (ApiError 401 "INVALID_TOKEN" "Invalid token")
  end.

Definition extractTokenFromHeader (authHeader : option string) : Result string :=
  match authHeader with
  | None | Some EmptyString =>
      inl (ApiError 401 "UNAUTHORIZED" "Missing authorization header")
  | Some header =>
      match split " "%char header with
      | [scheme; token] =>
          if (scheme =? "Bearer")%string then inr token
          else inl (ApiError 401 "INVALID_TOKEN" "Invalid authorization header format")
      | _ => inl (ApiError 401 "INVALID_TOKEN" "Invalid authorization header format")
      end
  end.

(** What [authMiddleware] does with the request. *)
Inductive Gate : Type :=
| passed (user : JwtPayload.t)                 (* req.user = decoded; next() *)
| answered (statusCode : Z) (errorCode message : string)
| failed_with (error : Exn).                   (* next(error) *)

Definition authMiddleware (authorization : option string) : Gate :=
  match match extractTokenFromHeader authorization with
        | inr token => verifyToken token
        | inl error => inl error
        end with
  | inr decoded => passed decoded
  | inl (ApiError statusCode errorCode message) => answered statusCode errorCode message
  | inl error => failed_with error
  end.

End Jwt.
End Jwt.

(* ===================================================================== *)
(** * The route POST /webhooks/github/:projectId/generate-secret
      (src/routes/webhooks.ts) and WebhookService.generateSecret *)
(* ===================================================================== *)

(** [UPDATE projects SET ... WHERE id = $n]; [updated_at] is not among the
    columns the model keeps. *)
Definition update_projects (d : Db) (id : string) (set : Project.t -> Project.t) : Db :=
  mkDb (map (fun p => if same_uuid (Project.id p) id then set p else p) (projects d))
       (environments d) (deployments d) (deployment_logs d).

Definition set_webhook_secret (secret : string) (p : Project.t) : Project.t :=
  Project.mk (Project.id p) (Project.user_id p) (Project.name p) (Project.slug p)
             (Project.repository_url p) (Some secret) (Project.deleted_at p).

Definition newline : string := String (ascii_of_nat 10) EmptyString.

Module SecretRoute.

Record Data : Type := mkData {
  secret : string;
  webhookUrl : string;
  instructions : string
}.

Section SecretRoute.
(** [crypto.randomBytes(n)] *)
Variable randomBytes : nat -> list Z.

(** [WebhookService.generateSecret] *)
Definition generateSecret : string := Sha256.hex (randomBytes 32).

(** [user] is [req.user]; the route reads its property [id].  A truthy id
    that is not a string is sent as its text, a number or a date, which the
    database refuses as a uuid (its message goes on with that text). *)
Definition generate_secret (projectId : string) (user : option Row)
  : Async (Http.Reply Data) :=
  try_catch
    (let userId := match user with Some u => prop u "id" | None => JsUndefined end in
     if negb (truthy userId)
     then Ret (Http.sendError 401 "UNAUTHORIZED" "Authentication required")
     else
       result <- query (match userId with
                        | JsString u =>
                            select [projectId; u] (fun d => owned_projects d projectId u)
                        | _ =>
                            fun _ d =>
                              (inl match refused [projectId] with
                                   | Some e => e
                                   | None => DatabaseError "invalid input syntax for type uuid"
                                   end, d)
                        end) ;;
       match result with
       | [] => Ret (Http.sendError 403 "ACCESS_DENIED"
                                   "You do not have access to this project")
       | _ :: _ =>
         let newSecret := generateSecret in
         query (fun _ d =>
           (inr tt, update_projects d projectId (set_webhook_secret newSecret))) ;;
         let webhookUrl := ("https://api.gilgal.tech/webhooks/github/" ++ projectId)%string in
         Ret (Http.sendSuccess
                (mkData newSecret webhookUrl
                   ("Add this webhook to your GitHub repository: Settings > Webhooks > Add webhook"
                    ++ newline ++ "- Payload URL: " ++ webhookUrl
                    ++ newline ++ "- Content type: application/json"
                    ++ newline ++ "- Secret: " ++ newSecret
                    ++ newline ++ "- Events: Push events"))
                "Webhook secret generated" 200)
       end)
    (fun error => Ret (Http.next error)).

End SecretRoute.
End SecretRoute.

(* ===================================================================== *)
(** * The deployment routes (src/routes/deployments.ts) and the services
      behind them *)
(* ===================================================================== *)

(** [array.slice(start, end)] *)
Definition slice {A : Type} (l : list A) (start stop : Z) : list A :=
  let len := Z.of_nat (List.length l) in
  let from := if start <? 0 then Z.max (len + start) 0 else Z.min start len in
  let to := if stop <? 0 then Z.max (len + stop) 0 else Z.min stop len in
  firstn (Z.to_nat (to - from)) (skipn (Z.to_nat from) l).

(** [[...new Set(values)]]: each value once, in the order of first
    appearance. *)
Fixpoint distinct (values : list string) : list string :=
  match values with
  | [] => []
  | v :: rest => v :: filter (fun w => negb (w =? v)%string) (distinct rest)
  end.

(** [parseInt(text) || d]: [None] stands for [NaN]. *)
Definition number_or (parsed : option Z) (d : Z) : Z :=
  match parsed with
  | Some n => if n =? 0 then d else n
  | None => d
  end.

(** [ORDER BY key ASC]; rows of equal key are left in table order (the
    database leaves their order open). *)
Fixpoint insert_by {A : Type} (key : A -> Z) (x : A) (sorted : list A) : list A :=
  match sorted with
  | [] => [x]
  | y :: rest => if key x <=? key y then x :: y :: rest else y :: insert_by key x rest
  end.

Fixpoint order_by {A : Type} (key : A -> Z) (rows : list A) : list A :=
  match rows with
  | [] => []
  | x :: rest => insert_by key x (order_by key rest)
  end.

Module DeploymentQueries.
Section DeploymentQueries.
Context {host : Host}.

(** [DeploymentService.getDeploymentLogs] *)
Definition getDeploymentLogs (deploymentId userId : string)
  : Async (list DeploymentLog.t) :=
  deployCheck <- query (select [deploymentId; userId]
    (fun d => DeploymentService.select_deployment d deploymentId userId)) ;;
  match deployCheck with
  | [] => Throw (ApiError HTTP_STATUS.NOT_FOUND ERROR_CODES.NOT_FOUND "Deployment not found")
  | _ :: _ =>
      query (select [deploymentId]
        (fun d => order_by DeploymentLog.timestamp (logs_of d deploymentId)))
  end.

(** [LIMIT $2 OFFSET $3] on rows already in order; the offset is looked at
    first. *)
Definition limit_offset {A : Type} (rows : list A) (limit offset : Z) : Result (list A) :=
  if offset <? 0 then inl (DatabaseError "OFFSET must not be negative")
  else if limit <? 0 then inl (DatabaseError "LIMIT must not be negative")
  else inr (firstn (Z.to_nat limit) (skipn (Z.to_nat offset) rows)).

(** [WHERE project_id = $1 ORDER BY created_at DESC] *)
Definition project_deployments (d : Db) (projectId : string) : list Deployment.t :=
  order_by (fun x => - Deployment.created_at x)
           (filter (fun x => same_uuid (Deployment.project_id x) projectId)
                   (deployments d)).

(** [DeploymentService.getProjectDeployments] *)
Definition getProjectDeployments (projectId userId : string) (limit offset : Z)
  : Async (list Row * Z) :=
  projectCheck <- query (select [projectId; userId]
                           (fun d => owned_projects d projectId userId)) ;;
  match projectCheck with
  | [] => Throw (ApiError HTTP_STATUS.NOT_FOUND ERROR_CODES.PROJECT_NOT_FOUND "Project not found")
  | _ :: _ =>
    deploymentsResult <- query (fun _ d =>
      match refused [projectId] with
      | Some e => (inl e, d)
      | None => (limit_offset (project_deployments d projectId) limit offset, d)
      end) ;;
    countResult <- query (select [projectId]
      (fun d => Z.of_nat (List.length
                  (filter (fun x => same_uuid (Deployment.project_id x) projectId)
                          (deployments d))))) ;;
    Ret (map row_of_deployment deploymentsResult, countResult)
  end.

End DeploymentQueries.
End DeploymentQueries.

Module DeploymentRoutes.

(** [req.query] of the logs route, after [parseInt]. *)
Record LogsQuery : Type := mkLogsQuery {
  level : option string;
  limit : option Z;
  offset : option Z
}.

Record LogsPage : Type := mkLogsPage {
  items : list DeploymentLog.t;
  total : Z;
  page_limit : Z;
  page_offset : Z;
  availableLevels : list string
}.

(** [req.query] of the list route, after [parseInt]. *)
Record ListQuery : Type := mkListQuery {
  list_page : option Z;
  list_limit : option Z
}.

Record ListPage : Type := mkListPage {
  deployments_of_page : list Row;
  total_of_project : Z;
  page : Z;
  limit_of_page : Z;
  hasMore : bool
}.

Section DeploymentRoutes.
Context {host : Host}.

(** GET /api/deployments/:id/logs *)
Definition get_logs (user : option JwtPayload.t) (id : string) (q : LogsQuery)
  : Async (Http.Reply LogsPage) :=
  try_catch
    (match user with
     | None => Ret (Http.sendError HTTP_STATUS.UNAUTHORIZED "UNAUTHORIZED"
                                   "Authentication required")
     | Some u =>
       let logLevel := or_null (level q) in
       let limit := Z.min (number_or (limit q) 100) 500 in
       let offset := number_or (offset q) 0 in
       logs <- DeploymentQueries.getDeploymentLogs id (JwtPayload.userId u) ;;
       let filteredLogs :=
         match logLevel with
         | Some l => filter (fun log => (DeploymentLog.log_level log =? l)%string) logs
         | None => logs
         end in
       let paginatedLogs := slice filteredLogs offset (offset + limit) in
       Ret (Http.sendSuccess
              (mkLogsPage paginatedLogs (Z.of_nat (List.length filteredLogs)) limit offset
                          (distinct (map DeploymentLog.log_level logs)))
              "Success" HTTP_STATUS.OK)
     end)
    (fun error => Ret (Http.next error)).

(** GET /api/projects/:projectId/deployments; PAGINATION of src/constants
    is page 1, limit 20, at most 100. *)
Definition list_deployments (user : option JwtPayload.t) (projectId : string)
    (q : ListQuery) : Async (Http.Reply ListPage) :=
  try_catch
    (match user with
     | None => Ret (Http.sendError HTTP_STATUS.UNAUTHORIZED "UNAUTHORIZED"
                                   "Authentication required")
     | Some u =>
       let page := Z.max 1 (number_or (list_page q) 1) in
       let limit := Z.min (number_or (list_limit q) 20) 100 in
       let offset := (page - 1) * limit in
       result <- DeploymentQueries.getProjectDeployments projectId (JwtPayload.userId u)
                   limit offset ;;
       Ret (Http.sendSuccess
              (mkListPage (fst result) (snd result) page limit
                          (offset + limit <? snd result))
              "Success" HTTP_STATUS.OK)
     end)
    (fun error => Ret (Http.next error)).

(** DELETE /api/deployments/:id *)
Definition delete_deployment (user : option JwtPayload.t) (id : string)
  : Async (Http.Reply unit) :=
  try_catch
    (match user with
     | None => Ret (Http.sendError HTTP_STATUS.UNAUTHORIZED "UNAUTHORIZED"
                                   "Authentication required")
     | Some u =>
       DeploymentService.cancelDeployment id (JwtPayload.userId u) ;;
       Ret (Http.sendSuccess tt "Deployment cancelled" HTTP_STATUS.OK)
     end)
    (fun error => Ret (Http.next error)).

End DeploymentRoutes.
End DeploymentRoutes.

(** The entries the route pages over: the logs of the deployment in order,
    of the level asked for when there is one. *)
Definition wanted_logs (d : Db) (id : string) (level : option string)
  : list DeploymentLog.t :=
  let logs := order_by DeploymentLog.timestamp (logs_of d id) in
  match or_null level with
  | Some l => filter (fun log => (DeploymentLog.log_level log =? l)%string) logs
  | None => logs
  end.

(* ===================================================================== *)
(** * The app ([createApp]): from the request to the answer *)
(* ===================================================================== *)

(** [hay.includes(needle)] *)
Fixpoint includes (hay needle : string) : bool :=
  String.prefix needle hay
  || match hay with
     | EmptyString => false
     | String _ rest => includes rest needle
     end.

Module App.

(** A request without parameters in its body, as the middlewares before
    the router see it. *)
Record Headers : Type := mkHeaders {
  content_type : option string;        (* req.headers['content-type'] *)
  is_json : bool;                      (* req.is('json') is truthy *)
  body_keys : nat;                     (* Object.keys(req.body || {}).length *)
  authorization : option string        (* req.headers.authorization *)
}.

(** The middleware under [// Middleware to validate Content-Type], for the
    methods POST, PUT, PATCH and DELETE: [None] is [next()]. *)
Definition validate_content_type {D : Type} (h : Headers) : option (Http.Reply D) :=
  if negb (is_json h) && (body_keys h =? 0)%nat
  then
    if match content_type h with
       | None | Some EmptyString => true
       | Some contentType => negb (includes contentType "application/json")
       end
    then Some (Http.sendError HTTP_STATUS.BAD_REQUEST "INVALID_CONTENT_TYPE"
                 "Content-Type: application/json header is required for this request")
    else None
  else None.

(** What [express.json()] and [express.urlencoded()], the body parsers of
    the app, make of a request: an error passed to [next], or [req.body] as
    the router gets it, the object parsed from the body, of which the route
    reads the fields of a push event (all missing where nothing was
    parsed).  The app has no other parsers, so [req.body] is no [Buffer]. *)
Inductive Parsed : Type :=
| parse_error (e : Exn)
| parsed (payload : PushPayload).

(** The answer of the webhook route as it leaves the app: [sendSuccess]
    answers 200, and an error handed to [next] goes through [errorHandler]. *)
Definition reply (r : Response) : Http.Reply ResponseData :=
  match r with
  | sendError statusCode errorCode message => Http.sendError statusCode errorCode message
  | sendSuccess data message => Http.sendSuccess data message HTTP_STATUS.OK
  | next error => Http.errorHandler error
  end.

Section App.
Context {host : Host}.
Variable jwt_verify : string -> Jwt.Verified.
Variable JSON_parse : string -> Result PushPayload.

(** POST /webhooks/github/:projectId through the app that mounts the
    webhook router: the body parsers, the content type middleware, the
    router with its [parseWebhookBody], and [errorHandler]. *)
Definition POST_github_webhook (h : Headers) (body : Parsed) (projectId : string)
    (signature event : option string) : Async (Http.Reply ResponseData) :=
  match body with
  | parse_error error => Ret (Http.errorHandler error)
  | parsed payload =>
    match validate_content_type h with
    | Some answer => Ret answer
    | None =>
        r <- WebhookRouter.post_github JSON_parse
               (mkIncoming projectId signature event (ParsedBody payload)) ;;
        Ret (reply r)
    end
  end.

(** DELETE /api/deployments/:id through the app: the content type
    middleware, [authMiddleware], the route and [errorHandler]. *)
Definition DELETE_deployment (h : Headers) (id : string) : Async (Http.Reply unit) :=
  match validate_content_type h with
  | Some answer => Ret answer
  | None =>
    match Jwt.authMiddleware jwt_verify (authorization h) with
    | Jwt.passed user =>
        r <- DeploymentRoutes.delete_deployment (Some user) id ;; Ret (Http.respond r)
    | Jwt.answered statusCode errorCode message =>
        Ret (Http.sendError statusCode errorCode message)
    | Jwt.failed_with error => Ret (Http.errorHandler error)
    end
  end.

End App.
End App.

(* ===================================================================== *)
(** * EnvironmentService (src/services/EnvironmentService.ts) *)
(* ===================================================================== *)

Definition update_environments (d : Db) (id : string)
    (set : Environment.t -> Environment.t) : Db :=
  mkDb (projects d)
       (map (fun e => if same_uuid (Environment.id e) id then set e else e)
            (environments d))
       (deployments d) (deployment_logs d).

Module EnvironmentService.
Section EnvironmentService.
Context {host : Host}.

(** [FROM environments e JOIN projects p ON e.project_id = p.id
    WHERE e.id = $1 AND p.user_id = $2 AND e.deleted_at IS NULL] *)
Definition select_environment (d : Db) (environmentId userId : string)
  : list Environment.t :=
  filter (fun e =>
            same_uuid (Environment.id e) environmentId
            && existsb (fun p => (Project.id p =? Environment.project_id e)%string
                                 && same_uuid (Project.user_id p) userId)
                       (projects d)
            && live Environment.deleted_at e)
         (environments d).

Definition getEnvironment (environmentId userId : string) : Async Environment.t :=
  result <- query (select [environmentId; userId]
                     (fun d => select_environment d environmentId userId)) ;;
  match result with
  | [] => Throw (ApiError HTTP_STATUS.NOT_FOUND ERROR_CODES.NOT_FOUND "Environment not found")
  | e :: _ => Ret e
  end.

Definition set_deleted (now : Z) (e : Environment.t) : Environment.t :=
  Environment.mk (Environment.id e) (Environment.project_id e) (Environment.name e)
                 (Environment.environment_variables e) (Some now).

(** [UPDATE environments SET deleted_at = CURRENT_TIMESTAMP WHERE id = $1],
    answering its [rowCount]. *)
Definition deleteEnvironment (environmentId userId : string) : Async unit :=
  getEnvironment environmentId userId ;;
  rowCount <- query (fun now d =>
    match refused [environmentId] with
    | Some e => (inl e, d)
    | None =>
        (inr (List.length (filter (fun e => same_uuid (Environment.id e) environmentId)
                                  (environments d))),
         update_environments d environmentId (set_deleted now))
    end) ;;
  if (rowCount =? 0)%nat
  then Throw (ApiError HTTP_STATUS.NOT_FOUND ERROR_CODES.NOT_FOUND "Environment not found")
  else Ret tt.

End EnvironmentService.
End EnvironmentService.

(* ===================================================================== *)
(** * DockerService.generateDockerfile *)
(* ===================================================================== *)

(** A JSON array of strings as the Dockerfiles write their [CMD]. *)
Definition exec_form (words : list string) : string :=
  ("[" ++ String.concat ", " (map (fun w => double_quote ++ w ++ double_quote) words)
       ++ "]")%string.

Module Dockerfile.

Definition react : list string :=
  [ "FROM node:18-alpine AS builder";
    "WORKDIR /app";
    "COPY package*.json ./";
    "RUN npm ci --only=production && npm ci --only=development";
    "COPY . .";
    "RUN npm run build";
    "RUN npm prune --production";
    EmptyString;
    "FROM nginx:alpine";
    "COPY --from=builder /app/dist /usr/share/nginx/html";
    "COPY nginx.conf /etc/nginx/conf.d/app.conf";
    "EXPOSE 80";
    "CMD " ++ exec_form ["nginx"; "-g"; "daemon off;"] ]%string.

Definition next : list string :=
  [ "FROM node:18-alpine AS builder";
    "WORKDIR /app";
    "COPY package*.json ./";
    "RUN npm ci";
    "COPY . .";
    "RUN npm run build";
    EmptyString;
    "FROM node:18-alpine";
    "WORKDIR /app";
    "RUN addgroup -g 1001 -S nodejs && adduser -S nextjs -u 1001";
    "COPY --from=builder /app/public ./public";
    "COPY --from=builder /app/.next/standalone ./";
    "COPY --from=builder /app/.next/static ./.next/static";
    "COPY --from=builder /app/package*.json ./";
    "RUN npm ci --only=production";
    "USER nextjs";
    "EXPOSE 3000";
    "CMD " ++ exec_form ["node"; "server.js"] ]%string.

Definition express : list string :=
  [ "FROM node:18-alpine";
    "WORKDIR /app";
    "COPY package*.json ./";
    "RUN npm ci --only=production";
    "COPY . .";
    "USER node";
    "EXPOSE 3000";
    "CMD " ++ exec_form ["npm"; "start"] ]%string.

Definition node : list string :=
  [ "FROM node:18-alpine";
    "WORKDIR /app";
    "COPY package*.json ./";
    "RUN npm ci --only=production";
    "COPY . .";
    "EXPOSE 3000";
    "CMD " ++ exec_form ["npm"; "start"] ]%string.

(** The template of each case, trimmed: its lines joined by newlines. *)
Definition generateDockerfile (framework : string) : string :=
  String.concat newline
    (if (framework =? "react")%string then react
     else if (framework =? "next")%string then next
     else if (framework =? "express")%string then express
     else node).

(** The ports a Dockerfile declares: the argument of each [EXPOSE] line. *)
Definition exposed_ports (dockerfile : string) : list string :=
  map (fun line => substring 7 (String.length line - 7) line)
      (filter (String.prefix "EXPOSE ") (split (ascii_of_nat 10) dockerfile)).

End Dockerfile.

(* ===================================================================== *)
(** * The table of the deployment router (src/routes/deployments.ts) *)
(* ===================================================================== *)

Module Router.

Inductive Method : Type := GET | POST | PUT | DELETE.

Definition method_eqb (a b : Method) : bool :=
  match a, b with
  | GET, GET | POST, POST | PUT, PUT | DELETE, DELETE => true
  | _, _ => false
  end.

(** A route path, segment by segment: a literal or a [:parameter]. *)
Inductive Segment : Type :=
| literal (text : string)
| parameter (name : string).

Inductive Handler : Type :=
| list_deployments
| create_deployment
| get_deployment
| get_logs
| rollback_deployment
| cancel_deployment
| active_deployments.

(** The routes in the order the file registers them. *)
Definition routes : list (Method * list Segment * Handler) :=
  [ (GET, [], list_deployments);
    (POST, [], create_deployment);
    (GET, [parameter "id"], get_deployment);
    (GET, [parameter "id"; literal "logs"], get_logs);
    (POST, [parameter "id"; literal "rollback"], rollback_deployment);
    (DELETE, [parameter "id"], cancel_deployment);
    (GET, [literal "active"], active_deployments) ].

Definition lower (c : ascii) : ascii :=
  let n := nat_of_ascii c in
  if ((65 <=? n) && (n <=? 90))%nat then ascii_of_nat (n + 32) else c.

Fixpoint lower_case (s : string) : string :=
  match s with
  | EmptyString => EmptyString
  | String c rest => String (lower c) (lower_case rest)
  end.

(** The router matches a request path, given by its segments (none of
    them empty), against a route path: a literal without regard to case, a
    parameter against any segment; the parameters are bound on the way. *)
Fixpoint matches (pattern : list Segment) (path : list string)
  : option (list (string * string)) :=
  match pattern, path with
  | [], [] => Some []
  | literal text :: pattern', segment :: path' =>
      if (lower_case text =? lower_case segment)%string
      then matches pattern' path'
      else None
  | parameter name :: pattern', segment :: path' =>
      if (segment =? EmptyString)%string then None
      else option_map (cons (name, segment)) (matches pattern' path')
  | _, _ => None
  end.

(** The first route of the table for the method whose path matches takes
    the request: each handler of the file answers or calls [next(error)],
    none passes the request on to a later route. *)
Fixpoint dispatch_in (table : list (Method * list Segment * Handler))
    (method : Method) (path : list string)
  : option (Handler * list (string * string)) :=
  match table with
  | [] => None
  | (m, pattern, handler) :: rest =>
      if method_eqb m method
      then match matches pattern path with
           | Some params => Some (handler, params)
           | None => dispatch_in rest method path
           end
      else dispatch_in rest method path
  end.

Definition dispatch : Method -> list string -> option (Handler * list (string * string)) :=
  dispatch_in routes.

End Router.

(* ===================================================================== *)
(** * DockerService.detectFramework *)
(* ===================================================================== *)

Module FrameworkDetection.
Section FrameworkDetection.
Context {host : Host}.

(** [`git clone ${repositoryUrl} ${tempDir}`] *)
Definition clone_command (repositoryUrl tempDir : string) : string :=
  ("git clone " ++ repositoryUrl ++ " " ++ tempDir)%string.

(** Creating and removing the directory are taken to succeed, as in
    [buildImage]; a failure of either would be caught like any other. *)
Definition detectFramework (repositoryUrl : string) : Async string :=
  u <- new_uuid ;;
  let tempDir := ("/tmp/detect-" ++ substring 0 8 u)%string in
  try_catch
    (exec (clone_command repositoryUrl tempDir) ;;
     match package_json (tempDir ++ "/package.json") with
     | NoManifest => Ret "node"%string
     | BadManifest e => Throw e
     | Dependencies dependencies devDependencies =>
         Ret (DockerService.detect dependencies devDependencies)
     end)
    (fun _ => Ret "node"%string).

End FrameworkDetection.
End FrameworkDetection.
(* ===================================================================== *)
(** * Running asynchronous functions: general facts *)
(* ===================================================================== *)

Lemma run_bind {A B : Type} (m : Async A) (f : A -> Async B) (s : Sys) :
  run (bind m f) s =
  match run m s with
  | (inr a, s') => run (f a) s'
  | (inl e, s') => (inl e, s')
  end.
Proof.
  revert s. induction m as [a | e | R act k IH]; intros s; simpl; try reflexivity.
  destruct (act s) as [r s']. apply IH.
Qed.

Lemma run_try_catch {A : Type} (m : Async A) (h : Exn -> Async A) (s : Sys) :
  run (try_catch m h) s =
  match run m s with
  | (inr a, s') => (inr a, s')
  | (inl e, s') => run (h e) s'
  end.
Proof.
  revert s. induction m as [a | e | R act k IH]; intros s; simpl; try reflexivity.
  destruct (act s) as [r s']. apply IH.
Qed.

Lemma run_await {R : Type} (act : Sys -> Result R * Sys) (s : Sys) :
  run (await act) s = act s.
Proof.
  unfold await. simpl. destruct (act s) as [[e | v] s']; reflexivity.
Qed.

Lemma never_rejects_run {A : Type} (m : Async A) :
  never_rejects m -> forall s, exists a s', run m s = (inr a, s').
Proof.
  induction m as [a | e | R act k IH]; simpl; intros H s.
  - exists a, s. reflexivity.
  - contradiction.
  - destruct (act s) as [r s']. apply IH. apply H.
Qed.

(** An invariant relation: every awaited effect of [m] stays in [Rel]. *)
Fixpoint respects {A : Type} (Rel : Sys -> Sys -> Prop) (m : Async A) : Prop :=
  match m with
  | Ret _ | Throw _ => True
  | Await act k => (forall s, Rel s (snd (act s))) /\ forall r, respects Rel (k r)
  end.

Section Respects.
Variable Rel : Sys -> Sys -> Prop.
Hypothesis Rel_refl : forall s, Rel s s.
Hypothesis Rel_trans : forall a b c, Rel a b -> Rel b c -> Rel a c.

Lemma respects_run {A : Type} (m : Async A) :
  respects Rel m -> forall s, Rel s (snd (run m s)).
Proof.
  induction m as [a | e | R act k IH]; simpl; intros H s; try apply Rel_refl.
  destruct H as [Hact Hk]. specialize (Hact s).
  destruct (act s) as [r s']. simpl in Hact.
  eapply Rel_trans; [exact Hact | apply IH, Hk].
Qed.

Lemma respects_bind {A B : Type} (m : Async A) (f : A -> Async B) :
  respects Rel m -> (forall a, respects Rel (f a)) -> respects Rel (bind m f).
Proof.
  induction m as [a | e | R act k IH]; simpl; intros H Hf; auto.
  destruct H as [Hact Hk]. split; [exact Hact | intros r; apply IH; auto].
Qed.

Lemma respects_try_catch {A : Type} (m : Async A) (h : Exn -> Async A) :
  respects Rel m -> (forall e, respects Rel (h e)) -> respects Rel (try_catch m h).
Proof.
  induction m as [a | e | R act k IH]; simpl; intros H Hh; auto.
  destruct H as [Hact Hk]. split; [exact Hact | intros r; apply IH; auto].
Qed.

Lemma respects_await {R : Type} (act : Sys -> Result R * Sys) :
  (forall s, Rel s (snd (act s))) -> respects Rel (await act).
Proof.
  intros H. unfold await. simpl. split; [exact H |].
  intros [e | v]; exact I.
Qed.
End Respects.

(* ===================================================================== *)
(** * The hash *)
(* ===================================================================== *)

(** Known answers: FIPS 180-4 (the three bytes abc) and RFC 4231, test case 2. *)
Example sha256_abc :
  Sha256.hex (Sha256.sha256 (Sha256.bytes_of_string "abc"))
  = "ba7816bf8f01cfea414140de5dae2223b00361a396177a9cb410ff61f20015ad"%string.
Proof. vm_compute. reflexivity. Qed.

Example hmac_rfc4231_case2 :
  Sha256.hmac_sha256_hex "Jefe" "what do ya want for nothing?"
  = "5bdcc146bf60754e6a042426089575c75a003f089d2739839dec58b964ec3843"%string.
Proof. vm_compute. reflexivity. Qed.

Lemma hex_length (bs : list Z) :
  String.length (Sha256.hex bs) = (2 * List.length bs)%nat.
Proof.
  induction bs as [| b bs IH]; simpl; [reflexivity | rewrite IH; lia].
Qed.

Lemma be_bytes_length (n : nat) (x : Z) : List.length (Sha256.be_bytes n x) = n.
Proof.
  revert x. induction n as [| n IH]; intros x; simpl; [reflexivity |].
  rewrite length_app, IH. simpl. lia.
Qed.

Lemma compress_chain_length (bl : list (list Z)) (h : list Z) :
  List.length h = 8%nat -> List.length (fold_left Sha256.compress bl h) = 8%nat.
Proof.
  revert h. induction bl as [| b bl IH]; intros h Hh; simpl; [exact Hh |].
  apply IH. reflexivity.
Qed.

Lemma flat_map_be_bytes_length (n : nat) (ws : list Z) :
  List.length (flat_map (Sha256.be_bytes n) ws) = (n * List.length ws)%nat.
Proof.
  induction ws as [| w ws IH]; simpl flat_map; simpl List.length; [lia |].
  rewrite length_app, be_bytes_length, IH. lia.
Qed.

Lemma sha256_length (msg : list Z) : List.length (Sha256.sha256 msg) = 32%nat.
Proof.
  unfold Sha256.sha256.
  rewrite flat_map_be_bytes_length, compress_chain_length; reflexivity.
Qed.

(** The digest in hex is 64 characters, whatever the secret and the payload. *)
Lemma hmac_sha256_hex_length (secret payload : string) :
  String.length (Sha256.hmac_sha256_hex secret payload) = 64%nat.
Proof.
  unfold Sha256.hmac_sha256_hex, Sha256.hmac_sha256.
  rewrite hex_length, sha256_length. reflexivity.
Qed.

(* ===================================================================== *)
(** * Identifiers *)
(* ===================================================================== *)

Lemma digit_cases (d : Z) :
  0 <= d < 16 ->
  In d [0; 1; 2; 3; 4; 5; 6; 7; 8; 9; 10; 11; 12; 13; 14; 15].
Proof. intros H. simpl. lia. Qed.

Lemma hex_value_hex_digit (d : Z) :
  0 <= d < 16 -> hex_value (Sha256.hex_digit d) = Some d.
Proof.
  intros H. apply digit_cases in H. simpl in H.
  repeat (destruct H as [<- | H]; [reflexivity |]). contradiction.
Qed.

Lemma hex_digit_is_no_hyphen (d : Z) :
  0 <= d < 16 -> Ascii.eqb (Sha256.hex_digit d) "-" = false.
Proof.
  intros H. apply digit_cases in H. simpl in H.
  repeat (destruct H as [<- | H]; [reflexivity |]). contradiction.
Qed.

Lemma hex_digit_is_no_brace (d : Z) :
  0 <= d < 16 -> Ascii.eqb (Sha256.hex_digit d) "{" = false.
Proof.
  intros H. apply digit_cases in H. simpl in H.
  repeat (destruct H as [<- | H]; [reflexivity |]). contradiction.
Qed.

Lemma byte_digits (b : Z) : byte b -> 0 <= b / 16 < 16 /\ 0 <= b mod 16 < 16 /\ 16 * (b / 16) + b mod 16 = b.
Proof.
  unfold byte. intros H. repeat split.
  - apply Z.div_pos; lia.
  - apply Z.div_lt_upper_bound; lia.
  - apply Z.mod_pos_bound; lia.
  - apply Z.mod_pos_bound; lia.
  - symmetry. apply Z.div_mod. lia.
Qed.

(** One byte of the printed form is read back. *)
Lemma uuid_read_byte (n i : nat) (b : Z) (rest : string) :
  byte b ->
  uuid_read (S n) i (String (Sha256.hex_digit (b / 16))
                       (String (Sha256.hex_digit (b mod 16)) rest))
  = match uuid_read n (S i)
            match rest with
            | String c r => if Ascii.eqb c "-" && Nat.odd i && (i <? 15)%nat then r else rest
            | EmptyString => rest
            end with
    | Some (bs, tail) => Some (b :: bs, tail)
    | None => None
    end.
Proof.
  intros H. destruct (byte_digits b H) as (H1 & H2 & H3).
  cbn [uuid_read]. rewrite (hex_value_hex_digit _ H1), (hex_value_hex_digit _ H2), H3.
  reflexivity.
Qed.

Lemma uuid_in_out (bs : list Z) :
  List.length bs = 16%nat -> Forall byte bs -> uuid_in (uuid_out bs) = Some bs.
Proof.
  intros L F.
  do 16 (destruct bs as [| ? bs]; [discriminate L |]).
  destruct bs; [| discriminate L]. clear L.
  repeat match goal with
         | H : Forall _ (_ :: _) |- _ => inversion H; subst; clear H
         | H : Forall _ [] |- _ => clear H
         end.
  unfold uuid_in, uuid_out. cbn [firstn skipn Sha256.hex String.append].
  match goal with H : byte ?b |- context [Ascii.eqb (Sha256.hex_digit (?b / 16)) "{"] =>
    rewrite (hex_digit_is_no_brace (b / 16)) by (apply byte_digits; exact H) end.
  repeat (rewrite uuid_read_byte by assumption;
          cbn [Ascii.eqb Bool.eqb Nat.odd Nat.even negb Nat.ltb Nat.leb andb];
          try match goal with H : byte ?b |- context [Ascii.eqb (Sha256.hex_digit (?b / 16)) "-"] =>
            rewrite (hex_digit_is_no_hyphen (b / 16)) by (apply byte_digits; exact H) end;
          cbn [andb]).
  reflexivity.
Qed.

Lemma hex_value_range (c : ascii) (x : Z) : hex_value c = Some x -> 0 <= x < 16.
Proof.
  unfold hex_value. cbv zeta. generalize (Z.of_N (N_of_ascii c)). intros n.
  destruct (Z.leb_spec 48 n), (Z.leb_spec n 57), (Z.leb_spec 97 n), (Z.leb_spec n 102),
    (Z.leb_spec 65 n), (Z.leb_spec n 70); simpl; intros E; inversion E; subst; lia.
Qed.

Lemma uuid_read_bytes (n i : nat) (src : string) (bs : list Z) (tail : string) :
  uuid_read n i src = Some (bs, tail) -> List.length bs = n /\ Forall byte bs.
Proof.
  revert i src bs tail. induction n as [| n IH]; intros i src bs tail H.
  - inversion H. split; [reflexivity | constructor].
  - cbn [uuid_read] in H.
    destruct src as [| a [| b rest]]; try discriminate H.
    destruct (hex_value a) as [x |] eqn:Ea; [| discriminate H].
    destruct (hex_value b) as [y |] eqn:Eb; [| discriminate H].
    match type of H with
    | match uuid_read n (S i) ?r with _ => _ end = _ =>
        destruct (uuid_read n (S i) r) as [[bs' tail'] |] eqn:E; [| discriminate H]
    end.
    injection H as <- <-. apply IH in E. destruct E as [L F].
    split; [simpl; congruence |].
    constructor; [| exact F].
    apply hex_value_range in Ea. apply hex_value_range in Eb. unfold byte.
    change (0 <= 16 * x + y < 256). lia.
Qed.

Lemma uuid_in_bytes (text : string) (bs : list Z) :
  uuid_in text = Some bs -> List.length bs = 16%nat /\ Forall byte bs.
Proof.
  unfold uuid_in. cbv zeta.
  match goal with
  | |- match uuid_read 16 0 ?r with _ => _ end = _ -> _ =>
      destruct (uuid_read 16 0 r) as [[bs' tail] |] eqn:E; [| discriminate]
  end.
  destruct (tail =? _)%string; [| discriminate].
  intros H. inversion H; subst. eapply uuid_read_bytes. exact E.
Qed.

(** What the database prints is read back as the same value. *)
Lemma uuid_in_canonical (text : string) : uuid_in (canonical text) = uuid_in text.
Proof.
  unfold canonical. destruct (uuid_in text) as [bs |] eqn:E; [| exact E].
  destruct (uuid_in_bytes _ _ E). apply uuid_in_out; assumption.
Qed.

Lemma canonical_canonical (text : string) : canonical (canonical text) = canonical text.
Proof.
  unfold canonical at 1. rewrite uuid_in_canonical.
  unfold canonical. destruct (uuid_in text); reflexivity.
Qed.

Lemma same_uuid_canonical (column text : string) :
  same_uuid column (canonical text) = same_uuid column text.
Proof. unfold same_uuid. rewrite uuid_in_canonical. reflexivity. Qed.

Lemma same_uuid_true (column text : string) :
  same_uuid column text = true <-> uuid_in text <> None /\ column = canonical text.
Proof.
  unfold same_uuid, canonical. destruct (uuid_in text) as [bs |].
  - rewrite String.eqb_eq. split; [intros H; split; [discriminate | exact H] | intros [_ H]; exact H].
  - split; [discriminate | intros [H _]; congruence].
Qed.

Lemma same_uuid_refl (text : string) :
  uuid_in text <> None -> same_uuid (canonical text) text = true.
Proof. intros H. apply same_uuid_true. split; [exact H | reflexivity]. Qed.

Lemma refused_cons (p : string) (rest : list string) :
  refused (p :: rest)
  = match uuid_in p with
    | Some _ => refused rest
    | None => Some (invalid_uuid p)
    end.
Proof. reflexivity. Qed.

Lemma refused_none (params : list string) :
  refused params = None <-> Forall (fun p => uuid_in p <> None) params.
Proof.
  induction params as [| p rest IH].
  - split; [constructor | reflexivity].
  - rewrite refused_cons. destruct (uuid_in p) eqn:E.
    + rewrite IH. split; [intros H; constructor; [congruence | exact H]
                         | intros H; inversion H; assumption].
    + split; [discriminate | intros H; inversion H; congruence].
Qed.

Lemma refused_is_database_error (params : list string) (e : Exn) :
  refused params = Some e -> exists p, In p params /\ uuid_in p = None /\ e = invalid_uuid p.
Proof.
  induction params as [| p rest IH]; [discriminate |].
  rewrite refused_cons. destruct (uuid_in p) eqn:E.
  - intros H. destruct (IH H) as (q & I & U & Q). exists q. simpl. auto.
  - intros H. inversion H. exists p. simpl. auto.
Qed.

Lemma refused_one (p : string) :
  refused [p] = match uuid_in p with Some _ => None | None => Some (invalid_uuid p) end.
Proof. reflexivity. Qed.

(** The values of [uuidv4()] are in the form the database prints. *)
Lemma v4_bytes (rnds : list Z) : List.length (v4 rnds) = 16%nat /\ Forall byte (v4 rnds).
Proof.
  unfold v4. split; [rewrite length_map, length_seq; reflexivity |].
  apply Forall_forall. intros b H. apply in_map_iff in H.
  destruct H as (i & <- & _). cbv zeta.
  assert (B : 0 <= nth i rnds 0 mod 256 < 256) by (apply Z.mod_pos_bound; lia).
  set (b := nth i rnds 0 mod 256) in *.
  assert (L15 : 0 <= Z.land b 15 < 16).
  { split; [apply Z.land_nonneg; lia |].
    change 15 with (Z.ones 4). rewrite Z.land_ones by lia. apply Z.mod_pos_bound. lia. }
  assert (L63 : 0 <= Z.land b 63 < 64).
  { split; [apply Z.land_nonneg; lia |].
    change 63 with (Z.ones 6). rewrite Z.land_ones by lia. apply Z.mod_pos_bound. lia. }
  unfold byte.
  destruct (i =? 6)%nat; [| destruct (i =? 8)%nat; [| exact B]].
  - assert (D : Z.land (Z.land b 15) 64 = 0).
    { change 15 with (Z.ones 4). rewrite Z.land_ones by lia.
      change 64 with (2 ^ 6). apply Z.bits_inj'. intros n Hn. rewrite Z.land_spec, Z.bits_0.
      destruct (Z.ltb_spec n 4).
      - rewrite Z.pow2_bits_eqb by lia. replace (6 =? n) with false by lia. apply andb_false_r.
      - rewrite Z.mod_pow2_bits_high by lia. reflexivity. }
    rewrite <- Z.lxor_lor by exact D. rewrite <- Z.add_nocarry_lxor by exact D. lia.
  - assert (D : Z.land (Z.land b 63) 128 = 0).
    { change 63 with (Z.ones 6). rewrite Z.land_ones by lia.
      change 128 with (2 ^ 7). apply Z.bits_inj'. intros n Hn. rewrite Z.land_spec, Z.bits_0.
      destruct (Z.ltb_spec n 6).
      - rewrite Z.pow2_bits_eqb by lia. replace (7 =? n) with false by lia. apply andb_false_r.
      - rewrite Z.mod_pow2_bits_high by lia. reflexivity. }
    rewrite <- Z.lxor_lor by exact D. rewrite <- Z.add_nocarry_lxor by exact D. lia.
Qed.

Lemma uuid_in_uuidv4 {host : Host} (n : nat) : uuid_in (uuidv4 n) = Some (v4 (rng n)).
Proof. unfold uuidv4. destruct (v4_bytes (rng n)). apply uuid_in_out; assumption. Qed.

Lemma canonical_uuidv4 {host : Host} (n : nat) : canonical (uuidv4 n) = uuidv4 n.
Proof. unfold canonical. rewrite uuid_in_uuidv4. reflexivity. Qed.

Lemma uuidv4_accepted {host : Host} (n : nat) : uuid_in (uuidv4 n) <> None.
Proof. rewrite uuid_in_uuidv4. discriminate. Qed.

(* ===================================================================== *)
(** * The Docker daemon *)
(* ===================================================================== *)

Lemma delete_absent (d : Docker.t) (ref : string) :
  Docker.lookup d ref = None -> Docker.delete d ref = d.
Proof.
  destruct d as [cs im n]. unfold Docker.lookup, Docker.delete. simpl.
  intros H. f_equal.
  induction cs as [| c cs IH]; simpl in *; [reflexivity |].
  destruct (Docker.matches ref c); [discriminate |]. simpl. f_equal. auto.
Qed.

Lemma delete_set_running (d : Docker.t) (ref : string) (b : bool) :
  Docker.delete (Docker.set_running d ref b) ref = Docker.delete d ref.
Proof.
  destruct d as [cs im n]. unfold Docker.delete, Docker.set_running. simpl.
  f_equal.
  induction cs as [| c cs IH]; simpl; [reflexivity |].
  destruct (Docker.matches ref c) eqn:E; simpl.
  - unfold Docker.matches in *. simpl. rewrite E. simpl. exact IH.
  - rewrite E. simpl. f_equal. exact IH.
Qed.

Lemma lookup_set_running (d : Docker.t) (ref : string) (b : bool) (c : Docker.Container) :
  Docker.lookup d ref = Some c ->
  Docker.lookup (Docker.set_running d ref b) ref
  = Some (Docker.mkContainer (Docker.Id c) (Docker.Config c) b).
Proof.
  destruct d as [cs im n]. unfold Docker.lookup, Docker.set_running. simpl.
  induction cs as [| x cs IH]; simpl; [discriminate |].
  destruct (Docker.matches ref x) eqn:E; simpl.
  - intros H. injection H as ->. unfold Docker.matches in *. simpl. rewrite E. reflexivity.
  - rewrite E. exact IH.
Qed.

Lemma lookup_delete (d : Docker.t) (ref : string) :
  Docker.lookup (Docker.delete d ref) ref = None.
Proof.
  destruct d as [cs im n]. unfold Docker.lookup, Docker.delete. simpl.
  induction cs as [| x cs IH]; simpl; [reflexivity |].
  destruct (Docker.matches ref x) eqn:E; simpl; [exact IH |].
  rewrite E. exact IH.
Qed.

(* ===================================================================== *)
(** * DockerService.stopContainer *)
(* ===================================================================== *)

(** Every daemon call of [stopContainer] sits in a [try] whose handler only
    logs: whatever the daemon answers, the function settles normally. *)
Lemma stopContainer_never_rejects {host : Host} (containerId : string) :
  never_rejects (DockerService.stopContainer containerId).
Proof.
  unfold DockerService.stopContainer. simpl.
  intros [e | data]; simpl.
  - intros [e' | []]; simpl; exact I.
  - destruct (Docker.Running data); simpl.
    + intros [e' | []]; simpl; intros [e'' | []]; simpl; exact I.
    + intros [e' | []]; simpl; exact I.
Qed.

(** On the modelled daemon: the calls issued and what is left. *)
Lemma stopContainer_run {host : Host} (containerId : string) (s : Sys) :
  exists s', run (DockerService.stopContainer containerId) s = (inr tt, s')
    /\ docker s' = Docker.delete (docker s) containerId
    /\ db s' = db s
    /\ spawned s' = spawned s
    /\ trace s' = trace s ++ stop_events (is_running (docker s) containerId) containerId.
Proof.
  unfold DockerService.stopContainer, is_running, stop_events.
  cbn [run try_catch bind await].
  unfold Dockerode.inspect at 1. cbn [docker emit].
  destruct (Docker.lookup (docker s) containerId) as [c |] eqn:E.
  - cbn [run try_catch bind await].
    destruct (Docker.Running c) eqn:R.
    + cbn [run try_catch bind await]. unfold Dockerode.stop at 1. cbn [docker emit].
      rewrite E, R. cbn [run try_catch bind await].
      unfold Dockerode.remove at 1. cbn [docker emit with_docker].
      rewrite (lookup_set_running _ _ false c E). cbn [Docker.Running].
      cbn [run try_catch bind await].
      eexists. split; [reflexivity |]. cbn.
      rewrite delete_set_running, <- !app_assoc. auto.
    + cbn [run try_catch bind await]. unfold Dockerode.remove at 1. cbn [docker emit].
      rewrite E, R. cbn [run try_catch bind await].
      eexists. split; [reflexivity |]. cbn. rewrite <- !app_assoc. auto.
  - cbn [run try_catch bind await]. unfold Dockerode.remove at 1. cbn [docker emit].
    rewrite E. cbn [run try_catch bind await].
    eexists. split; [reflexivity |]. cbn. rewrite delete_absent by exact E.
    rewrite <- !app_assoc. auto.
Qed.

(** C9. [stopContainer] is idempotent: it never rejects, whatever the daemon
    answers to inspect, stop and remove; on the daemon it inspects first,
    stops with the ten second grace period only a running container, then
    removes; and called again, on the then absent container, it succeeds
    again and leaves the daemon and the database as they are. *)
Theorem stopContainer_idempotent {host : Host} (containerId : string) (s : Sys) :
  never_rejects (DockerService.stopContainer containerId) /\
  exists s1 s2,
    run (DockerService.stopContainer containerId) s = (inr tt, s1) /\
    trace s1 = trace s ++ stop_events (is_running (docker s) containerId) containerId /\
    Docker.lookup (docker s1) containerId = None /\
    run (DockerService.stopContainer containerId) s1 = (inr tt, s2) /\
    trace s2 = trace s1 ++ [EvInspect containerId; EvRemove containerId] /\
    docker s2 = docker s1 /\
    db s2 = db s.
Proof.
  split; [apply stopContainer_never_rejects |].
  destruct (stopContainer_run containerId s) as (s1 & R1 & D1 & B1 & _ & T1).
  destruct (stopContainer_run containerId s1) as (s2 & R2 & D2 & B2 & _ & T2).
  assert (L1 : Docker.lookup (docker s1) containerId = None)
    by (rewrite D1; apply lookup_delete).
  exists s1, s2. repeat split; auto.
  - rewrite T2. unfold is_running. rewrite L1. reflexivity.
  - rewrite D2. apply delete_absent, L1.
  - congruence.
Qed.

(* ===================================================================== *)
(** * The webhook signature check *)
(* ===================================================================== *)

Lemma append_length (a b : string) :
  String.length (a ++ b) = (String.length a + String.length b)%nat.
Proof. induction a as [| c a IH]; simpl; [reflexivity | rewrite IH; reflexivity]. Qed.

(** A signature of the right length never makes [verifySignature] throw: the
    comparison only returns its verdict. *)
Lemma verifySignature_settles (payload signature secret : string) :
  String.length signature = 71%nat ->
  WebhookService.verifySignature (Some payload) signature secret
  = inr (("sha256=" ++ Sha256.hmac_sha256_hex secret payload) =? signature)%string.
Proof.
  intros H. unfold WebhookService.verifySignature, WebhookService.timingSafeEqual.
  rewrite append_length, hmac_sha256_hex_length, H. reflexivity.
Qed.

(** The route on its own, handed a request with [rawBody] set (which the
    app, parsing every body as JSON first, never does): it calls
    [verifySignature] inside a [try] and drops the boolean it returns.  A
    signature computed with another secret, and the genuine signature of the
    payload [{}] sent with the tampered payload [{ }], both compare unequal
    ([inr false]) and both pass: the push is processed and a pending
    deployment is inserted. *)
Example route_with_raw_body_passes_forged_signature :
  let payload := "{}"%string in
  let tampered := "{ }"%string in
  let genuine := ("sha256=" ++ Sha256.hmac_sha256_hex "s3cret" payload)%string in
  let forged := ("sha256=" ++ Sha256.hmac_sha256_hex "not-the-secret" payload)%string in
  let accepted :=
    inr (sendSuccess (DataDeploymentId (Some Fixture.deployment0))
                     "Deployment triggered for main branch") in
  let handle req := run (Routes.github_webhook (host := Fixture.host_ok) req)
                        (Fixture.sys Fixture.db0) in
  forged <> genuine /\
  WebhookService.verifySignature (Some payload) forged "s3cret" = inr false /\
  fst (handle (Fixture.push_request forged payload)) = accepted /\
  option_map Deployment.status
    (find_deployment (db (snd (handle (Fixture.push_request forged payload)))) Fixture.deployment0)
  = Some pending /\
  WebhookService.verifySignature (Some tampered) genuine "s3cret" = inr false /\
  fst (handle (Fixture.push_request genuine tampered)) = accepted /\
  option_map Deployment.status
    (find_deployment (db (snd (handle (Fixture.push_request genuine tampered)))) Fixture.deployment0)
  = Some pending.
Proof.
  vm_compute. repeat split; try reflexivity. discriminate.
Qed.

(** A request without [rawBody] is the one case the check rejects whatever
    the signature: [hmac.update(undefined)] throws. *)
Example webhook_without_raw_body :
  fst (run (Routes.github_webhook (host := Fixture.host_ok)
              (mkRequest Fixture.p1
                 (Some ("sha256=" ++ Sha256.hmac_sha256_hex "s3cret" "{}")%string)
                 (Some "push"%string) None Fixture.empty_push))
           (Fixture.sys Fixture.db0))
  = inr (sendError 401 "INVALID_SIGNATURE" "Invalid webhook signature").
Proof. vm_compute. reflexivity. Qed.

(* ===================================================================== *)
(** * The webhook never starts a pipeline *)
(* ===================================================================== *)

Lemma spawns_no_pipeline_same s s' : spawned s' = spawned s -> spawns_no_pipeline s s'.
Proof. intros E. exists []. split; [rewrite E; symmetry; apply app_nil_r | constructor]. Qed.

Lemma spawns_no_pipeline_refl s : spawns_no_pipeline s s.
Proof. apply spawns_no_pipeline_same. reflexivity. Qed.

Lemma spawns_no_pipeline_trans a b c :
  spawns_no_pipeline a b -> spawns_no_pipeline b c -> spawns_no_pipeline a c.
Proof.
  intros (l1 & E1 & F1) (l2 & E2 & F2). exists (l1 ++ l2). split.
  - rewrite E2, E1, app_assoc. reflexivity.
  - apply Forall_app. auto.
Qed.

Lemma query_spawns_no_pipeline {host : Host} {R : Type} (q : Z -> Db -> Result R * Db) :
  respects spawns_no_pipeline (query q).
Proof.
  apply respects_await. intros s. destruct (q (clock s) (db s)) as [r d]. simpl.
  apply spawns_no_pipeline_same. reflexivity.
Qed.

Lemma new_uuid_spawns_no_pipeline {host : Host} :
  respects spawns_no_pipeline new_uuid.
Proof.
  apply respects_await. intros s. simpl. apply spawns_no_pipeline_same. reflexivity.
Qed.

Lemma handlePushWebhook_spawns_no_pipeline {host : Host}
    (payload : PushPayload) (projectId : string) :
  respects spawns_no_pipeline (WebhookService.handlePushWebhook payload projectId).
Proof.
  unfold WebhookService.handlePushWebhook.
  apply respects_try_catch; [| intros e; exact I].
  apply respects_bind; [apply query_spawns_no_pipeline |].
  intros [| project rest]; [exact I |].
  apply respects_bind; [apply query_spawns_no_pipeline |].
  intros envResult.
  destruct (or_null (option_map Environment.id (hd_error envResult)))
    as [environmentId |]; [| exact I].
  apply respects_bind; [apply new_uuid_spawns_no_pipeline |]. intros deploymentId.
  apply respects_bind; [apply query_spawns_no_pipeline |]. intros _.
  apply respects_bind; [| intros; exact I].
  apply respects_await. intros s. simpl.
  exists [WebhookReadyCheck deploymentId]. split; [reflexivity |].
  constructor; [eexists; reflexivity | constructor].
Qed.

(** Whatever the request and the system, handling a webhook queues nothing
    but the readiness check of [setImmediate]: no [executeDeployment]. *)
Lemma github_webhook_spawns_no_pipeline {host : Host} (req : Request) (s : Sys) :
  spawns_no_pipeline s (snd (run (Routes.github_webhook req) s)).
Proof.
  apply respects_run;
    [exact spawns_no_pipeline_refl | exact spawns_no_pipeline_trans |].
  unfold Routes.github_webhook.
  apply respects_try_catch; [| intros e; exact I].
  destruct (x_hub_signature_256 req) as [[| c sig] |]; try exact I.
  apply respects_bind; [apply query_spawns_no_pipeline |].
  intros [| p rest]; [exact I |].
  destruct (or_null (Project.webhook_secret p)) as [webhookSecret |]; [| exact I].
  destruct (WebhookService.verifySignature _ _ _); [exact I |].
  cbv zeta.
  destruct (is_event (x_github_event req) "push").
  - apply respects_bind; [apply handlePushWebhook_spawns_no_pipeline |].
    intros r. destruct (negb (PushResult.success r)); exact I.
  - destruct (is_event (x_github_event req) "ping"); exact I.
Qed.

(** The readiness check reads one row and changes nothing. *)
Lemma ready_check_changes_nothing {host : Host} (deploymentId : string) (s : Sys) :
  run (program (WebhookReadyCheck deploymentId)) s = (inr tt, s).
Proof.
  destruct s as [d k c u r sp tr]. cbn. unfold select.
  destruct (refused [deploymentId]); reflexivity.
Qed.

Lemma drain_ready_check {host : Host} (fuel : nat) (s : Sys) (deploymentId : string) :
  spawned s = [WebhookReadyCheck deploymentId] ->
  drain (S fuel) s
  = mkSys (db s) (docker s) (clock s) (uuids s) (randoms s) [] (trace s).
Proof.
  intros H. cbn [drain]. rewrite H, ready_check_changes_nothing.
  destruct fuel; reflexivity.
Qed.

(** C3, on the code: an authenticated push that resolves its project and
    environment inserts a pending deployment and answers with its id, but
    queues only the readiness check; once the event loop is idle the record is
    still pending, has no log entry and no build was issued.  The API path
    ([createDeployment]) on the same system does queue [executeDeployment]. *)
Theorem webhook_deployment_is_never_started :
  let genuine := ("sha256=" ++ Sha256.hmac_sha256_hex "s3cret" "{}")%string in
  let handled := run (Routes.github_webhook (host := Fixture.host_ok)
                        (Fixture.push_request genuine "{}"))
                     (Fixture.sys Fixture.db0) in
  let created := run (DeploymentService.createDeployment (host := Fixture.host_ok)
                        Fixture.p1 Fixture.u1 (mkCreateDeploymentRequest Fixture.e1 None None))
                     (Fixture.sys Fixture.db0) in
  fst handled = inr (sendSuccess (DataDeploymentId (Some Fixture.deployment0))
                                 "Deployment triggered for main branch") /\
  option_map Deployment.status (find_deployment (db (snd handled)) Fixture.deployment0) = Some pending /\
  spawned (snd handled) = [WebhookReadyCheck Fixture.deployment0] /\
  (forall fuel : nat,
     let settled := drain (host := Fixture.host_ok) (S fuel) (snd handled) in
     spawned settled = [] /\
     option_map Deployment.status (find_deployment (db settled) Fixture.deployment0) = Some pending /\
     logs_of (db settled) Fixture.deployment0 = [] /\
     trace settled = []) /\
  spawned (snd created) = [PipelineTask Fixture.deployment0 Fixture.p1 Fixture.e1 Fixture.u1] /\
  option_map Deployment.status
    (find_deployment (db (drain (host := Fixture.host_ok) 1 (snd created))) Fixture.deployment0)
  = Some success.
Proof.
  intros genuine handled created.
  vm_compute in handled. vm_compute in created.
  split; [reflexivity |].
  split; [reflexivity |].
  split; [reflexivity |].
  split.
  - intros fuel settled. subst settled.
    rewrite (drain_ready_check fuel (snd handled) Fixture.deployment0 eq_refl).
    repeat split; reflexivity.
  - split; [reflexivity | vm_compute; reflexivity].
Qed.

(* ===================================================================== *)
(** * Invariants of the pipeline's effects *)
(* ===================================================================== *)

Lemma keeps_refl s : keeps s s.
Proof. split; reflexivity. Qed.

Lemma keeps_trans a b c : keeps a b -> keeps b c -> keeps a c.
Proof. intros [A1 A2] [B1 B2]. split; congruence. Qed.

Lemma keeps_same_db s s' : db s' = db s -> spawned s' = spawned s -> keeps s s'.
Proof. intros E1 E2. split; [rewrite E1 |]; auto. Qed.

Lemma keeps_rows_refl s : keeps_rows s s.
Proof. reflexivity. Qed.

Lemma keeps_rows_trans a b c : keeps_rows a b -> keeps_rows b c -> keeps_rows a c.
Proof. unfold keeps_rows. congruence. Qed.

Lemma update_deployments_ids (d : Db) (id : string) (f : Deployment.t -> Deployment.t) :
  preserves_id f ->
  map Deployment.id (deployments (update_deployments d id f))
  = map Deployment.id (deployments d).
Proof.
  intros Hf. unfold update_deployments. simpl. rewrite map_map.
  apply map_ext. intros x. destruct (same_uuid (Deployment.id x) id); auto.
Qed.

Lemma find_deployment_ids (d d' : Db) (id : string) :
  map Deployment.id (deployments d') = map Deployment.id (deployments d) ->
  find_deployment d id <> None -> find_deployment d' id <> None.
Proof.
  unfold find_deployment.
  generalize (deployments d) (deployments d'). intros l.
  induction l as [| x l IH]; intros [| y l'] E H; simpl in *; try discriminate; auto.
  injection E as E1 E2. rewrite E1.
  destruct (same_uuid (Deployment.id x) id); [discriminate |]. eapply IH; eauto.
Qed.

Lemma find_deployment_update (d : Db) (id : string) (f : Deployment.t -> Deployment.t) :
  preserves_id f ->
  find_deployment (update_deployments d id f) id = option_map f (find_deployment d id).
Proof.
  intros Hf. unfold find_deployment, update_deployments. simpl.
  induction (deployments d) as [| x l IH]; simpl; [reflexivity |].
  destruct (same_uuid (Deployment.id x) id) eqn:E.
  - rewrite Hf, E. reflexivity.
  - rewrite E. exact IH.
Qed.

(** Rows of other deployments are not touched by an UPDATE ... WHERE id. *)
Lemma find_deployment_update_other (d : Db) (id other : string)
    (f : Deployment.t -> Deployment.t) :
  preserves_id f -> canonical other <> canonical id ->
  find_deployment (update_deployments d id f) other = find_deployment d other.
Proof.
  intros Hf Hne. unfold find_deployment, update_deployments. simpl.
  induction (deployments d) as [| x l IH]; simpl; [reflexivity |].
  destruct (same_uuid (Deployment.id x) id) eqn:E.
  - rewrite Hf. apply same_uuid_true in E.
    destruct (same_uuid (Deployment.id x) other) eqn:E'; [| exact IH].
    apply same_uuid_true in E'. destruct E, E'. congruence.
  - destruct (same_uuid (Deployment.id x) other); [reflexivity | exact IH].
Qed.

(** A row is found only under an id the database accepts, and it is the row
    printed under that id. *)
Lemma find_deployment_some (d : Db) (id : string) (x : Deployment.t) :
  find_deployment d id = Some x ->
  uuid_in id <> None /\ Deployment.id x = canonical id /\ In x (deployments d).
Proof.
  unfold find_deployment. intros H. pose proof (find_some _ _ H) as [I E].
  apply same_uuid_true in E. tauto.
Qed.

Lemma found_is_accepted (d : Db) (id : string) :
  find_deployment d id <> None -> refused [id] = None.
Proof.
  intros H. destruct (find_deployment d id) as [x |] eqn:E; [| contradiction].
  apply find_deployment_some in E. rewrite refused_one.
  destruct (uuid_in id); [reflexivity | tauto].
Qed.

Lemma found_is_read (d : Db) (id : string) :
  find_deployment d id <> None -> uuid_in id <> None.
Proof.
  intros H. destruct (find_deployment d id) as [x |] eqn:E; [| contradiction].
  apply find_deployment_some in E. tauto.
Qed.

Section Keeps.
Context {host : Host}.

Lemma keeps_await_quiet {R : Type} (act : Sys -> Result R * Sys) :
  (forall s, db (snd (act s)) = db s /\ spawned (snd (act s)) = spawned s) ->
  respects keeps (await act).
Proof.
  intros H. apply respects_await. intros s. destruct (H s). apply keeps_same_db; auto.
Qed.

Lemma keeps_Date_now : respects keeps Date_now.
Proof. apply keeps_await_quiet. intros s. split; reflexivity. Qed.

Lemma keeps_new_uuid : respects keeps new_uuid.
Proof. apply keeps_await_quiet. intros s. split; reflexivity. Qed.

Lemma keeps_exec (command : string) : respects keeps (exec command).
Proof. apply keeps_await_quiet. intros s. split; reflexivity. Qed.

Lemma keeps_read {R : Type} (f : Db -> R) :
  respects keeps (query (fun _ d => (inr (f d), d))).
Proof.
  apply respects_await. intros s. simpl. apply keeps_same_db; reflexivity.
Qed.

Lemma keeps_update (id : string) (set : Z -> Deployment.t -> Deployment.t) :
  (forall now, preserves_id (set now)) ->
  respects keeps (DeploymentService.update id set).
Proof.
  intros H. apply respects_await. intros s. simpl. split; [| reflexivity].
  simpl. apply update_deployments_ids. apply H.
Qed.

Lemma keeps_addDeploymentLog (id level message : string) :
  respects keeps (DeploymentService.addDeploymentLog id level message).
Proof.
  unfold DeploymentService.addDeploymentLog.
  apply respects_bind; [apply keeps_new_uuid |]. intros u.
  apply respects_await. intros s. simpl.
  destruct (refused [id]), (find_deployment (db s) id); simpl; split; reflexivity.
Qed.

Lemma keeps_applyNginx : respects keeps DeploymentService.applyNginx.
Proof. apply keeps_await_quiet. intros s. split; reflexivity. Qed.

Lemma keeps_inspect ref : respects keeps (await (Dockerode.inspect ref)).
Proof.
  apply keeps_await_quiet. intros s. unfold Dockerode.inspect.
  destruct (Docker.lookup _ _); split; reflexivity.
Qed.

Lemma keeps_stop ref t : respects keeps (await (Dockerode.stop ref t)).
Proof.
  apply keeps_await_quiet. intros s. unfold Dockerode.stop.
  destruct (Docker.lookup _ _) as [c |]; [destruct (Docker.Running c) |];
    split; reflexivity.
Qed.

Lemma keeps_remove ref : respects keeps (await (Dockerode.remove ref)).
Proof.
  apply keeps_await_quiet. intros s. unfold Dockerode.remove.
  destruct (Docker.lookup _ _) as [c |]; [destruct (Docker.Running c) |];
    split; reflexivity.
Qed.

Lemma keeps_createContainer o : respects keeps (await (Dockerode.createContainer o)).
Proof.
  apply keeps_await_quiet. intros s. unfold Dockerode.createContainer.
  destruct (existsb _ _); [split; reflexivity |].
  destruct (negb _); split; reflexivity.
Qed.

Lemma keeps_start id : respects keeps (await (Dockerode.start id)).
Proof.
  apply keeps_await_quiet. intros s. unfold Dockerode.start.
  destruct (Docker.lookup _ _) as [c |]; [destruct (Docker.Running c) |];
    [| destruct (Docker.port_in_use _ _) |]; split; reflexivity.
Qed.

Lemma keeps_build imageName dir : respects keeps (await (Dockerode.build imageName dir)).
Proof.
  apply keeps_await_quiet. intros s. unfold Dockerode.build.
  destruct (execSync _); split; reflexivity.
Qed.

Lemma keeps_allocatePort : respects keeps DockerService.allocatePort.
Proof. apply keeps_await_quiet. intros s. split; reflexivity. Qed.

(** Walk an asynchronous function along its binds, handlers and branches. *)
Ltac walk :=
  repeat match goal with
    | |- respects _ (Ret _) => exact I
    | |- respects _ (Throw _) => exact I
    | |- respects _ (bind _ _) => apply respects_bind; [| intros ?]
    | |- respects _ (try_catch _ _) => apply respects_try_catch; [| intros ?]
    | |- respects _ (match ?x with _ => _ end) => destruct x
    | |- respects _ (if ?x then _ else _) => destruct x
    | |- respects _ Date_now => apply keeps_Date_now
    | |- respects _ new_uuid => apply keeps_new_uuid
    | |- respects _ (exec _) => apply keeps_exec
    | |- respects _ (query _) => apply keeps_read
    | |- respects _ (DeploymentService.update _ _) =>
        apply keeps_update; intros ? ?; reflexivity
    | |- respects _ (DeploymentService.addDeploymentLog _ _ _) =>
        apply keeps_addDeploymentLog
    | |- respects _ DeploymentService.applyNginx => apply keeps_applyNginx
    | |- respects _ DockerService.allocatePort => apply keeps_allocatePort
    | |- respects _ (await (Dockerode.inspect _)) => apply keeps_inspect
    | |- respects _ (await (Dockerode.stop _ _)) => apply keeps_stop
    | |- respects _ (await (Dockerode.remove _)) => apply keeps_remove
    | |- respects _ (await (Dockerode.createContainer _)) => apply keeps_createContainer
    | |- respects _ (await (Dockerode.start _)) => apply keeps_start
    | |- respects _ (await (Dockerode.build _ _)) => apply keeps_build
    end.

Lemma keeps_buildImage p d url : respects keeps (DockerService.buildImage p d url).
Proof. unfold DockerService.buildImage. walk. Qed.

Lemma keeps_runContainer i p e vars f :
  respects keeps (DockerService.runContainer i p e vars f).
Proof. unfold DockerService.runContainer. walk. Qed.

Lemma keeps_stopContainer c : respects keeps (DockerService.stopContainer c).
Proof. unfold DockerService.stopContainer. walk. Qed.

Lemma keeps_regenerate_nginx id : respects keeps (DeploymentService.regenerate_nginx id).
Proof. unfold DeploymentService.regenerate_nginx. walk. Qed.

Lemma keeps_pipeline id p e st : respects keeps (DeploymentService.pipeline id p e st).
Proof.
  unfold DeploymentService.pipeline.
  repeat match goal with
    | |- respects _ (DockerService.buildImage _ _ _) => apply keeps_buildImage
    | |- respects _ (DockerService.runContainer _ _ _ _ _) => apply keeps_runContainer
    | |- respects _ (DeploymentService.regenerate_nginx _) => apply keeps_regenerate_nginx
    | _ => progress walk
    end.
Qed.

Lemma keeps_on_pipeline_error id st e :
  respects keeps (DeploymentService.on_pipeline_error id st e).
Proof. unfold DeploymentService.on_pipeline_error. walk. Qed.

Lemma keeps_executeDeployment id p e u :
  respects keeps (DeploymentService.executeDeployment id p e u).
Proof.
  unfold DeploymentService.executeDeployment.
  apply respects_bind; [apply keeps_Date_now | intros st].
  apply respects_try_catch; [apply keeps_pipeline | intros x; apply keeps_on_pipeline_error].
Qed.

(** The log insert and the nginx block leave every deployment row alone. *)
Lemma keeps_rows_addDeploymentLog (id level message : string) :
  respects keeps_rows (DeploymentService.addDeploymentLog id level message).
Proof.
  unfold DeploymentService.addDeploymentLog.
  apply respects_bind; [apply respects_await; intros s; reflexivity |]. intros u.
  apply respects_await. intros s. unfold keeps_rows. simpl.
  destruct (refused [id]), (find_deployment (db s) id); reflexivity.
Qed.

Lemma keeps_rows_regenerate_nginx id :
  respects keeps_rows (DeploymentService.regenerate_nginx id).
Proof.
  unfold DeploymentService.regenerate_nginx.
  apply respects_bind; [apply keeps_rows_addDeploymentLog | intros _].
  apply respects_try_catch; [| intros e; apply keeps_rows_addDeploymentLog].
  apply respects_bind; [| intros _; apply keeps_rows_addDeploymentLog].
  apply respects_await. intros s. reflexivity.
Qed.
End Keeps.

(* ===================================================================== *)
(** * Triples *)
(* ===================================================================== *)

Lemma triple_bind {A B : Type} (P : Sys -> Prop) (Q : A -> Sys -> Prop)
    (R : B -> Sys -> Prop) (m : Async A) (f : A -> Async B) :
  triple P m Q -> (forall a, triple (Q a) (f a) R) -> triple P (bind m f) R.
Proof.
  intros Hm Hf s Hs. rewrite run_bind. specialize (Hm s Hs).
  destruct (run m s) as [[e | a] s']; [exact I |]. apply Hf, Hm.
Qed.

Lemma triple_weaken {A : Type} (P P' : Sys -> Prop) (Q Q' : A -> Sys -> Prop)
    (m : Async A) :
  triple P' m Q' -> (forall s, P s -> P' s) -> (forall a s, Q' a s -> Q a s) ->
  triple P m Q.
Proof.
  intros H HP HQ s Hs. specialize (H s (HP s Hs)).
  destruct (run m s) as [[e | a] s']; auto.
Qed.

(** An invariant relation gives a triple for every property it carries over. *)
Lemma triple_of_respects {A : Type} (Rel : Sys -> Sys -> Prop) (P : Sys -> Prop)
    (m : Async A) :
  (forall s, Rel s s) -> (forall a b c, Rel a b -> Rel b c -> Rel a c) ->
  (forall s s', Rel s s' -> P s -> P s') ->
  respects Rel m -> triple P m (fun _ => P).
Proof.
  intros Hrefl Htrans Hcarry Hm s Hs.
  pose proof (respects_run Rel Hrefl Htrans m Hm s) as H.
  destruct (run m s) as [[e | a] s']; [exact I |]. simpl in H. eauto.
Qed.

(* ===================================================================== *)
(** * The pipeline: [executeDeployment] *)
(* ===================================================================== *)

Section Pipeline.
Context {host : Host}.

Lemma addDeploymentLog_run (id level message : string) (s : Sys) :
  find_deployment (db s) id <> None ->
  run (DeploymentService.addDeploymentLog id level message) s
  = (inr tt, appended_log id level message s).
Proof.
  intros H. unfold DeploymentService.addDeploymentLog. cbn.
  rewrite (found_is_accepted _ _ H).
  destruct (find_deployment (db s) id); [reflexivity | contradiction].
Qed.

Lemma logs_of_appended_log (id level message : string) (s : Sys) :
  uuid_in id <> None ->
  logs_of (db (appended_log id level message s)) id
  = logs_of (db s) id
    ++ [DeploymentLog.mk (uuidv4 (uuids s)) (canonical id) level message (clock s)].
Proof.
  intros H. unfold logs_of, appended_log. simpl. rewrite filter_app. simpl.
  rewrite (same_uuid_refl _ H). reflexivity.
Qed.

Lemma set_failed_preserves_id m d now : preserves_id (DeploymentService.set_failed m d now).
Proof. intros x. reflexivity. Qed.

Lemma set_success_preserves_id c p d now :
  preserves_id (DeploymentService.set_success c p d now).
Proof. intros x. reflexivity. Qed.

Lemma set_cancelled_preserves_id now : preserves_id (DeploymentService.set_cancelled now).
Proof. intros x. reflexivity. Qed.

Lemma set_building_preserves_id : preserves_id DeploymentService.set_building.
Proof. intros x. reflexivity. Qed.

(** The [catch] block of the pipeline on an existing deployment. *)
Lemma on_pipeline_error_run (id : string) (startTime : Z) (error : Exn) (s : Sys) :
  find_deployment (db s) id <> None ->
  let errorMessage := if instanceof_Error error then message error else "Unknown error" in
  let duration := (clock s - startTime) / 1000 in
  run (DeploymentService.on_pipeline_error id startTime error) s
  = (inr tt,
     appended_log id "error" ("Deployment failed: " ++ errorMessage)
       (with_db s (update_deployments (db s) id
                     (DeploymentService.set_failed errorMessage duration (clock s))))).
Proof.
  intros H. cbv zeta. unfold DeploymentService.on_pipeline_error.
  rewrite run_bind. unfold Date_now at 1. rewrite run_await. cbn beta iota.
  rewrite run_bind. unfold DeploymentService.update at 1, query at 1.
  rewrite run_await. cbn beta iota.
  apply addDeploymentLog_run. cbn [db with_db].
  eapply find_deployment_ids; [| exact H].
  apply update_deployments_ids, set_failed_preserves_id.
Qed.

Lemma executeDeployment_run (id p e u : string) (s : Sys) :
  run (DeploymentService.executeDeployment id p e u) s
  = match run (DeploymentService.pipeline id p e (clock s)) s with
    | (inr a, s') => (inr a, s')
    | (inl error, s') => run (DeploymentService.on_pipeline_error id (clock s) error) s'
    end.
Proof.
  unfold DeploymentService.executeDeployment.
  rewrite run_bind. unfold Date_now at 1. rewrite run_await. cbn beta iota.
  apply run_try_catch.
Qed.

Lemma pipeline_keeps (id p e : string) (st : Z) (s : Sys) :
  keeps s (snd (run (DeploymentService.pipeline id p e st) s)).
Proof.
  apply respects_run; [exact keeps_refl | exact keeps_trans | apply keeps_pipeline].
Qed.

(** The [catch] block after an exception of the [try] block. *)
Lemma pipeline_error_handled
    (deploymentId projectId environmentId userId : string)
    (s s1 : Sys) (error : Exn) :
  find_deployment (db s) deploymentId <> None ->
  run (DeploymentService.pipeline deploymentId projectId environmentId (clock s)) s
  = (inl error, s1) ->
  let errorMessage := if instanceof_Error error then message error else "Unknown error" in
  let duration := (clock s1 - clock s) / 1000 in
  exists s2 d,
    run (DeploymentService.executeDeployment deploymentId projectId environmentId userId) s
    = (inr tt, s2) /\
    find_deployment (db s2) deploymentId = Some d /\
    Deployment.status d = failed /\
    Deployment.error_message d = Some errorMessage /\
    Deployment.duration_seconds d = Some duration /\
    logs_of (db s2) deploymentId
    = logs_of (db s1) deploymentId
      ++ [DeploymentLog.mk (uuidv4 (uuids s1)) (canonical deploymentId) "error"
                           ("Deployment failed: " ++ errorMessage) (clock s1)] /\
    spawned s2 = spawned s.
Proof.
  intros Hd Hrun. cbv zeta.
  pose proof (pipeline_keeps deploymentId projectId environmentId (clock s) s) as K.
  rewrite Hrun in K. simpl in K. destruct K as [Kids Ksp].
  assert (Hd1 : find_deployment (db s1) deploymentId <> None)
    by (eapply find_deployment_ids; eauto).
  rewrite executeDeployment_run, Hrun, (on_pipeline_error_run _ _ _ _ Hd1).
  destruct (find_deployment (db s1) deploymentId) as [d1 |] eqn:E1; [| contradiction].
  eexists. exists (DeploymentService.set_failed
                     (if instanceof_Error error then message error else "Unknown error")
                     ((clock s1 - clock s) / 1000) (clock s1) d1).
  split; [reflexivity |].
  split.
  { unfold appended_log. cbn [db with_db].
    change (find_deployment
              (mkDb (projects (update_deployments (db s1) deploymentId _))
                    (environments (update_deployments (db s1) deploymentId _))
                    (deployments (update_deployments (db s1) deploymentId _)) _)
              deploymentId)
      with (find_deployment (update_deployments (db s1) deploymentId
              (DeploymentService.set_failed
                 (if instanceof_Error error then message error else "Unknown error")
                 ((clock s1 - clock s) / 1000) (clock s1))) deploymentId).
    rewrite find_deployment_update by apply set_failed_preserves_id.
    rewrite E1. reflexivity. }
  repeat split.
  - rewrite logs_of_appended_log by (eapply found_is_read; exact Hd). reflexivity.
  - exact Ksp.
Qed.

End Pipeline.

Section Outcome.
Context {host : Host}.

(** When the nginx reconfiguration fails, the block that calls it still
    settles normally, also under the pipeline's own [catch]: no deployment
    row changes, so a deployment that is [success] stays so with all its
    fields; the failure shows only as the log entry of level [warn]
    appended after the announcement of the update. *)
Lemma nginx_failure_leaves_the_record
    (deploymentId : string) (startTime : Z) (s : Sys) (nginxError : Exn) :
  find_deployment (db s) deploymentId <> None ->
  applyNginxConfig
    (db (appended_log deploymentId "info" "Updating nginx configuration..." s))
  = inl nginxError ->
  exists s2,
    run (DeploymentService.regenerate_nginx deploymentId) s = (inr tt, s2) /\
    run (try_catch (DeploymentService.regenerate_nginx deploymentId)
                   (DeploymentService.on_pipeline_error deploymentId startTime)) s
    = (inr tt, s2) /\
    deployments (db s2) = deployments (db s) /\
    deployment_logs (db s2)
    = deployment_logs (db s)
      ++ [ DeploymentLog.mk (uuidv4 (uuids s)) (canonical deploymentId) "info"
             "Updating nginx configuration..." (clock s);
           DeploymentLog.mk (uuidv4 (S (uuids s))) (canonical deploymentId) "warn"
             "Deployment successful but nginx config update failed (may require manual setup)"
             (clock s + elapsed EvNginxApply) ] /\
    spawned s2 = spawned s /\
    docker s2 = docker s.
Proof.
  intros Hd Hnginx.
  assert (R : run (DeploymentService.regenerate_nginx deploymentId) s
              = (inr tt,
                 appended_log deploymentId "warn"
                   "Deployment successful but nginx config update failed (may require manual setup)"
                   (emit EvNginxApply
                      (appended_log deploymentId "info"
                         "Updating nginx configuration..." s)))).
  { unfold DeploymentService.regenerate_nginx.
    rewrite run_bind, (addDeploymentLog_run _ _ _ _ Hd).
    rewrite run_try_catch, run_bind.
    unfold DeploymentService.applyNginx at 1. rewrite run_await.
    rewrite Hnginx. apply addDeploymentLog_run. exact Hd. }
  eexists. split; [exact R |].
  split; [rewrite run_try_catch, R; reflexivity |].
  split; [reflexivity |].
  split; [| split; reflexivity].
  unfold appended_log. cbn. rewrite <- app_assoc. reflexivity.
Qed.

Lemma triple_keeps {A : Type} (id : string) (m : Async A) :
  respects keeps m ->
  triple (fun s => find_deployment (db s) id <> None) m
         (fun _ s => find_deployment (db s) id <> None).
Proof.
  apply (triple_of_respects keeps); [exact keeps_refl | exact keeps_trans |].
  intros s s' [K _] H. eapply find_deployment_ids; eauto.
Qed.

Lemma triple_keeps_rows {A : Type} (id : string) (m : Async A) :
  respects keeps_rows m ->
  triple (deployed id) m (fun _ => deployed id).
Proof.
  apply (triple_of_respects keeps_rows);
    [exact keeps_rows_refl | exact keeps_rows_trans |].
  intros s s' K (d & F & H). exists d. split; [| exact H].
  unfold find_deployment in *. rewrite K. exact F.
Qed.

(** When the [try] block settles normally, the deployment is [success] with
    its duration, container and port recorded. *)
Lemma pipeline_normal_return (id p e : string) (startTime : Z) :
  triple (fun s => find_deployment (db s) id <> None)
         (DeploymentService.pipeline id p e startTime)
         (fun _ => deployed id).
Proof.
  unfold DeploymentService.pipeline.
  eapply triple_bind;
    [apply triple_keeps, keeps_update; intros ? ?; reflexivity | intros ?; cbv beta].
  eapply triple_bind; [apply triple_keeps, keeps_addDeploymentLog | intros ?; cbv beta].
  eapply triple_bind; [apply triple_keeps, keeps_read | intros envVariables].
  eapply triple_bind; [apply triple_keeps, keeps_read | intros repositoryUrl].
  eapply triple_bind; [apply triple_keeps, keeps_addDeploymentLog | intros ?; cbv beta].
  eapply triple_bind; [apply triple_keeps, keeps_buildImage | intros image].
  eapply triple_bind; [apply triple_keeps, keeps_addDeploymentLog | intros ?; cbv beta].
  eapply triple_bind; [apply triple_keeps, keeps_addDeploymentLog | intros ?; cbv beta].
  eapply triple_bind; [apply triple_keeps, keeps_runContainer | intros started].
  cbv zeta.
  eapply triple_bind; [apply triple_keeps, keeps_addDeploymentLog | intros ?; cbv beta].
  eapply triple_bind; [apply triple_keeps, keeps_Date_now | intros now].
  eapply triple_bind with (Q := fun _ => deployed id).
  - intros s Hs. cbn.
    destruct (find_deployment (db s) id) as [d |] eqn:F; [| contradiction].
    exists (DeploymentService.set_success (fst started) (snd started)
              ((now - startTime) / 1000) (clock s) d).
    split.
    + change (find_deployment
                (update_deployments (db s) id
                   (DeploymentService.set_success (fst started) (snd started)
                      ((now - startTime) / 1000) (clock s))) id = Some
                (DeploymentService.set_success (fst started) (snd started)
                   ((now - startTime) / 1000) (clock s) d)).
      rewrite find_deployment_update by apply set_success_preserves_id.
      rewrite F. reflexivity.
    + split; [reflexivity |]. do 3 eexists. repeat split; reflexivity.
  - intros ?. cbv beta. apply triple_keeps_rows.
    apply respects_bind;
      [apply keeps_rows_addDeploymentLog | intros _; apply keeps_rows_regenerate_nginx].
Qed.

(** On an existing deployment [executeDeployment] always settles normally,
    with the deployment [success] or [failed] and its duration recorded,
    and queues nothing. *)
Lemma executeDeployment_outcome (id p e u : string) (s : Sys) :
  find_deployment (db s) id <> None ->
  exists s' d,
    run (DeploymentService.executeDeployment id p e u) s = (inr tt, s') /\
    find_deployment (db s') id = Some d /\
    (Deployment.status d = success \/ Deployment.status d = failed) /\
    (exists n, Deployment.duration_seconds d = Some n) /\
    spawned s' = spawned s.
Proof.
  intros Hd.
  destruct (run (DeploymentService.pipeline id p e (clock s)) s) as [[error | []] s1] eqn:R.
  - destruct (pipeline_error_handled id p e u s s1 error Hd R)
      as (s2 & d & R2 & F & St & _ & Du & _ & Sp).
    exists s2, d. repeat split; eauto.
  - pose proof (pipeline_normal_return id p e (clock s) s Hd) as T.
    pose proof (pipeline_keeps id p e (clock s) s) as [_ K].
    rewrite R in T, K. simpl in K.
    destruct T as (d & F & St & n & _ & _ & Du & _).
    exists s1, d. rewrite executeDeployment_run, R. repeat split; eauto.
Qed.

Lemma triple_Date_now (P : Sys -> Prop) :
  triple P Date_now (fun now s => P s /\ now = clock s).
Proof. intros s Hs. cbn. auto. Qed.

Lemma triple_pure {A : Type} (fact : Prop) (P : Sys -> Prop) (m : Async A)
    (Q : A -> Sys -> Prop) :
  (fact -> triple P m Q) -> triple (fun s => P s /\ fact) m Q.
Proof. intros H s [Hs Hf]. apply H; assumption. Qed.

Lemma triple_rows {A : Type} (P : list Deployment.t -> Prop) (m : Async A) :
  respects keeps_rows m ->
  triple (fun s => P (deployments (db s))) m (fun _ s => P (deployments (db s))).
Proof.
  apply (triple_of_respects keeps_rows);
    [exact keeps_rows_refl | exact keeps_rows_trans |].
  intros s s' K H. rewrite K. exact H.
Qed.

(** When the [try] block settles normally, the duration recorded is the
    whole seconds between its start and the UPDATE that made the
    deployment [success]. *)
Lemma pipeline_normal_return_measured (id p e : string) (startTime : Z) :
  triple (fun s => find_deployment (db s) id <> None)
         (DeploymentService.pipeline id p e startTime)
         (fun _ => measured id startTime).
Proof.
  unfold DeploymentService.pipeline.
  eapply triple_bind;
    [apply triple_keeps, keeps_update; intros ? ?; reflexivity | intros ?; cbv beta].
  eapply triple_bind; [apply triple_keeps, keeps_addDeploymentLog | intros ?; cbv beta].
  eapply triple_bind; [apply triple_keeps, keeps_read | intros envVariables].
  eapply triple_bind; [apply triple_keeps, keeps_read | intros repositoryUrl].
  eapply triple_bind; [apply triple_keeps, keeps_addDeploymentLog | intros ?; cbv beta].
  eapply triple_bind; [apply triple_keeps, keeps_buildImage | intros image].
  eapply triple_bind; [apply triple_keeps, keeps_addDeploymentLog | intros ?; cbv beta].
  eapply triple_bind; [apply triple_keeps, keeps_addDeploymentLog | intros ?; cbv beta].
  eapply triple_bind; [apply triple_keeps, keeps_runContainer | intros started].
  cbv zeta.
  eapply triple_bind; [apply triple_keeps, keeps_addDeploymentLog | intros ?; cbv beta].
  eapply triple_bind; [apply triple_Date_now | intros now].
  eapply triple_bind with (Q := fun _ => measured id startTime).
  - intros s [Hs ->]. cbn.
    destruct (find_deployment (db s) id) as [d |] eqn:F; [| contradiction].
    exists (DeploymentService.set_success (fst started) (snd started)
              ((clock s - startTime) / 1000) (clock s) d).
    split; [| split; [left; reflexivity | reflexivity]].
    change (find_deployment
              (update_deployments (db s) id
                 (DeploymentService.set_success (fst started) (snd started)
                    ((clock s - startTime) / 1000) (clock s))) id = Some
              (DeploymentService.set_success (fst started) (snd started)
                 ((clock s - startTime) / 1000) (clock s) d)).
    rewrite find_deployment_update by apply set_success_preserves_id.
    rewrite F. reflexivity.
  - intros ?. cbv beta.
    apply (triple_rows (fun rows => exists d, find (fun x => same_uuid (Deployment.id x) id) rows = Some d /\
      (Deployment.status d = success \/ Deployment.status d = failed) /\
      Deployment.duration_seconds d = Some ((Deployment.updated_at d - startTime) / 1000))).
    apply respects_bind;
      [apply keeps_rows_addDeploymentLog | intros _; apply keeps_rows_regenerate_nginx].
Qed.

(** After an exception of the [try] block, the duration recorded is the whole
    seconds between the start and the UPDATE that made the deployment
    [failed]. *)
Lemma pipeline_error_measured (id p e u : string) (s s1 : Sys) (error : Exn) :
  find_deployment (db s) id <> None ->
  run (DeploymentService.pipeline id p e (clock s)) s = (inl error, s1) ->
  exists s2,
    run (DeploymentService.executeDeployment id p e u) s = (inr tt, s2) /\
    measured id (clock s) s2.
Proof.
  intros Hd Hrun.
  pose proof (pipeline_keeps id p e (clock s) s) as K.
  rewrite Hrun in K. simpl in K. destruct K as [Kids Ksp].
  assert (Hd1 : find_deployment (db s1) id <> None)
    by (eapply find_deployment_ids; eauto).
  rewrite executeDeployment_run, Hrun, (on_pipeline_error_run _ _ _ _ Hd1).
  destruct (find_deployment (db s1) id) as [d1 |] eqn:E1; [| contradiction].
  eexists. split; [reflexivity |].
  exists (DeploymentService.set_failed
            (if instanceof_Error error then message error else "Unknown error")
            ((clock s1 - clock s) / 1000) (clock s1) d1).
  split; [| split; [right; reflexivity | reflexivity]].
  unfold appended_log. cbn [db with_db].
  change (find_deployment
            (update_deployments (db s1) id
               (DeploymentService.set_failed
                  (if instanceof_Error error then message error else "Unknown error")
                  ((clock s1 - clock s) / 1000) (clock s1))) id
          = Some (DeploymentService.set_failed
                    (if instanceof_Error error then message error else "Unknown error")
                    ((clock s1 - clock s) / 1000) (clock s1) d1)).
  rewrite find_deployment_update by apply set_failed_preserves_id.
  rewrite E1. reflexivity.
Qed.

Lemma executeDeployment_measured (id p e u : string) (s : Sys) :
  find_deployment (db s) id <> None ->
  exists s', run (DeploymentService.executeDeployment id p e u) s = (inr tt, s')
             /\ measured id (clock s) s'.
Proof.
  intros Hd.
  destruct (run (DeploymentService.pipeline id p e (clock s)) s) as [[error | []] s1] eqn:R.
  - eapply pipeline_error_measured; eauto.
  - pose proof (pipeline_normal_return_measured id p e (clock s) s Hd) as T.
    rewrite R in T. exists s1. rewrite executeDeployment_run, R. auto.
Qed.

End Outcome.

(* ===================================================================== *)
(** * What the build step and the run step throw *)
(* ===================================================================== *)

Lemma try_catch_rethrow {A : Type} (m : Async A) (g : Exn -> Exn) (s s' : Sys) (e : Exn) :
  run (try_catch m (fun x => Throw (g x))) s = (inl e, s') -> exists x, e = g x.
Proof.
  rewrite run_try_catch. destruct (run m s) as [[x | a] s0]; simpl; intros H.
  - injection H as <- _. exists x. reflexivity.
  - discriminate H.
Qed.

(** A rejection of [buildImage] is an [Error] whose message starts with the
    build failure text; so it has a message, and it is not empty. *)
Lemma buildImage_rejection {host : Host} (projectId deploymentId : string)
    (sourceUrl : option string) (s s' : Sys) (e : Exn) :
  run (DockerService.buildImage projectId deploymentId sourceUrl) s = (inl e, s') ->
  exists cause, e = Error ("Failed to build Docker image: " ++ toString cause).
Proof.
  unfold DockerService.buildImage. rewrite run_bind.
  unfold new_uuid at 1. rewrite run_await. cbn beta iota zeta.
  apply (try_catch_rethrow _
           (fun error => Error ("Failed to build Docker image: " ++ toString error))).
Qed.

Lemma runContainer_rejection {host : Host} (imageName projectId environmentId : string)
    (envVariables : list (string * string)) (framework : string) (s s' : Sys) (e : Exn) :
  run (DockerService.runContainer imageName projectId environmentId envVariables framework) s
  = (inl e, s') ->
  exists cause, e = Error ("Failed to run Docker container: " ++ toString cause).
Proof.
  unfold DockerService.runContainer.
  apply (try_catch_rethrow _
           (fun error => Error ("Failed to run Docker container: " ++ toString error))).
Qed.


(* ===================================================================== *)
(** * Where the pipeline's exceptions come from *)
(* ===================================================================== *)

Lemma raises_only_bind {A B : Type} (P : Sys -> Prop) (Q : A -> Sys -> Prop)
    (E : Exn -> Prop) (m : Async A) (f : A -> Async B) :
  triple P m Q -> raises_only P m E -> (forall a, raises_only (Q a) (f a) E) ->
  raises_only P (bind m f) E.
Proof.
  intros T Hm Hf s e s' Hs R. rewrite run_bind in R.
  specialize (T s Hs). specialize (Hm s).
  destruct (run m s) as [[e0 | a] s0].
  - injection R as <- _. eapply Hm; eauto.
  - eapply Hf; eauto.
Qed.

Lemma raises_only_settles {A : Type} (P : Sys -> Prop) (m : Async A) (E : Exn -> Prop) :
  (forall s, P s -> exists a s', run m s = (inr a, s')) -> raises_only P m E.
Proof.
  intros H s e s' Hs R. destruct (H s Hs) as (a & s0 & R0). congruence.
Qed.

Section Raises.
Context {host : Host}.

Lemma regenerate_nginx_settles (id : string) (s : Sys) :
  find_deployment (db s) id <> None ->
  exists s', run (DeploymentService.regenerate_nginx id) s = (inr tt, s').
Proof.
  intros Hd. unfold DeploymentService.regenerate_nginx.
  rewrite run_bind, (addDeploymentLog_run _ _ _ _ Hd).
  rewrite run_try_catch, run_bind.
  unfold DeploymentService.applyNginx at 1. rewrite run_await.
  destruct (applyNginxConfig _) as [e | []].
  - eexists. apply addDeploymentLog_run. exact Hd.
  - eexists. rewrite addDeploymentLog_run by exact Hd. reflexivity.
Qed.

Lemma raises_log (id level message : string) (E : Exn -> Prop) :
  raises_only (fun s => find_deployment (db s) id <> None)
              (DeploymentService.addDeploymentLog id level message) E.
Proof.
  apply raises_only_settles. intros s Hs. eexists _, _.
  apply addDeploymentLog_run. exact Hs.
Qed.

(** On an existing deployment the [try] block raises only what the build
    step or the run step throw. *)
Lemma pipeline_raises (id p e : string) (startTime : Z) :
  raises_only (fun s => find_deployment (db s) id <> None)
              (DeploymentService.pipeline id p e startTime)
              build_or_run_error.
Proof.
  unfold DeploymentService.pipeline.
  eapply raises_only_bind;
    [apply triple_keeps, keeps_update; intros ? ?; reflexivity
    | apply raises_only_settles; intros s _; eexists _, _; reflexivity
    | intros ?; cbv beta].
  eapply raises_only_bind;
    [apply triple_keeps, keeps_addDeploymentLog | apply raises_log | intros ?; cbv beta].
  eapply raises_only_bind;
    [apply triple_keeps, keeps_read
    | apply raises_only_settles; intros s _; eexists _, _; reflexivity
    | intros envVariables].
  eapply raises_only_bind;
    [apply triple_keeps, keeps_read
    | apply raises_only_settles; intros s _; eexists _, _; reflexivity
    | intros repositoryUrl].
  eapply raises_only_bind;
    [apply triple_keeps, keeps_addDeploymentLog | apply raises_log | intros ?; cbv beta].
  eapply raises_only_bind; [apply triple_keeps, keeps_buildImage | | intros image].
  { intros s x s' _ R. apply buildImage_rejection in R. destruct R as (c & ->).
    exists c. left. reflexivity. }
  eapply raises_only_bind;
    [apply triple_keeps, keeps_addDeploymentLog | apply raises_log | intros ?; cbv beta].
  eapply raises_only_bind;
    [apply triple_keeps, keeps_addDeploymentLog | apply raises_log | intros ?; cbv beta].
  eapply raises_only_bind; [apply triple_keeps, keeps_runContainer | | intros started].
  { intros s x s' _ R. apply runContainer_rejection in R. destruct R as (c & ->).
    exists c. right. reflexivity. }
  cbv zeta.
  eapply raises_only_bind;
    [apply triple_keeps, keeps_addDeploymentLog | apply raises_log | intros ?; cbv beta].
  eapply raises_only_bind;
    [apply triple_keeps, keeps_Date_now
    | apply raises_only_settles; intros s _; eexists _, _; reflexivity
    | intros now].
  eapply raises_only_bind;
    [apply triple_keeps, keeps_update; intros ? ?; reflexivity
    | apply raises_only_settles; intros s _; eexists _, _; reflexivity
    | intros ?; cbv beta].
  eapply raises_only_bind;
    [apply triple_keeps, keeps_addDeploymentLog | apply raises_log | intros ?; cbv beta].
  apply raises_only_settles. intros s Hs.
  destruct (regenerate_nginx_settles id s Hs) as (s' & R). eauto.
Qed.

(** C4. An exception raised inside the pipeline's [try] block comes from the
    build step or the run step and is captured: [executeDeployment] settles
    normally; the deployment is [failed], its [error_message] is the error's
    message, which is not empty, its [duration_seconds] the whole seconds
    since the start; the last log entry of the deployment is the error-level
    entry carrying the message; and no task is queued, so nothing runs the
    pipeline again. *)
Theorem pipeline_error_is_captured
    (deploymentId projectId environmentId userId : string)
    (s s1 : Sys) (error : Exn) :
  find_deployment (db s) deploymentId <> None ->
  run (DeploymentService.pipeline deploymentId projectId environmentId (clock s)) s
  = (inl error, s1) ->
  build_or_run_error error /\
  exists s2 d,
    run (DeploymentService.executeDeployment deploymentId projectId environmentId userId) s
    = (inr tt, s2) /\
    find_deployment (db s2) deploymentId = Some d /\
    Deployment.status d = failed /\
    Deployment.error_message d = Some (message error) /\
    message error <> EmptyString /\
    Deployment.duration_seconds d = Some ((clock s1 - clock s) / 1000) /\
    logs_of (db s2) deploymentId
    = logs_of (db s1) deploymentId
      ++ [DeploymentLog.mk (uuidv4 (uuids s1)) (canonical deploymentId) "error"
                           ("Deployment failed: " ++ message error) (clock s1)] /\
    spawned s2 = spawned s.
Proof.
  intros Hd Hrun.
  assert (B : build_or_run_error error)
    by (eapply (pipeline_raises deploymentId projectId environmentId (clock s)); eauto).
  split; [exact B |].
  destruct (pipeline_error_handled deploymentId projectId environmentId userId
              s s1 error Hd Hrun) as (s2 & d & R & F & St & Em & Du & Lg & Sp).
  exists s2, d.
  destruct B as (cause & [-> | ->]); cbn [instanceof_Error message] in *;
    repeat split; auto; discriminate.
Qed.

End Raises.

(* ===================================================================== *)
(** * cancelDeployment and rollbackDeployment *)
(* ===================================================================== *)

Lemma with_db_same (s : Sys) : with_db s (db s) = s.
Proof. destruct s; reflexivity. Qed.

Lemma filter_none {A : Type} (f : A -> bool) (l : list A) :
  (forall x, f x = false) -> filter f l = [].
Proof.
  intros H. induction l as [| x l IH]; simpl; [reflexivity |]. rewrite H. exact IH.
Qed.

Section CancelRollback.
Context {host : Host}.

(** A statement that reads: refused for an id that is no uuid, with nothing
    changed, or answered. *)
Lemma run_select {R : Type} (params : list string) (rows : Db -> R) (s : Sys) :
  run (query (select params rows)) s
  = match refused params with
    | Some e => (inl e, s)
    | None => (inr (rows (db s)), s)
    end.
Proof.
  unfold query, select. rewrite run_await.
  destruct (refused params); rewrite with_db_same; reflexivity.
Qed.

Lemma getDeployment_run (id user : string) (s : Sys) :
  run (DeploymentService.getDeployment id user) s
  = match refused [id; user] with
    | Some e => (inl e, s)
    | None =>
      match DeploymentService.select_deployment (db s) id user with
      | [] => (inl (ApiError 404 "NOT_FOUND" "Deployment not found"), s)
      | x :: _ => (inr (row_of_deployment x), s)
      end
    end.
Proof.
  unfold DeploymentService.getDeployment. rewrite run_bind, run_select.
  destruct (refused [id; user]); [reflexivity |].
  destruct (DeploymentService.select_deployment (db s) id user); reflexivity.
Qed.

Lemma select_deployment_found (d : Db) (id user : string) (x : Deployment.t)
    (rest : list Deployment.t) :
  DeploymentService.select_deployment d id user = x :: rest ->
  find_deployment d id <> None.
Proof.
  unfold DeploymentService.select_deployment, find_deployment.
  induction (deployments d) as [| y l IH]; simpl; [discriminate |].
  destruct (same_uuid (Deployment.id y) id); simpl; [discriminate |]. exact IH.
Qed.

(** The camel-case properties the service reads do not exist on the row. *)
Lemma row_has_no_camel_case (x : Deployment.t) :
  prop (row_of_deployment x) "projectId" = JsUndefined /\
  prop (row_of_deployment x) "environmentId" = JsUndefined /\
  prop (row_of_deployment x) "createdAt" = JsUndefined /\
  prop (row_of_deployment x) "containerId" = JsUndefined.
Proof. repeat split; reflexivity. Qed.

Lemma previous_successful_undefined (d : Db) :
  DeploymentService.previous_successful JsUndefined JsUndefined JsUndefined d = [].
Proof.
  unfold DeploymentService.previous_successful.
  rewrite filter_none; [reflexivity |]. intros x. reflexivity.
Qed.

(** [rollbackDeployment] never returns a deployment: it rejects with the
    not-found error or with the validation error, and changes nothing. *)
Lemma rollbackDeployment_run (id user : string) (s : Sys) :
  run (DeploymentService.rollbackDeployment id user) s
  = match refused [id; user] with
    | Some e => (inl e, s)
    | None =>
      match DeploymentService.select_deployment (db s) id user with
      | [] => (inl (ApiError 404 "NOT_FOUND" "Deployment not found"), s)
      | _ :: _ => (inl (ApiError 400 "VALIDATION_ERROR"
                                 "No previous successful deployment found"), s)
      end
    end.
Proof.
  unfold DeploymentService.rollbackDeployment.
  rewrite run_bind, getDeployment_run.
  destruct (refused [id; user]); [reflexivity |].
  destruct (DeploymentService.select_deployment (db s) id user) as [| x rest];
    [reflexivity |].
  rewrite run_bind. unfold query at 1. rewrite run_await. cbn beta iota.
  rewrite with_db_same.
  change (prop (row_of_deployment x) "projectId") with JsUndefined.
  change (prop (row_of_deployment x) "environmentId") with JsUndefined.
  change (prop (row_of_deployment x) "createdAt") with JsUndefined.
  rewrite previous_successful_undefined. reflexivity.
Qed.

(** [cancelDeployment] in every system: rejected for an unknown or a
    terminal deployment, with nothing changed; otherwise the row becomes
    [cancelled] and one log entry is appended.  The daemon is never called. *)
Lemma cancelDeployment_run (id user : string) (s : Sys) :
  run (DeploymentService.cancelDeployment id user) s
  = match refused [id; user] with
    | Some e => (inl e, s)
    | None =>
      match DeploymentService.select_deployment (db s) id user with
      | [] => (inl (ApiError 404 "NOT_FOUND" "Deployment not found"), s)
      | x :: _ =>
          if terminal (Deployment.status x)
          then (inl (ApiError 400 "VALIDATION_ERROR"
                              "Cannot cancel completed deployment"), s)
          else (inr tt,
                appended_log id "info" "Deployment cancelled by user"
                  (with_db s (update_deployments (db s) id
                                (DeploymentService.set_cancelled (clock s)))))
      end
    end.
Proof.
  unfold DeploymentService.cancelDeployment.
  rewrite run_bind, getDeployment_run.
  destruct (refused [id; user]); [reflexivity |].
  destruct (DeploymentService.select_deployment (db s) id user) as [| x rest] eqn:Sel;
    [reflexivity |].
  change (prop (row_of_deployment x) "status")
    with (JsString (status_text (Deployment.status x))).
  change (prop (row_of_deployment x) "containerId") with JsUndefined.
  destruct (Deployment.status x) eqn:St; cbn [terminal];
    try reflexivity.
  all: cbn [strict_eq status_text String.eqb Ascii.eqb Bool.eqb negb andb].
  all: rewrite run_bind; cbn [run]; rewrite run_bind;
    unfold DeploymentService.update at 1, query at 1; rewrite run_await;
    cbn beta iota.
  all: apply addDeploymentLog_run; cbn [db with_db];
    eapply find_deployment_ids;
      [apply update_deployments_ids, set_cancelled_preserves_id
      | eapply select_deployment_found; exact Sel].
Qed.

(** C10, as amended.  On an existing deployment the pipeline always ends in
    [success] or [failed] with [duration_seconds] set by that transition:
    the whole seconds between the start of the pipeline and the UPDATE that
    makes the deployment [success] or [failed], whose time is in
    [updated_at].  A cancel that succeeds makes the deployment [cancelled]
    and leaves [duration_seconds] as it was. *)
Theorem duration_is_set_by_the_pipeline (id p e u user : string) (s : Sys)
    (d0 : Deployment.t) :
  find_deployment (db s) id = Some d0 ->
  (exists s' d,
     run (DeploymentService.executeDeployment id p e u) s = (inr tt, s') /\
     find_deployment (db s') id = Some d /\
     (Deployment.status d = success \/ Deployment.status d = failed) /\
     Deployment.duration_seconds d
     = Some ((Deployment.updated_at d - clock s) / 1000)) /\
  (forall s',
     run (DeploymentService.cancelDeployment id user) s = (inr tt, s') ->
     exists d,
       find_deployment (db s') id = Some d /\
       Deployment.status d = cancelled /\
       Deployment.duration_seconds d = Deployment.duration_seconds d0).
Proof.
  intros F. split.
  - destruct (executeDeployment_measured id p e u s) as (s' & R & d & F' & St & Du).
    { rewrite F. discriminate. }
    exists s', d. auto.
  - intros s' R. rewrite cancelDeployment_run in R.
    destruct (refused [id; user]); [discriminate |].
    destruct (DeploymentService.select_deployment (db s) id user) as [| x rest];
      [discriminate |].
    destruct (terminal (Deployment.status x)); [discriminate |].
    injection R as <-.
    exists (DeploymentService.set_cancelled (clock s) d0). split; [| split; reflexivity].
    unfold appended_log. cbn [db with_db].
    change (find_deployment
              (update_deployments (db s) id (DeploymentService.set_cancelled (clock s))) id
            = Some (DeploymentService.set_cancelled (clock s) d0)).
    rewrite find_deployment_update by apply set_cancelled_preserves_id.
    rewrite F. reflexivity.
Qed.

End CancelRollback.

(* ===================================================================== *)
(** * Runs on concrete systems *)
(* ===================================================================== *)

(** Scenario A: a deployment of an environment with [APP_NAME=demo] ends in
    [success] with a host port and a log entry naming the port. *)
Example scenario_A :
  let s := snd (Fixture.resumed Fixture.host_ok 0) in
  option_map (fun d => (Deployment.status d, Deployment.container_port d))
             (find_deployment (db s) Fixture.deployment0)
  = Some (success, Some 8342) /\
  In "Container running on port 8342"%string
     (map DeploymentLog.message (logs_of (db s) Fixture.deployment0)).
Proof. vm_compute. split; [reflexivity | tauto]. Qed.

(** C2, on the code: a deployment is created ([pending]), its pipeline sets
    [building], the user cancels it ([cancelled], accepted), and the pipeline,
    which never looks at the status again, then overwrites the terminal
    record: with [failed], an error message and a duration when the build
    fails, with [success] when build and run succeed. *)
Theorem cancelled_deployment_is_overwritten :
  let h := Fixture.host_clone_fails in
  let record s := find_deployment (db s) Fixture.deployment0 in
  Fixture.status_in (Fixture.created h) = Some pending /\
  Fixture.status_in (snd (Fixture.paused h 2)) = Some building /\
  fst (Fixture.cancel_at h 2) = inr tt /\
  Fixture.status_in (snd (Fixture.cancel_at h 2)) = Some cancelled /\
  fst (Fixture.resumed h 2) = inr tt /\
  Fixture.status_in (snd (Fixture.resumed h 2)) = Some failed /\
  option_map Deployment.duration_seconds (record (snd (Fixture.cancel_at h 2)))
  = Some None /\
  option_map Deployment.duration_seconds (record (snd (Fixture.resumed h 2)))
  = Some (Some 2) /\
  option_map Deployment.error_message (record (snd (Fixture.cancel_at h 2)))
  = Some None /\
  option_map Deployment.error_message (record (snd (Fixture.resumed h 2)))
  = Some (Some "Failed to build Docker image: Error: Failed to clone repository: Error: Command failed: git clone https://example.org/demo.git /tmp/gilgal-00000000-0000-4000-8000-000000000000/source"%string) /\
  Fixture.status_in (snd (Fixture.cancel_at Fixture.host_ok 2)) = Some cancelled /\
  Fixture.status_in (snd (Fixture.resumed Fixture.host_ok 2)) = Some success.
Proof. vm_compute. repeat split; reflexivity. Qed.

(** C5, on the code: [old] is the latest successful deployment of the same
    project and environment created before [new], and the rollback query
    selects it when given the columns of the current row; but
    [rollbackDeployment] reads [projectId], [environmentId] and [createdAt],
    which the row does not have, and rejects with the validation error. *)
Theorem rollback_never_finds_the_previous_deployment :
  DeploymentService.previous_successful
    (prop (row_of_deployment Fixture.new) "project_id")
    (prop (row_of_deployment Fixture.new) "environment_id")
    (prop (row_of_deployment Fixture.new) "created_at") Fixture.db_two
  = [Fixture.old] /\
  run (DeploymentService.rollbackDeployment (host := Fixture.host_ok) Fixture.d2 Fixture.u1)
      (Fixture.sys Fixture.db_two)
  = (inl (ApiError 400 "VALIDATION_ERROR" "No previous successful deployment found"),
     Fixture.sys Fixture.db_two).
Proof. vm_compute. split; reflexivity. Qed.

Lemma cancelDeployment_never_calls_the_daemon {host : Host} (id user : string) (s : Sys) :
  docker (snd (run (DeploymentService.cancelDeployment id user) s)) = docker s /\
  trace (snd (run (DeploymentService.cancelDeployment id user) s)) = trace s.
Proof.
  rewrite cancelDeployment_run.
  destruct (refused [id; user]); [split; reflexivity |].
  destruct (DeploymentService.select_deployment (db s) id user) as [| x rest];
    [split; reflexivity |].
  destruct (terminal (Deployment.status x)); split; reflexivity.
Qed.

(** C6, on the code: the cancel of a [building] deployment is accepted, the
    row becomes [cancelled] and a log entry is appended, but no container is
    stopped: not the one the pipeline has just started (the row does not name
    it yet), and not one the row does name (the service reads [containerId],
    the row has [container_id]).  The daemon is not called at all. *)
Theorem cancel_never_stops_the_container :
  let h := Fixture.host_ok in
  let before := snd (Fixture.paused h 23) in
  let after := snd (Fixture.cancel_at h 23) in
  let named := run (DeploymentService.cancelDeployment (host := h) Fixture.d3 Fixture.u1)
                   Fixture.sys_rebuilding in
  Fixture.status_in before = Some building /\
  is_running (docker before) "container-0" = true /\
  fst (Fixture.cancel_at h 23) = inr tt /\
  Fixture.status_in after = Some cancelled /\
  map DeploymentLog.message (logs_of (db after) Fixture.deployment0)
  = map DeploymentLog.message (logs_of (db before) Fixture.deployment0)
    ++ ["Deployment cancelled by user"%string] /\
  is_running (docker after) "container-0" = true /\
  trace after = trace before /\
  Deployment.container_id Fixture.rebuilding = Some "container-0"%string /\
  is_running (docker Fixture.sys_rebuilding) "container-0" = true /\
  fst named = inr tt /\
  option_map Deployment.status (find_deployment (db (snd named)) Fixture.d3) = Some cancelled /\
  is_running (docker (snd named)) "container-0" = true /\
  trace (snd named) = [].
Proof. vm_compute. repeat split; reflexivity. Qed.

(** C10, against the claim as stated: a cancelled deployment is terminal and
    its [duration_seconds] is not set. *)
Lemma cancelled_without_duration :
  exists d,
    fst (Fixture.cancel_at Fixture.host_ok 0) = inr tt /\
    find_deployment (db (snd (Fixture.cancel_at Fixture.host_ok 0))) Fixture.deployment0 = Some d /\
    Deployment.status d = cancelled /\
    terminal (Deployment.status d) = true /\
    Deployment.duration_seconds d = None.
Proof. eexists. vm_compute. repeat split; reflexivity. Qed.

Lemma duration_is_set_by_the_pipeline_witness :
  let d0 := Deployment.mk Fixture.deployment0 Fixture.p1 Fixture.e1 None None pending None None None None None
                          1000000 1000000 in
  let s := Fixture.created Fixture.host_ok in
  find_deployment (db s) Fixture.deployment0 = Some d0 /\
  (exists s' d,
     run (DeploymentService.executeDeployment (host := Fixture.host_ok)
            Fixture.deployment0 Fixture.p1 Fixture.e1 Fixture.u1) s = (inr tt, s') /\
     find_deployment (db s') Fixture.deployment0 = Some d /\
     (Deployment.status d = success \/ Deployment.status d = failed) /\
     Deployment.duration_seconds d
     = Some ((Deployment.updated_at d - clock s) / 1000)) /\
  (forall s',
     run (DeploymentService.cancelDeployment (host := Fixture.host_ok) Fixture.deployment0 Fixture.u1) s
     = (inr tt, s') ->
     exists d,
       find_deployment (db s') Fixture.deployment0 = Some d /\
       Deployment.status d = cancelled /\
       Deployment.duration_seconds d = Deployment.duration_seconds d0).
Proof.
  cbv zeta. split; [vm_compute; reflexivity |].
  apply (duration_is_set_by_the_pipeline (host := Fixture.host_ok)).
  vm_compute; reflexivity.
Defined.

(** Scenario E: the clone fails. *)
Lemma pipeline_error_is_captured_witness :
  let h := Fixture.host_clone_fails in
  let s := Fixture.created h in
  let raised := run (DeploymentService.pipeline (host := h) Fixture.deployment0 Fixture.p1 Fixture.e1 (clock s)) s in
  let error := Error "Failed to build Docker image: Error: Failed to clone repository: Error: Command failed: git clone https://example.org/demo.git /tmp/gilgal-00000000-0000-4000-8000-000000000000/source" in
  find_deployment (db s) Fixture.deployment0 <> None /\
  raised = (inl error, snd raised) /\
  exists s2 d,
    run (DeploymentService.executeDeployment (host := h) Fixture.deployment0 Fixture.p1 Fixture.e1 Fixture.u1) s
    = (inr tt, s2) /\
    find_deployment (db s2) Fixture.deployment0 = Some d /\
    Deployment.status d = failed /\
    Deployment.error_message d = Some (message error) /\
    Deployment.duration_seconds d = Some 2 /\
    option_map DeploymentLog.log_level (last (map Some (logs_of (db s2) Fixture.deployment0)) None)
    = Some "error"%string /\
    spawned s2 = [].
Proof.
  cbv zeta.
  split; [vm_compute; discriminate |].
  split; [vm_compute; reflexivity |].
  destruct (pipeline_error_is_captured (host := Fixture.host_clone_fails)
              Fixture.deployment0 Fixture.p1 Fixture.e1 Fixture.u1 (Fixture.created Fixture.host_clone_fails)
              (snd (run (DeploymentService.pipeline (host := Fixture.host_clone_fails)
                           Fixture.deployment0 Fixture.p1 Fixture.e1
                           (clock (Fixture.created Fixture.host_clone_fails)))
                        (Fixture.created Fixture.host_clone_fails)))
              (Error "Failed to build Docker image: Error: Failed to clone repository: Error: Command failed: git clone https://example.org/demo.git /tmp/gilgal-00000000-0000-4000-8000-000000000000/source"))
    as (_ & s2 & d & R & F & St & Em & _ & Du & Lg & Sp).
  - vm_compute; discriminate.
  - vm_compute; reflexivity.
  - exists s2, d. repeat split; try assumption.
    rewrite Lg, map_app. cbn [map]. rewrite last_last. reflexivity.
Defined.

Example nginx_failure_leaves_the_record_at_work :
  let h := Fixture.host_nginx_fails in
  let s := snd (Fixture.paused h 29) in
  Fixture.status_in s = Some success /\
  find_deployment (db s) Fixture.deployment0 <> None /\
  applyNginxConfig (Host := h)
    (db (appended_log (host := h) Fixture.deployment0 "info" "Updating nginx configuration..." s))
  = inl (Error "nginx: configuration file test failed") /\
  exists s2,
    run (DeploymentService.regenerate_nginx (host := h) Fixture.deployment0) s = (inr tt, s2) /\
    deployments (db s2) = deployments (db s) /\
    Fixture.status_in s2 = Some success.
Proof.
  cbv zeta.
  split; [vm_compute; reflexivity |].
  split; [vm_compute; discriminate |].
  split; [reflexivity |].
  destruct (nginx_failure_leaves_the_record (host := Fixture.host_nginx_fails)
              Fixture.deployment0 1000000 (snd (Fixture.paused Fixture.host_nginx_fails 29))
              (Error "nginx: configuration file test failed"))
    as (s2 & R & _ & D & _).
  - vm_compute; discriminate.
  - reflexivity.
  - exists s2. split; [exact R |]. split; [exact D |].
    unfold Fixture.status_in, find_deployment. rewrite D. vm_compute. reflexivity.
Qed.

(** The whole pipeline with nginx failing: the record is the one of the run
    with nginx working, and the last log entry is the warning. *)
Example nginx_failure_whole_run :
  let failing := snd (Fixture.resumed Fixture.host_nginx_fails 0) in
  let working := snd (Fixture.resumed Fixture.host_ok 0) in
  Fixture.status_in failing = Some success /\
  find_deployment (db failing) Fixture.deployment0 = find_deployment (db working) Fixture.deployment0 /\
  option_map DeploymentLog.log_level (last (map Some (logs_of (db failing) Fixture.deployment0)) None)
  = Some "warn"%string.
Proof. vm_compute. repeat split; reflexivity. Qed.

(* ===================================================================== *)
(** * The environment injected into the container *)
(* ===================================================================== *)

Lemma split_entry_format (name value : string) :
  plain_name name = true ->
  split_entry (name ++ "=" ++ value) = (name, value).
Proof.
  induction name as [| c name IH]; simpl; intros H; [reflexivity |].
  apply andb_prop in H. destruct H as [Hc Hn].
  destruct (Ascii.eqb c "="); [discriminate |].
  specialize (IH Hn). simpl in IH. rewrite IH. reflexivity.
Qed.

Lemma assoc_absent (name : string) (l : list (string * string)) :
  ~ In name (map fst l) -> assoc name l = None.
Proof.
  induction l as [| [k v] l IH]; simpl; intros H; [reflexivity |].
  destruct (k =? name)%string eqn:E.
  - apply String.eqb_eq in E. tauto.
  - apply IH. tauto.
Qed.

Lemma assoc_present (name value : string) (l : list (string * string)) :
  NoDup (map fst l) -> In (name, value) l -> assoc name l = Some value.
Proof.
  induction l as [| [k v] l IH]; simpl; intros ND H; [contradiction |].
  inversion ND as [| ? ? Hk ND']; subst.
  destruct H as [H | H].
  - injection H as -> ->. rewrite String.eqb_refl. reflexivity.
  - destruct (k =? name)%string eqn:E; [| auto].
    apply String.eqb_eq in E. subst k. exfalso. apply Hk.
    apply (in_map fst) in H. exact H.
Qed.

Lemma getenv_entries (l : list (string * string)) (name : string) (found : option string) :
  NoDup (map fst l) ->
  forallb (fun kv => plain_name (fst kv)) l = true ->
  fold_left (fun found entry =>
               let (n, v) := split_entry entry in
               if (n =? name)%string then Some v else found)
            (map (fun kv => (fst kv ++ "=" ++ snd kv)%string) l) found
  = match assoc name l with Some v => Some v | None => found end.
Proof.
  revert found. induction l as [| [k v] l IH]; intros found ND P; [reflexivity |].
  cbn [forallb fst] in P. apply andb_prop in P. destruct P as [Pk Pl].
  cbn [map fst] in ND. inversion ND as [| ? ? Hk ND']; subst.
  cbn [map fold_left fst snd assoc].
  rewrite (split_entry_format k v Pk), (IH _ ND' Pl).
  destruct (k =? name)%string eqn:E; [| reflexivity].
  apply String.eqb_eq in E. subst k. rewrite (assoc_absent name l Hk). reflexivity.
Qed.

(** C8, against the claim as stated: a supplied [NODE_ENV] is followed in the
    array by the marker and does not take effect; and a name containing [=]
    is injected as another name, so that two different mappings give one
    and the same container environment. *)
Lemma supplied_NODE_ENV_is_overridden :
  DockerService.container_env [("NODE_ENV", "development")]%string
  = ["NODE_ENV=development"; "NODE_ENV=production"]%string /\
  getenv (DockerService.container_env [("NODE_ENV", "development")]%string) "NODE_ENV"
  <> Some "development"%string /\
  DockerService.container_env [("A=B", "c")]%string
  = DockerService.container_env [("A", "B=c")]%string.
Proof. vm_compute. repeat split; try reflexivity. discriminate. Qed.

(** The array reaches the daemon: the container [runContainer] reports is in
    the daemon, running, with that [Env]. *)
Lemma runContainer_env {host : Host} (imageName projectId environmentId : string)
    (envVariables : list (string * string)) (framework : string)
    (s s' : Sys) (containerId : string) (port : Z) :
  run (DockerService.runContainer imageName projectId environmentId envVariables framework) s
  = (inr (containerId, port), s') ->
  exists c, In c (Docker.containers (docker s')) /\
            Docker.Id c = containerId /\
            Docker.Running c = true /\
            Docker.Env (Docker.Config c) = DockerService.container_env envVariables.
Proof.
  unfold DockerService.runContainer.
  rewrite run_try_catch, run_bind.
  unfold DockerService.allocatePort at 1. rewrite run_await. cbn beta iota.
  rewrite run_bind.
  match goal with
  | |- context [run (try_catch ?m ?h) ?st] =>
      destruct (run (try_catch m h) st) as [[e | []] s1] eqn:E1
  end.
  { rewrite run_try_catch in E1.
    match type of E1 with
    | context [run ?m ?st] => destruct (run m st) as [[e' | a] s0]
    end; discriminate E1. }
  rewrite run_bind, run_await.
  unfold Dockerode.createContainer at 1.
  set (o := DockerService.container_options _ _ _ _ _ _).
  destruct (existsb _ _); [cbn; discriminate |].
  destruct (negb _); [cbn; discriminate |].
  cbn beta iota zeta.
  rewrite run_bind, run_await.
  unfold Dockerode.start at 1. cbn [docker emit with_docker].
  set (cid := container_id _).
  set (d1 := Docker.mk _ _ _).
  destruct (Docker.lookup d1 cid) as [c |]; [| cbn; discriminate].
  destruct (Docker.Running c); [cbn; discriminate |].
  destruct (Docker.port_in_use d1 _); [cbn; discriminate |].
  cbn. intros H. injection H as <- <- <-.
  exists (Docker.mkContainer cid o true). cbn.
  split; [| repeat split; reflexivity].
  rewrite map_app. apply in_or_app. right. cbn.
  unfold Docker.matches. cbn. rewrite String.eqb_refl. cbn. left. reflexivity.
Qed.

Section Environment.
Context {host : Host}.

Lemma quiet_addDeploymentLog (id level message : string) :
  respects keeps_rows_and_daemon (DeploymentService.addDeploymentLog id level message).
Proof.
  unfold DeploymentService.addDeploymentLog.
  apply respects_bind; [apply respects_await; intros s; split; reflexivity |]. intros u.
  apply respects_await. intros s. unfold keeps_rows_and_daemon. simpl.
  destruct (refused [id]), (find_deployment (db s) id); split; reflexivity.
Qed.

Lemma quiet_regenerate_nginx (id : string) :
  respects keeps_rows_and_daemon (DeploymentService.regenerate_nginx id).
Proof.
  unfold DeploymentService.regenerate_nginx.
  apply respects_bind; [apply quiet_addDeploymentLog | intros _].
  apply respects_try_catch; [| intros e; apply quiet_addDeploymentLog].
  apply respects_bind; [| intros _; apply quiet_addDeploymentLog].
  apply respects_await. intros s. split; reflexivity.
Qed.

Lemma triple_quiet {A : Type} (P : list Deployment.t -> Docker.t -> Prop) (m : Async A) :
  respects keeps_rows_and_daemon m ->
  triple (fun s => P (deployments (db s)) (docker s)) m
         (fun _ s => P (deployments (db s)) (docker s)).
Proof.
  apply (triple_of_respects keeps_rows_and_daemon).
  - intros s. split; reflexivity.
  - intros a b c [A1 A2] [B1 B2]. split; congruence.
  - intros s s' [K1 K2] H. rewrite K1, K2. exact H.
Qed.

(** The first two statements of the pipeline leave the environments. *)
Lemma triple_update_environments (id e : string) (vars : list (string * string))
    (set : Z -> Deployment.t -> Deployment.t) :
  (forall now, preserves_id (set now)) ->
  triple (fun s => find_deployment (db s) id <> None /\ variables_of (db s) e = vars)
         (DeploymentService.update id set)
         (fun _ s => find_deployment (db s) id <> None /\ variables_of (db s) e = vars).
Proof.
  intros Hset s [Hd Hv]. unfold DeploymentService.update, query.
  rewrite run_await. cbn beta iota zeta. cbn [db with_db]. split; [| exact Hv].
  eapply find_deployment_ids; [| exact Hd].
  apply update_deployments_ids, Hset.
Qed.

Lemma triple_log_environments (id e level message : string)
    (vars : list (string * string)) :
  triple (fun s => find_deployment (db s) id <> None /\ variables_of (db s) e = vars)
         (DeploymentService.addDeploymentLog id level message)
         (fun _ s => find_deployment (db s) id <> None /\ variables_of (db s) e = vars).
Proof.
  intros s [Hd Hv]. rewrite (addDeploymentLog_run _ _ _ _ Hd). split; [| exact Hv].
  unfold appended_log, find_deployment in *. exact Hd.
Qed.

(** When the [try] block settles normally, the container the record names
    runs with the variables of the environment row. *)
Lemma pipeline_normal_return_environment (id p e : string) (startTime : Z)
    (vars : list (string * string)) :
  triple (fun s => find_deployment (db s) id <> None /\ variables_of (db s) e = vars)
         (DeploymentService.pipeline id p e startTime)
         (fun _ => deployed_with id vars).
Proof.
  unfold DeploymentService.pipeline.
  eapply triple_bind;
    [apply triple_update_environments; intros ? ?; reflexivity | intros ?; cbv beta].
  eapply triple_bind; [apply triple_log_environments | intros ?; cbv beta].
  eapply triple_bind with
    (Q := fun envVariables s => find_deployment (db s) id <> None /\ envVariables = vars).
  { intros s [Hd Hv]. unfold query. rewrite run_await. cbn beta iota zeta.
    rewrite with_db_same. split; [exact Hd | exact Hv]. }
  intros envVariables. apply triple_pure. intros ->.
  eapply triple_bind; [apply triple_keeps, keeps_read | intros repositoryUrl].
  eapply triple_bind; [apply triple_keeps, keeps_addDeploymentLog | intros ?; cbv beta].
  eapply triple_bind; [apply triple_keeps, keeps_buildImage | intros image].
  eapply triple_bind; [apply triple_keeps, keeps_addDeploymentLog | intros ?; cbv beta].
  eapply triple_bind; [apply triple_keeps, keeps_addDeploymentLog | intros ?; cbv beta].
  eapply triple_bind with
    (Q := fun started s => find_deployment (db s) id <> None /\ runs_with (fst started) vars s).
  { intros s Hd.
    pose proof (respects_run keeps keeps_refl keeps_trans _
                  (keeps_runContainer (DockerService.imageName image) p e vars
                                      (DockerService.framework image)) s) as [K _].
    destruct (run (DockerService.runContainer _ _ _ _ _) s) as [[err | [containerId port]] s1]
      eqn:R; [exact I |].
    split; [eapply find_deployment_ids; eauto |].
    eapply runContainer_env. exact R. }
  intros started. cbv zeta.
  eapply triple_bind with
    (Q := fun _ s => find_deployment (db s) id <> None /\ runs_with (fst started) vars s).
  { intros s [Hd Hr]. rewrite (addDeploymentLog_run _ _ _ _ Hd). split; [| exact Hr].
    unfold appended_log, find_deployment in *. exact Hd. }
  intros _.
  eapply triple_bind with
    (Q := fun _ s => find_deployment (db s) id <> None /\ runs_with (fst started) vars s).
  { intros s H. exact H. }
  intros now.
  eapply triple_bind with (Q := fun _ => deployed_with id vars).
  - intros s [Hd Hr]. cbn.
    destruct (find_deployment (db s) id) as [d |] eqn:F; [| contradiction].
    exists (DeploymentService.set_success (fst started) (snd started)
              ((now - startTime) / 1000) (clock s) d), (fst started).
    split; [| split; [reflexivity | split; [reflexivity | exact Hr]]].
    change (find_deployment
              (update_deployments (db s) id
                 (DeploymentService.set_success (fst started) (snd started)
                    ((now - startTime) / 1000) (clock s))) id = Some
              (DeploymentService.set_success (fst started) (snd started)
                 ((now - startTime) / 1000) (clock s) d)).
    rewrite find_deployment_update by apply set_success_preserves_id.
    rewrite F. reflexivity.
  - intros ?. cbv beta.
    apply (triple_quiet
             (fun rows daemon =>
                exists d containerId,
                  find (fun x => same_uuid (Deployment.id x) id) rows = Some d /\
                  Deployment.status d = success /\
                  Deployment.container_id d = Some containerId /\
                  exists c, In c (Docker.containers daemon) /\
                            Docker.Id c = containerId /\
                            Docker.Running c = true /\
                            Docker.Env (Docker.Config c)
                            = DockerService.container_env vars)).
    apply respects_bind;
      [apply quiet_addDeploymentLog | intros _; apply quiet_regenerate_nginx].
Qed.

Lemma container_env_takes_effect
    (envVariables : list (string * string)) (name value : string) :
  NoDup (map fst envVariables) ->
  forallb (fun kv => plain_name (fst kv)) envVariables = true ->
  In (name, value) envVariables ->
  getenv (DockerService.container_env envVariables) "NODE_ENV" = Some "production"%string /\
  (name <> "NODE_ENV"%string ->
   getenv (DockerService.container_env envVariables) name = Some value).
Proof.
  intros ND P H.
  unfold getenv, DockerService.container_env. rewrite !fold_left_app.
  split; [reflexivity |].
  intros Hne. cbn [fold_left].
  change (split_entry "NODE_ENV=production") with ("NODE_ENV"%string, "production"%string).
  cbv iota beta.
  destruct ("NODE_ENV" =? name)%string eqn:E.
  - apply String.eqb_eq in E. congruence.
  - rewrite (getenv_entries _ _ _ ND P), (assoc_present _ _ _ ND H). reflexivity.
Qed.

(** C8, as amended.  When a pipeline ends with its deployment [success],
    the container its record names is in the daemon, running, and the [Env]
    array it was created with is the variables of the environment row, each
    formatted [name=value] and in order, followed by [NODE_ENV=production].
    When no name contains [=], every variable other than [NODE_ENV] has its
    value in the container; [NODE_ENV] is [production] there whatever the
    environment row holds for it. *)
Theorem supplied_variables_take_effect
    (id p e u : string) (s s' : Sys) (env : Environment.t) (d : Deployment.t)
    (name value : string) :
  find_deployment (db s) id <> None ->
  find_environment (db s) e = Some env ->
  NoDup (map fst (Environment.environment_variables env)) ->
  forallb (fun kv => plain_name (fst kv)) (Environment.environment_variables env) = true ->
  In (name, value) (Environment.environment_variables env) ->
  run (DeploymentService.executeDeployment id p e u) s = (inr tt, s') ->
  find_deployment (db s') id = Some d ->
  Deployment.status d = success ->
  exists c,
    Deployment.container_id d = Some (Docker.Id c) /\
    In c (Docker.containers (docker s')) /\
    Docker.Running c = true /\
    Docker.Env (Docker.Config c)
    = map (fun kv => (fst kv ++ "=" ++ snd kv)%string) (Environment.environment_variables env)
      ++ ["NODE_ENV=production"%string] /\
    getenv (Docker.Env (Docker.Config c)) "NODE_ENV" = Some "production"%string /\
    (name <> "NODE_ENV"%string ->
     getenv (Docker.Env (Docker.Config c)) name = Some value).
Proof.
  intros Hd He ND P H R F St.
  rewrite executeDeployment_run in R.
  destruct (run (DeploymentService.pipeline id p e (clock s)) s) as [[error | []] s1] eqn:Rp.
  - destruct (pipeline_error_handled id p e u s s1 error Hd Rp)
      as (s2 & d2 & R2 & F2 & St2 & _).
    rewrite executeDeployment_run, Rp in R2. rewrite R2 in R. injection R as <-.
    rewrite F2 in F. injection F as <-. rewrite St2 in St. discriminate St.
  - injection R as <-.
    pose proof (pipeline_normal_return_environment id p e (clock s)
                  (Environment.environment_variables env) s) as T.
    rewrite Rp in T.
    destruct T as (d1 & containerId & F1 & _ & C1 & c & I1 & Ic & Rc & Ec).
    { split; [exact Hd |]. unfold variables_of. rewrite He. reflexivity. }
    rewrite F1 in F. injection F as <-.
    exists c. rewrite Ic. split; [exact C1 |]. split; [exact I1 |]. split; [exact Rc |].
    rewrite Ec. split; [reflexivity |].
    apply container_env_takes_effect; assumption.
Qed.

End Environment.

Lemma supplied_variables_take_effect_witness :
  let s := Fixture.created Fixture.host_ok in
  let s' := snd (run (DeploymentService.executeDeployment (host := Fixture.host_ok)
                        Fixture.deployment0 Fixture.p1 Fixture.e1 Fixture.u1) s) in
  find_environment (db s) Fixture.e1 = Some Fixture.env1 /\
  find_deployment (db s') Fixture.deployment0 = Some Fixture.deployed0 /\
  exists c,
    In c (Docker.containers (docker s')) /\
    Docker.Id c = "container-0"%string /\
    Docker.Env (Docker.Config c) = ["APP_NAME=demo"; "NODE_ENV=production"]%string /\
    getenv (Docker.Env (Docker.Config c)) "APP_NAME" = Some "demo"%string.
Proof.
  cbv zeta.
  split; [vm_compute; reflexivity |].
  split; [vm_compute; reflexivity |].
  destruct (supplied_variables_take_effect (host := Fixture.host_ok)
              Fixture.deployment0 Fixture.p1 Fixture.e1 Fixture.u1
              (Fixture.created Fixture.host_ok)
              (snd (run (DeploymentService.executeDeployment (host := Fixture.host_ok)
                           Fixture.deployment0 Fixture.p1 Fixture.e1 Fixture.u1)
                        (Fixture.created Fixture.host_ok)))
              Fixture.env1 Fixture.deployed0 "APP_NAME" "demo")
    as (c & C & I & _ & E & _ & G).
  - vm_compute; discriminate.
  - vm_compute; reflexivity.
  - simpl. constructor; [simpl; tauto | constructor].
  - reflexivity.
  - simpl; tauto.
  - vm_compute; reflexivity.
  - vm_compute; reflexivity.
  - reflexivity.
  - exists c. split; [exact I |].
    split; [injection C as C; symmetry; exact C |].
    split; [exact E |]. apply G. discriminate.
Defined.

(** The run step fails (the drawn host port is taken): the deployment is
    [failed] with the error of the run step as its message. *)
Example run_step_failure :
  let r := run (DeploymentService.executeDeployment (host := Fixture.host_ok)
                  Fixture.deployment0 Fixture.p1 Fixture.e1 Fixture.u1) Fixture.created_port_taken in
  fst r = inr tt /\
  option_map (fun d => (Deployment.status d, Deployment.error_message d))
             (find_deployment (db (snd r)) Fixture.deployment0)
  = Some (failed,
          Some "Failed to run Docker container: Error: (HTTP code 500) server error - port is already allocated"%string) /\
  option_map DeploymentLog.log_level (last (map Some (logs_of (db (snd r)) Fixture.deployment0)) None)
  = Some "error"%string.
Proof. vm_compute. repeat split; reflexivity. Qed.

(* ===================================================================== *)
(** * WebhookService.verifySignature on its own *)
(* ===================================================================== *)

Lemma signature_hash_length (secret payload : string) :
  String.length ("sha256=" ++ Sha256.hmac_sha256_hex secret payload) = 71%nat.
Proof. rewrite append_length, hmac_sha256_hex_length. reflexivity. Qed.

Lemma verifySignature_throws (payload signature secret : string) :
  (exists e, WebhookService.verifySignature (Some payload) signature secret = inl e)
  <-> String.length signature <> 71%nat.
Proof.
  unfold WebhookService.verifySignature, WebhookService.timingSafeEqual.
  cbv zeta. rewrite signature_hash_length.
  destruct (Nat.eqb_spec 71 (String.length signature)) as [E | E].
  - split; [intros (e & H); discriminate H | intros H; congruence].
  - split; [intros _; congruence | intros _; eexists; reflexivity].
Qed.

(** X1. With a payload, [verifySignature] returns [true] exactly for the
    signature [sha256=] followed by the hex digest of the payload under the
    secret, and it throws exactly when the signature is not 71 bytes long. *)
Theorem verifySignature_accepts_only_the_genuine_signature
    (payload signature secret : string) :
  (WebhookService.verifySignature (Some payload) signature secret = inr true
   <-> signature = ("sha256=" ++ Sha256.hmac_sha256_hex secret payload)%string) /\
  ((exists e, WebhookService.verifySignature (Some payload) signature secret = inl e)
   <-> String.length signature <> 71%nat).
Proof.
  split; [| apply verifySignature_throws].
  unfold WebhookService.verifySignature, WebhookService.timingSafeEqual.
  cbv zeta.
  pose proof (signature_hash_length secret payload) as L.
  set (hash := ("sha256=" ++ Sha256.hmac_sha256_hex secret payload)%string) in *.
  clearbody hash. rewrite L.
  destruct (Nat.eqb_spec 71 (String.length signature)) as [E | E].
  - split.
    + intros H. injection H as H. apply String.eqb_eq in H. auto.
    + intros ->. rewrite String.eqb_refl. reflexivity.
  - split; [discriminate | intros ->; congruence].
Qed.

(* ===================================================================== *)
(** * The branch of a push *)
(* ===================================================================== *)

Lemma append_empty (s : string) : (s ++ EmptyString)%string = s.
Proof. induction s; simpl; congruence. Qed.

Lemma append_assoc (a b c : string) : ((a ++ b) ++ c)%string = (a ++ b ++ c)%string.
Proof. induction a; simpl; congruence. Qed.

Lemma last_segment_no_slash (s acc : string) :
  no_slash s = true -> last_segment s acc = (acc ++ s)%string.
Proof.
  revert acc. induction s as [| c s IH]; intros acc H; simpl.
  - symmetry. apply append_empty.
  - simpl in H. apply andb_prop in H. destruct H as [Hc Hs].
    destruct (Ascii.eqb c "/"); [discriminate |].
    rewrite (IH _ Hs). apply append_assoc.
Qed.

Lemma last_segment_append (prefix rest acc : string) :
  last_segment (prefix ++ String "/"%char rest) acc = last_segment rest EmptyString.
Proof.
  revert acc. induction prefix as [| c p IH]; intros acc; simpl.
  - reflexivity.
  - destruct (Ascii.eqb c "/"); apply IH.
Qed.

Lemma no_slash_append (a b : string) :
  no_slash a = true -> no_slash b = true -> no_slash (a ++ b) = true.
Proof.
  intros Ha Hb. induction a as [| c a IH]; simpl in *; [exact Hb |].
  apply andb_prop in Ha. destruct Ha as [Hc Ha]. rewrite Hc. simpl. auto.
Qed.

Lemma last_segment_has_no_slash (s acc : string) :
  no_slash acc = true -> no_slash (last_segment s acc) = true.
Proof.
  revert acc. induction s as [| c s IH]; intros acc H; simpl; [exact H |].
  destruct (Ascii.eqb c "/") eqn:E; [apply IH; reflexivity |].
  apply IH, no_slash_append; [exact H |]. simpl. rewrite E. reflexivity.
Qed.

Lemma or_else_no_slash (x : option string) (d : string) :
  (forall s, x = Some s -> no_slash s = true) -> no_slash d = true ->
  no_slash (or_else x d) = true.
Proof.
  intros Hx Hd. destruct x as [s |]; simpl; [| exact Hd].
  destruct (s =? EmptyString)%string; [exact Hd | apply Hx; reflexivity].
Qed.

(** X2. The branch [handlePushWebhook] reports is what follows the last [/]
    of [ref], so [refs/heads/feature/login] gives [login]; it is [main] when
    [ref] is missing or ends in [/]; and it never contains a [/]. *)
Theorem branch_is_the_last_segment (prefix name : string) (ref : option string) :
  no_slash name = true -> name <> EmptyString ->
  branch_of (Some (prefix ++ String "/"%char name)%string) = name /\
  branch_of (Some name) = name /\
  branch_of (Some (prefix ++ "/")%string) = "main"%string /\
  branch_of None = "main"%string /\
  no_slash (branch_of ref) = true.
Proof.
  intros H N.
  assert (E : forall s, s <> EmptyString -> (s =? EmptyString)%string = false)
    by (intros s Hs; apply String.eqb_neq; exact Hs).
  assert (P : forall p, (p ++ String "/"%char name)%string <> EmptyString)
    by (intros [| c p]; discriminate).
  unfold branch_of. repeat split.
  - cbn [or_else]. rewrite (E _ (P prefix)), last_segment_append.
    rewrite (last_segment_no_slash name EmptyString H). cbn [append].
    rewrite (E _ N). reflexivity.
  - cbn [or_else]. rewrite (E _ N).
    rewrite (last_segment_no_slash name EmptyString H). cbn [append].
    rewrite (E _ N). reflexivity.
  - cbn [or_else].
    assert (Q : (prefix ++ "/")%string <> EmptyString) by (destruct prefix; discriminate).
    rewrite (E _ Q), last_segment_append. reflexivity.
  - apply or_else_no_slash; [| reflexivity].
    intros s Hs. injection Hs as <-. apply last_segment_has_no_slash. reflexivity.
Qed.

Lemma branch_is_the_last_segment_witness :
  branch_of (Some "refs/heads/feature/login") = "login"%string.
Proof.
  apply (branch_is_the_last_segment "refs/heads/feature" "login" None);
    [reflexivity | discriminate].
Defined.

(* ===================================================================== *)
(** * handlePushWebhook in every system *)
(* ===================================================================== *)

Lemma string_leb_trans (a b c : string) :
  String.leb a b = true -> String.leb b c = true -> String.leb a c = true.
Proof.
  unfold String.leb. revert b c.
  induction a as [| x a IH]; intros [| y b] [| z c]; simpl; try congruence.
  intros H1 H2.
  destruct (Ascii.compare x y) eqn:Exy; try discriminate;
    destruct (Ascii.compare y z) eqn:Eyz; try discriminate.
  - apply Ascii.compare_eq_iff in Exy, Eyz. subst.
    assert (R : Ascii.compare z z = Eq) by (unfold Ascii.compare; apply N.compare_refl).
    rewrite R. apply (IH b c); assumption.
  - apply Ascii.compare_eq_iff in Exy. subst. rewrite Eyz. reflexivity.
  - apply Ascii.compare_eq_iff in Eyz. subst. rewrite Exy. reflexivity.
  - unfold Ascii.compare in *. rewrite N.compare_lt_iff in Exy, Eyz.
    assert (L : (N_of_ascii x < N_of_ascii z)%N) by (eapply N.lt_trans; eassumption).
    rewrite <- N.compare_lt_iff in L. rewrite L. reflexivity.
Qed.

Lemma string_leb_refl (a : string) : String.leb a a = true.
Proof. destruct (String.leb_total a a); assumption. Qed.

(** [ORDER BY name ASC LIMIT 1] yields one row, the least by name, when
    there is any. *)
Lemma first_by_name_least (rows : list Environment.t) :
  match first_by_name rows with
  | [m] => In m rows /\
           forall e, In e rows -> String.leb (Environment.name m) (Environment.name e) = true
  | [] => rows = []
  | _ => False
  end.
Proof.
  induction rows as [| e rest IH]; simpl; [reflexivity |].
  destruct (first_by_name rest) as [| m [| m' tl]]; simpl.
  - subst rest. split; [auto |]. intros e' [<- | []]. apply string_leb_refl.
  - destruct IH as [Hin Hle].
    destruct (String.leb (Environment.name e) (Environment.name m)) eqn:L.
    + split; [auto |]. intros e' [<- | H]; [apply string_leb_refl |].
      eapply string_leb_trans; [exact L | apply Hle, H].
    + split; [auto |]. intros e' [<- | H]; [| apply Hle, H].
      destruct (String.leb_total (Environment.name e) (Environment.name m)); congruence.
  - contradiction.
Qed.

(** A rejected INSERT leaves the tables as they were; an accepted one
    appends exactly the new row, whose id was free. *)
Lemma insert_deployment_failure (id p e : string) (st : Status)
    (sha msg : option string) (now : Z) (d d' : Db) (err : Exn) :
  insert_deployment id p e st sha msg now d = (inl err, d') ->
  d' = d /\ instanceof_ApiError err = false.
Proof.
  unfold insert_deployment.
  destruct (refused [id; p; e]) as [x |] eqn:Ref.
  { intros H; injection H as <- <-. split; [reflexivity |].
    apply refused_is_database_error in Ref. destruct Ref as (q & _ & _ & ->). reflexivity. }
  destruct (varchar_null 40 sha); [| intros H; injection H as <- <-; auto].
  destruct (find_deployment d id), (find_project d p), (find_environment d e);
    intros H; try discriminate H; injection H as <- <-; auto.
Qed.

Lemma insert_deployment_success (id p e : string) (st : Status)
    (sha msg : option string) (now : Z) (d d' : Db) (row : Deployment.t) :
  insert_deployment id p e st sha msg now d = (inr row, d') ->
  exists stored,
    varchar_null 40 sha = Some stored /\
    row = Deployment.mk (canonical id) (canonical p) (canonical e) stored msg st
                        None None None None None now now /\
    d' = mkDb (projects d) (environments d) (deployments d ++ [row]) (deployment_logs d) /\
    find_deployment d id = None /\
    find_project d p <> None /\
    find_environment d e <> None.
Proof.
  unfold insert_deployment.
  destruct (refused [id; p; e]); [discriminate |].
  destruct (varchar_null 40 sha) as [stored |]; [| discriminate].
  destruct (find_deployment d id), (find_project d p), (find_environment d e);
    try discriminate.
  intros H. injection H as <- <-. exists stored. repeat split; discriminate.
Qed.

(** A value of at most [n] bytes fits [VARCHAR(n)] as it is. *)
Lemma clip_short (n : nat) (s : string) :
  (String.length s <= n)%nat -> clip n s = (s, EmptyString).
Proof.
  revert n. induction s as [| c s IH]; intros n L; [reflexivity |].
  simpl in L. cbn [clip].
  destruct (continuation c).
  - rewrite (IH n) by lia. reflexivity.
  - destruct n as [| n]; [lia |]. rewrite (IH n) by lia. reflexivity.
Qed.

Lemma varchar_short (n : nat) (s : string) :
  (String.length s <= n)%nat -> varchar n s = Some s.
Proof. intros L. unfold varchar. rewrite (clip_short n s L). reflexivity. Qed.

(** What is stored is the start of the value, and only spaces are cut. *)
Lemma clip_append (n : nat) (s : string) :
  (fst (clip n s) ++ snd (clip n s))%string = s.
Proof.
  revert n. induction s as [| c s IH]; intros n; [reflexivity |].
  cbn [clip]. destruct (continuation c).
  - specialize (IH n). destruct (clip n s). simpl in *. congruence.
  - destruct n as [| n]; [reflexivity |].
    specialize (IH n). destruct (clip n s). simpl in *. congruence.
Qed.

Lemma varchar_stored (n : nat) (value stored : string) :
  varchar n value = Some stored ->
  exists excess, value = (stored ++ excess)%string /\ spaces_only excess = true.
Proof.
  unfold varchar. pose proof (clip_append n value) as A.
  destruct (clip n value) as [keep excess]. simpl in A.
  destruct (spaces_only excess) eqn:Sp; [| discriminate].
  intros H. injection H as <-. exists excess. auto.
Qed.

Section WebhookRuns.
Context {host : Host}.

Lemma handlePushWebhook_run (payload : PushPayload) (projectId : string) (s : Sys) :
  run (WebhookService.handlePushWebhook payload projectId) s
  = match refused [projectId] with
    | Some e =>
        (inr (PushResult.mk false None ("Webhook processing failed: " ++ toString e)), s)
    | None =>
      match live_projects (db s) projectId with
      | [] => (inr (PushResult.mk false None "Project not found"), s)
      | _ :: _ =>
        match or_null (option_map Environment.id
                         (hd_error (first_by_name (live_environments (db s) projectId)))) with
        | None =>
            (inr (PushResult.mk false None "No environment configured for this project"), s)
        | Some environmentId =>
          let deploymentId := uuidv4 (uuids s) in
          match insert_deployment deploymentId projectId environmentId pending
                  (Some (or_else (after payload) "unknown"))
                  (Some ("Webhook deployment from "
                         ++ or_else (pusher_name payload)
                                    (or_else (sender_login payload) "Unknown")
                         ++ " on " ++ branch_of (ref payload))%string)
                  (clock s) (db s) with
          | (inl e, _) =>
              (inr (PushResult.mk false None ("Webhook processing failed: " ++ toString e)),
               used_uuid s)
          | (inr _, d') =>
              (inr (PushResult.mk true (Some deploymentId)
                                  ("Deployment triggered for " ++ branch_of (ref payload)
                                   ++ " branch")),
               mkSys d' (docker s) (clock s) (S (uuids s)) (randoms s)
                     (spawned s ++ [WebhookReadyCheck deploymentId]) (trace s))
          end
        end
      end
    end.
Proof.
  unfold WebhookService.handlePushWebhook, branch_of.
  rewrite run_try_catch, run_bind, run_select.
  destruct (refused [projectId]) eqn:Ref; [reflexivity |].
  destruct (live_projects (db s) projectId) as [| project rest]; [reflexivity |].
  cbv zeta. rewrite run_bind, run_select, Ref.
  destruct (or_null (option_map Environment.id
                       (hd_error (first_by_name (live_environments (db s) projectId)))))
    as [environmentId |]; [| reflexivity].
  rewrite run_bind. unfold new_uuid at 1. rewrite run_await. cbn beta iota.
  rewrite run_bind. unfold query at 1. rewrite run_await. cbn [clock db].
  destruct (insert_deployment _ _ _ _ _ _ _ _) as [[e | row] d'] eqn:Ins.
  - apply insert_deployment_failure in Ins. destruct Ins as [-> _]. reflexivity.
  - rewrite run_bind. unfold DeploymentService.spawn at 1. rewrite run_await.
    reflexivity.
Qed.

Lemma handlePushWebhook_never_rejects
    (payload : PushPayload) (projectId : string) (s : Sys) :
  exists r s', run (WebhookService.handlePushWebhook payload projectId) s = (inr r, s').
Proof.
  rewrite handlePushWebhook_run.
  destruct (refused [projectId]); [eauto |].
  destruct (live_projects (db s) projectId) as [| project rest]; [eauto |].
  destruct (or_null _) as [environmentId |]; [| eauto].
  cbv zeta. destruct (insert_deployment _ _ _ _ _ _ _ _) as [[e | row] d']; eauto.
Qed.

Lemma handlePushWebhook_failure
    (payload : PushPayload) (projectId : string) (s s' : Sys) (r : PushResult.t) :
  run (WebhookService.handlePushWebhook payload projectId) s = (inr r, s') ->
  PushResult.success r = false ->
  PushResult.deploymentId r = None /\ unchanged s s'.
Proof.
  rewrite handlePushWebhook_run.
  destruct (refused [projectId]).
  { intros H _. injection H as <- <-. repeat split. }
  destruct (live_projects (db s) projectId) as [| project rest].
  { intros H _. injection H as <- <-. repeat split. }
  destruct (or_null _) as [environmentId |].
  2: { intros H _. injection H as <- <-. repeat split. }
  cbv zeta. destruct (insert_deployment _ _ _ _ _ _ _ _) as [[e | row] d'].
  - intros H _. injection H as <- <-. repeat split.
  - intros H. injection H as <- <-. discriminate.
Qed.

(** X3. [handlePushWebhook] never rejects: every failure, a refused
    statement included, comes back as a result with [success: false] and no
    deployment id, and then no table row, task, container or external call
    was added. *)
Theorem handlePushWebhook_failure_changes_nothing
    (payload : PushPayload) (projectId : string) (s : Sys) :
  exists r s',
    run (WebhookService.handlePushWebhook payload projectId) s = (inr r, s') /\
    (PushResult.success r = false ->
     PushResult.deploymentId r = None /\ unchanged s s').
Proof.
  destruct (handlePushWebhook_never_rejects payload projectId s) as (r & s' & Run).
  exists r, s'. split; [exact Run |].
  apply (handlePushWebhook_failure payload projectId s s' r Run).
Qed.

(** The row a successful push inserts, and the system it leaves. *)
Lemma handlePushWebhook_inserted
    (payload : PushPayload) (projectId : string) (s s' : Sys) (r : PushResult.t) :
  run (WebhookService.handlePushWebhook payload projectId) s = (inr r, s') ->
  PushResult.success r = true ->
  exists env message stored,
    uuid_in projectId <> None /\
    live_projects (db s) projectId <> [] /\
    first_by_name (live_environments (db s) projectId) = [env] /\
    find_deployment (db s) (uuidv4 (uuids s)) = None /\
    PushResult.deploymentId r = Some (uuidv4 (uuids s)) /\
    varchar 40 (or_else (after payload) "unknown") = Some stored /\
    let row := Deployment.mk (uuidv4 (uuids s)) (canonical projectId)
                 (canonical (Environment.id env))
                 (Some stored) (Some message)
                 pending None None None None None (clock s) (clock s) in
    s' = mkSys (mkDb (projects (db s)) (environments (db s))
                     (deployments (db s) ++ [row]) (deployment_logs (db s)))
               (docker s) (clock s) (S (uuids s)) (randoms s)
               (spawned s ++ [WebhookReadyCheck (uuidv4 (uuids s))]) (trace s).
Proof.
  rewrite handlePushWebhook_run.
  destruct (refused [projectId]) eqn:Ref.
  { intros H; injection H as <- <-. discriminate. }
  destruct (live_projects (db s) projectId) as [| project rest] eqn:P.
  { intros H; injection H as <- <-. discriminate. }
  pose proof (first_by_name_least (live_environments (db s) projectId)) as Least.
  destruct (first_by_name (live_environments (db s) projectId)) as [| env [| ? ?]];
    [ intros H; injection H as <- <-; discriminate | | contradiction ].
  cbn [hd_error option_map or_null].
  destruct (Environment.id env =? EmptyString)%string.
  { intros H; injection H as <- <-. discriminate. }
  cbv zeta. destruct (insert_deployment _ _ _ _ _ _ _ _) as [[e | row] d'] eqn:Ins.
  { intros H; injection H as <- <-. discriminate. }
  apply insert_deployment_success in Ins.
  destruct Ins as (stored & V & Row & D & Free & _ & _).
  intros H _. injection H as <- <-. subst d' row.
  unfold varchar_null in V.
  destruct (varchar 40 (or_else (after payload) "unknown")) as [kept |] eqn:V';
    [| discriminate V].
  injection V as <-.
  assert (Hp : uuid_in projectId <> None).
  { apply refused_none in Ref. inversion Ref; assumption. }
  eexists env, _, kept. rewrite canonical_uuidv4.
  repeat split; [exact Hp | discriminate | exact Free].
Qed.

(** X4. When [handlePushWebhook] reports success, the project exists and is
    not deleted; exactly one row was appended to [deployments], under the
    returned id, which was free: [pending], for that project and for the
    project's first live environment by name; and the only task queued is
    the ready check.  Its [commit_sha] is the pushed [after], or [unknown],
    as the VARCHAR(40) column takes it: the value itself when it has at most
    40 bytes, otherwise the value without the spaces that the column cut off
    its end. *)
Theorem handlePushWebhook_success
    (payload : PushPayload) (projectId : string) (s s' : Sys) (r : PushResult.t) :
  run (WebhookService.handlePushWebhook payload projectId) s = (inr r, s') ->
  PushResult.success r = true ->
  exists env row stored excess,
    live_projects (db s) projectId <> [] /\
    In env (live_environments (db s) projectId) /\
    (forall e, In e (live_environments (db s) projectId) ->
               String.leb (Environment.name env) (Environment.name e) = true) /\
    PushResult.deploymentId r = Some (Deployment.id row) /\
    find_deployment (db s) (Deployment.id row) = None /\
    deployments (db s') = deployments (db s) ++ [row] /\
    Deployment.status row = pending /\
    Deployment.project_id row = canonical projectId /\
    Deployment.environment_id row = canonical (Environment.id env) /\
    Deployment.commit_sha row = Some stored /\
    or_else (after payload) "unknown" = (stored ++ excess)%string /\
    spaces_only excess = true /\
    ((String.length (or_else (after payload) "unknown") <= 40)%nat ->
     excess = EmptyString) /\
    Deployment.container_id row = None /\
    projects (db s') = projects (db s) /\
    environments (db s') = environments (db s) /\
    deployment_logs (db s') = deployment_logs (db s) /\
    spawned s' = spawned s ++ [WebhookReadyCheck (Deployment.id row)] /\
    docker s' = docker s /\ trace s' = trace s.
Proof.
  intros Run Ok.
  destruct (handlePushWebhook_inserted payload projectId s s' r Run Ok)
    as (env & message & stored & Hp & Live & First & Free & Id & V & ->).
  pose proof (first_by_name_least (live_environments (db s) projectId)) as Least.
  rewrite First in Least. destruct Least as [Hin Hle].
  destruct (varchar_stored _ _ _ V) as (excess & Split & Sp).
  exists env,
    (Deployment.mk (uuidv4 (uuids s)) (canonical projectId)
       (canonical (Environment.id env)) (Some stored) (Some message)
       pending None None None None None (clock s) (clock s)), stored, excess.
  cbn [db spawned docker trace projects environments deployments deployment_logs
       Deployment.id].
  split; [exact Live |]. split; [exact Hin |]. split; [exact Hle |].
  split; [exact Id |]. split; [exact Free |].
  do 5 (split; [reflexivity |]).
  split; [exact Split |]. split; [exact Sp |].
  split.
  { intros L. rewrite (varchar_short _ _ L) in V. injection V as <-.
    rewrite <- (append_empty (or_else (after payload) "unknown")) in Split at 1.
    clear - Split. revert Split.
    generalize (or_else (after payload) "unknown"). intros v.
    induction v as [| c v IH]; simpl; intros H; [symmetry; exact H |].
    injection H as H. auto. }
  repeat split.
Qed.

End WebhookRuns.

(* ===================================================================== *)
(** * The route POST /webhooks/github/:projectId in every system *)
(* ===================================================================== *)

Section WebhookRoute.
Context {host : Host}.

Lemma unchanged_refl (s : Sys) : unchanged s s.
Proof. repeat split. Qed.

(** The route, effect by effect. *)
Lemma github_webhook_run (req : Request) (s : Sys) :
  run (Routes.github_webhook req) s
  = match x_hub_signature_256 req with
    | None | Some EmptyString =>
        (inr (sendError 401 "MISSING_SIGNATURE" "Missing X-Hub-Signature-256 header"), s)
    | Some signature =>
      match refused [projectId req] with
      | Some e => (inr (next e), s)
      | None =>
      match live_projects (db s) (projectId req) with
      | [] => (inr (sendError 404 "PROJECT_NOT_FOUND" "Project not found"), s)
      | p :: _ =>
        match or_null (Project.webhook_secret p) with
        | None =>
            (inr (sendError 400 "WEBHOOK_NOT_CONFIGURED"
                    "Webhook is not configured for this project. Generate a secret first."),
             s)
        | Some secret =>
          match WebhookService.verifySignature (rawBody req) signature secret with
          | inl _ =>
              (inr (sendError 401 "INVALID_SIGNATURE" "Invalid webhook signature"), s)
          | inr _ =>
            if is_event (x_github_event req) "push" then
              match run (WebhookService.handlePushWebhook (body req) (projectId req)) s with
              | (inr result, s') =>
                  (inr (if negb (PushResult.success result)
                        then sendError 400 "WEBHOOK_FAILED" (PushResult.message result)
                        else sendSuccess (DataDeploymentId (PushResult.deploymentId result))
                                         (PushResult.message result)), s')
              | (inl e, s') => (inr (next e), s')
              end
            else if is_event (x_github_event req) "ping" then
              (inr (sendSuccess DataPong "Pong!"), s)
            else
              (inr (sendSuccess DataIgnored
                      ("Event type '"
                       ++ match x_github_event req with Some e => e | None => "undefined" end
                       ++ "' is not handled")), s)
          end
        end
      end
      end
    end.
Proof.
  unfold Routes.github_webhook. rewrite run_try_catch.
  destruct (x_hub_signature_256 req) as [[| c sig] |]; try reflexivity.
  rewrite run_bind, run_select.
  destruct (refused [projectId req]); [reflexivity |].
  destruct (live_projects (db s) (projectId req)) as [| p rest]; [reflexivity |].
  destruct (or_null (Project.webhook_secret p)) as [secret |]; [| reflexivity].
  destruct (WebhookService.verifySignature (rawBody req) (String c sig) secret)
    as [e | b]; [reflexivity |].
  cbv zeta. destruct (is_event (x_github_event req) "push").
  - rewrite run_bind.
    destruct (run (WebhookService.handlePushWebhook (body req) (projectId req)) s)
      as [[e | result] s'].
    + reflexivity.
    + destruct (negb (PushResult.success result)); reflexivity.
  - destruct (is_event (x_github_event req) "ping"); reflexivity.
Qed.

(** A project is found only under an id the database accepts. *)
Lemma live_projects_accepted (d : Db) (projectId : string) (p : Project.t)
    (rest : list Project.t) :
  live_projects d projectId = p :: rest -> refused [projectId] = None.
Proof.
  intros H. assert (I : In p (live_projects d projectId)) by (rewrite H; left; reflexivity).
  apply filter_In in I. destruct I as [_ I]. apply andb_prop in I. destruct I as [I _].
  apply same_uuid_true in I. rewrite refused_one.
  destruct (uuid_in projectId); [reflexivity | tauto].
Qed.

(** The route up to the signature check: the database refuses the id and
    the error goes to [next]; or the route answers with one of its four
    early errors; or the check passed.  The first two leave the system as
    it is. *)
Lemma github_webhook_up_to_the_check (req : Request) (s : Sys) :
  (exists e, refused [projectId req] = Some e /\
             run (Routes.github_webhook req) s = (inr (next e), s)) \/
  (exists code err msg,
     run (Routes.github_webhook req) s = (inr (sendError code err msg), s) /\
     In (code, err) early_answers /\
     (err = "INVALID_SIGNATURE"%string ->
      msg = "Invalid webhook signature"%string /\
      exists signature p rest secret e,
        x_hub_signature_256 req = Some signature /\
        live_projects (db s) (projectId req) = p :: rest /\
        or_null (Project.webhook_secret p) = Some secret /\
        WebhookService.verifySignature (rawBody req) signature secret = inl e)) \/
  (exists signature p rest secret b,
     x_hub_signature_256 req = Some signature /\
     live_projects (db s) (projectId req) = p :: rest /\
     or_null (Project.webhook_secret p) = Some secret /\
     WebhookService.verifySignature (rawBody req) signature secret = inr b /\
     run (Routes.github_webhook req) s
     = if is_event (x_github_event req) "push" then
         match run (WebhookService.handlePushWebhook (body req) (projectId req)) s with
         | (inr result, s') =>
             (inr (if negb (PushResult.success result)
                   then sendError 400 "WEBHOOK_FAILED" (PushResult.message result)
                   else sendSuccess (DataDeploymentId (PushResult.deploymentId result))
                                    (PushResult.message result)), s')
         | (inl e, s') => (inr (next e), s')
         end
       else if is_event (x_github_event req) "ping" then
         (inr (sendSuccess DataPong "Pong!"), s)
       else
         (inr (sendSuccess DataIgnored
                 ("Event type '"
                  ++ match x_github_event req with Some e => e | None => "undefined" end
                  ++ "' is not handled")), s)).
Proof.
  rewrite github_webhook_run.
  destruct (x_hub_signature_256 req) as [[| c sig] |] eqn:Sig.
  1, 3: right; left; eexists _, _, _; split; [reflexivity |];
        split; [unfold early_answers; simpl; auto | discriminate].
  destruct (refused [projectId req]) as [e |] eqn:Ref.
  { left. exists e. auto. }
  destruct (live_projects (db s) (projectId req)) as [| p rest] eqn:P.
  { right; left. eexists _, _, _. split; [reflexivity |].
    split; [unfold early_answers; simpl; auto | discriminate]. }
  destruct (or_null (Project.webhook_secret p)) as [secret |] eqn:Sec.
  2: { right; left. eexists _, _, _. split; [reflexivity |].
       split; [unfold early_answers; simpl; auto | discriminate]. }
  destruct (WebhookService.verifySignature (rawBody req) (String c sig) secret)
    as [e | b] eqn:V.
  { right; left. eexists _, _, _. split; [reflexivity |].
    split; [unfold early_answers; simpl; auto |].
    intros _. split; [reflexivity |].
    exists (String c sig), p, rest, secret, e. auto. }
  right; right. exists (String c sig), p, rest, secret, b. auto.
Qed.

(** X5. Whatever the request, the route changes nothing unless it is a push
    and the answer is a success: with an error answer, and with any event
    other than [push], no table row, task, container or external call is
    added. *)
Theorem webhook_changes_nothing_unless_a_push_succeeds
    (req : Request) (s s' : Sys) (response : Response) :
  run (Routes.github_webhook req) s = (inr response, s') ->
  is_event (x_github_event req) "push" = false \/
  (exists code err msg, response = sendError code err msg) ->
  unchanged s s'.
Proof.
  intros R Why.
  destruct (github_webhook_up_to_the_check req s)
    as [(e & _ & E) | [(code & err & msg & E & _)
                      | (signature & p & rest & secret & b & _ & _ & _ & _ & E)]];
    rewrite E in R.
  1, 2: injection R as _ <-; apply unchanged_refl.
  destruct (is_event (x_github_event req) "push") eqn:Push.
  - destruct Why as [Why | (code & err & msg & ->)]; [discriminate |].
    destruct (handlePushWebhook_never_rejects (body req) (projectId req) s)
      as (r & s1 & Run).
    rewrite Run in R. destruct (PushResult.success r) eqn:Ok; cbn [negb] in R.
    + discriminate.
    + injection R as _ _ _ <-.
      apply (handlePushWebhook_failure (body req) (projectId req) s s1 r Run Ok).
  - destruct (is_event (x_github_event req) "ping");
      injection R as _ <-; apply unchanged_refl.
Qed.

(** X7. For a project with a secret and a request that carries its raw body,
    the signature check of the route is a length check: the answer is
    401 INVALID_SIGNATURE exactly when the header is not 71 bytes long. *)
Theorem webhook_signature_check_is_a_length_check
    (req : Request) (s : Sys) (signature payload secret : string)
    (p : Project.t) (rest : list Project.t) :
  x_hub_signature_256 req = Some signature ->
  signature <> EmptyString ->
  rawBody req = Some payload ->
  live_projects (db s) (projectId req) = p :: rest ->
  or_null (Project.webhook_secret p) = Some secret ->
  (fst (run (Routes.github_webhook req) s)
   = inr (sendError 401 "INVALID_SIGNATURE" "Invalid webhook signature")
   <-> String.length signature <> 71%nat).
Proof.
  intros Sig Nonempty Raw P Sec.
  pose proof (verifySignature_throws payload signature secret) as Throws.
  destruct (github_webhook_up_to_the_check req s)
    as [(e & Ref & _) | [(code & err & msg & E & Early & Inv)
                        | (signature' & p' & rest' & secret' & b & Sig' & P' & Sec' & V & E)]].
  - rewrite (live_projects_accepted _ _ _ _ P) in Ref. discriminate Ref.
  - rewrite E. cbn [fst]. split.
    + intros H. injection H as -> -> ->.
      destruct (Inv eq_refl)
        as (_ & signature' & p' & rest' & secret' & e & Sig' & P' & Sec' & V).
      rewrite Sig in Sig'. injection Sig' as <-.
      rewrite P in P'. injection P' as <- <-.
      rewrite Sec in Sec'. injection Sec' as <-.
      rewrite Raw in V. apply Throws. exists e. exact V.
    + intros L. apply Throws in L. destruct L as (e & V).
      rewrite github_webhook_run, Sig in E.
      destruct signature as [| c sig]; [congruence |].
      rewrite (live_projects_accepted _ _ _ _ P), P, Sec, Raw, V in E.
      injection E as <- <- <-. reflexivity.
  - rewrite Sig in Sig'. injection Sig' as <-.
    rewrite P in P'. injection P' as <- <-.
    rewrite Sec in Sec'. injection Sec' as <-.
    rewrite Raw in V. split.
    + rewrite E. intros H. exfalso.
      destruct (is_event (x_github_event req) "push").
      * destruct (run (WebhookService.handlePushWebhook (body req) (projectId req)) s)
          as [[e | result] s1]; cbn [fst] in H; [discriminate |].
        destruct (negb (PushResult.success result)); discriminate.
      * destruct (is_event (x_github_event req) "ping"); discriminate.
    + intros L. apply Throws in L. destruct L as (e & V'). congruence.
Qed.

End WebhookRoute.


Section WebhookThroughTheApp.
Context {host : Host}.
Variable JSON_parse : string -> Result PushPayload.



End WebhookThroughTheApp.

(** A forged and a genuine signature through the app: both are refused. *)
Example webhook_refuses_forged_and_genuine :
  let h := App.mkHeaders (Some "application/json"%string) true 3 None in
  let genuine := ("sha256=" ++ Sha256.hmac_sha256_hex "s3cret" "{}")%string in
  let forged := ("sha256=" ++ Sha256.hmac_sha256_hex "not-the-secret" "{}")%string in
  let post text :=
    run (App.POST_github_webhook (host := Fixture.host_ok) (fun _ => inr Fixture.empty_push)
           h (App.parsed Fixture.push1) Fixture.p1 (Some text) (Some "push"%string))
        (Fixture.sys Fixture.db0) in
  let refused_401 :=
    (inr (Http.sendError 401 "INVALID_SIGNATURE" "Invalid webhook signature"),
     Fixture.sys Fixture.db0) in
  post forged = refused_401 /\ post genuine = refused_401.
Proof. vm_compute. split; reflexivity. Qed.

Lemma handlePushWebhook_success_witness :
  let s := Fixture.sys Fixture.db0 in
  let out := run (WebhookService.handlePushWebhook (host := Fixture.host_ok)
                    Fixture.push1 Fixture.p1) s in
  exists r row,
    fst out = inr r /\ PushResult.success r = true /\
    deployments (db (snd out)) = [row] /\
    Deployment.status row = pending /\
    Deployment.environment_id row = Fixture.e1 /\
    spawned (snd out) = [WebhookReadyCheck (Deployment.id row)].
Proof.
  cbv zeta.
  destruct (handlePushWebhook_success (host := Fixture.host_ok) Fixture.push1 Fixture.p1
              (Fixture.sys Fixture.db0)
              (snd (run (WebhookService.handlePushWebhook (host := Fixture.host_ok)
                           Fixture.push1 Fixture.p1) (Fixture.sys Fixture.db0)))
              (PushResult.mk true (Some Fixture.deployment0) "Deployment triggered for main branch"))
    as (env & row & stored & excess & _ & Hin & _ & _ & _ & Rows & St & _ & Env
        & _ & _ & _ & _ & _ & _ & _ & _ & Q & _);
    [vm_compute; reflexivity | reflexivity |].
  exists (PushResult.mk true (Some Fixture.deployment0) "Deployment triggered for main branch"), row.
  split; [vm_compute; reflexivity |]. split; [reflexivity |].
  split; [exact Rows |]. split; [exact St |]. split; [| exact Q].
  rewrite Env. destruct Hin as [<- | []]. vm_compute. reflexivity.
Defined.

Lemma webhook_changes_nothing_unless_a_push_succeeds_witness :
  let req := mkRequest Fixture.p1 (Some "sha256=0") (Some "ping") (Some "{}") Fixture.empty_push in
  let s := Fixture.sys Fixture.db0 in
  is_event (x_github_event req) "push" = false /\
  unchanged s (snd (run (Routes.github_webhook (host := Fixture.host_ok) req) s)).
Proof.
  cbv zeta. split; [reflexivity |].
  apply (webhook_changes_nothing_unless_a_push_succeeds (host := Fixture.host_ok)
           (mkRequest Fixture.p1 (Some "sha256=0") (Some "ping") (Some "{}") Fixture.empty_push)
           (Fixture.sys Fixture.db0) _
           (sendError 401 "INVALID_SIGNATURE" "Invalid webhook signature")).
  - vm_compute. reflexivity.
  - left. reflexivity.
Defined.

Lemma webhook_signature_check_is_a_length_check_witness :
  let req := Fixture.push_request "sha256=0" "{}" in
  let s := Fixture.sys Fixture.db0 in
  live_projects (db s) (projectId req) = [Fixture.project1] /\
  (fst (run (Routes.github_webhook (host := Fixture.host_ok) req) s)
   = inr (sendError 401 "INVALID_SIGNATURE" "Invalid webhook signature")
   <-> String.length "sha256=0" <> 71%nat).
Proof.
  cbv zeta. split; [reflexivity |].
  apply (webhook_signature_check_is_a_length_check (host := Fixture.host_ok)
           (Fixture.push_request "sha256=0" "{}") (Fixture.sys Fixture.db0)
           "sha256=0" "{}" "s3cret" Fixture.project1 []);
    try reflexivity. discriminate.
Defined.


(* ===================================================================== *)
(** * createDeployment in every system *)
(* ===================================================================== *)

Section CreateDeployment.
Context {host : Host}.

Lemma createDeployment_run (projectId userId : string) (data : CreateDeploymentRequest)
    (s : Sys) :
  run (DeploymentService.createDeployment projectId userId data) s
  = match refused [projectId; userId] with
    | Some e => (inl e, used_uuid s)
    | None =>
    match owned_projects (db s) projectId userId with
    | [] => (inl (ApiError 404 "PROJECT_NOT_FOUND" "Project not found"), used_uuid s)
    | _ :: _ =>
      match refused [environmentId data; projectId] with
      | Some e => (inl e, used_uuid s)
      | None =>
      match project_environments (db s) (environmentId data) projectId with
      | [] => (inl (ApiError 404 "NOT_FOUND" "Environment not found"), used_uuid s)
      | _ :: _ =>
        match insert_deployment (uuidv4 (uuids s)) projectId (environmentId data) pending
                (or_null (commitSha data)) (or_null (commitMessage data))
                (clock s) (db s) with
        | (inl e, _) => (inl e, used_uuid s)
        | (inr row, d') =>
            (inr (row_of_deployment row),
             mkSys d' (docker s) (clock s) (S (uuids s)) (randoms s)
                   (spawned s ++ [PipelineTask (uuidv4 (uuids s)) projectId
                                               (environmentId data) userId])
                   (trace s))
        end
      end
      end
    end
    end.
Proof.
  unfold DeploymentService.createDeployment.
  rewrite run_bind. unfold new_uuid at 1. rewrite run_await. cbn beta iota.
  rewrite run_bind, run_select. cbn [db].
  destruct (refused [projectId; userId]); [reflexivity |].
  destruct (owned_projects (db s) projectId userId) as [| p rest]; [reflexivity |].
  rewrite run_bind, run_select. cbn [db].
  destruct (refused [environmentId data; projectId]); [reflexivity |].
  destruct (project_environments (db s) (environmentId data) projectId) as [| e rest'];
    [reflexivity |].
  rewrite run_bind. unfold query at 1. rewrite run_await. cbn beta iota.
  cbn [db clock with_db docker uuids randoms spawned trace].
  destruct (insert_deployment _ _ _ _ _ _ _ _) as [[err | row] d'] eqn:Ins.
  - apply insert_deployment_failure in Ins. destruct Ins as [-> _]. reflexivity.
  - rewrite run_bind. unfold DeploymentService.spawn at 1. rewrite run_await.
    reflexivity.
Qed.

Lemma find_append {A : Type} (f : A -> bool) (l l' : list A) :
  find f (l ++ l') = match find f l with Some x => Some x | None => find f l' end.
Proof.
  induction l as [| x l IH]; simpl; [reflexivity |]. destruct (f x); auto.
Qed.

Lemma filter_In_head {A : Type} (f : A -> bool) (l : list A) (x : A) (rest : list A) :
  filter f l = x :: rest -> In x l /\ f x = true.
Proof.
  intros H. apply filter_In. rewrite H. left. reflexivity.
Qed.

Lemma find_some_present {A : Type} (f : A -> bool) (l : list A) (x : A) :
  In x l -> f x = true -> find f l <> None.
Proof.
  induction l as [| y l IH]; simpl; [contradiction |].
  intros [-> | H] F.
  - rewrite F. discriminate.
  - destruct (f y); [discriminate | auto].
Qed.

Lemma find_project_present (d : Db) (p : Project.t) (id : string) :
  In p (projects d) -> same_uuid (Project.id p) id = true -> find_project d id <> None.
Proof.
  intros I E. unfold find_project. exact (find_some_present _ _ p I E).
Qed.

Lemma find_environment_present (d : Db) (e : Environment.t) (id : string) :
  In e (environments d) -> same_uuid (Environment.id e) id = true ->
  find_environment d id <> None.
Proof.
  intros I E. unfold find_environment. exact (find_some_present _ _ e I E).
Qed.

Lemma append_same_empty (v e : string) : v = (v ++ e)%string -> e = EmptyString.
Proof.
  induction v as [| c v IH]; simpl; intros H; [symmetry; exact H |].
  injection H as H. auto.
Qed.

(** What [VARCHAR(n)] refuses is longer than [n]. *)
Lemma varchar_refused_long (n : nat) (value : string) :
  varchar n value = None -> (n < String.length value)%nat.
Proof.
  intros V. destruct (Nat.le_gt_cases (String.length value) n) as [L | L]; [| exact L].
  rewrite (varchar_short _ _ L) in V. discriminate V.
Qed.

(** X8. When [createDeployment] rejects, nothing was stored or queued.  It
    rejects with the database's error for the first of the project id and
    the user id that is not the text of a uuid; otherwise with 404
    PROJECT_NOT_FOUND when the user has no live project of that id;
    otherwise with the database's error for an environment id that is not
    the text of a uuid; otherwise with 404 NOT_FOUND when the project has no
    live environment of that id; and otherwise only with the database's own
    error for the INSERT: a [commitSha] that VARCHAR(40) refuses, which is
    longer than 40 bytes, or a deployment id already taken.  The errors of
    the database are no [ApiError]. *)
Theorem createDeployment_rejection_stores_nothing
    (projectId userId : string) (data : CreateDeploymentRequest) (s s' : Sys) (e : Exn) :
  run (DeploymentService.createDeployment projectId userId data) s = (inl e, s') ->
  unchanged s s' /\
  ( (exists id, In id [projectId; userId] /\ uuid_in id = None /\ e = invalid_uuid id /\
                refused [projectId; userId] = Some e)
    \/ (e = ApiError 404 "PROJECT_NOT_FOUND" "Project not found" /\
        refused [projectId; userId] = None /\
        owned_projects (db s) projectId userId = [])
    \/ (owned_projects (db s) projectId userId <> [] /\
        uuid_in (environmentId data) = None /\ e = invalid_uuid (environmentId data))
    \/ (e = ApiError 404 "NOT_FOUND" "Environment not found" /\
        owned_projects (db s) projectId userId <> [] /\
        uuid_in (environmentId data) <> None /\
        project_environments (db s) (environmentId data) projectId = [])
    \/ (instanceof_ApiError e = false /\
        owned_projects (db s) projectId userId <> [] /\
        project_environments (db s) (environmentId data) projectId <> [] /\
        ((exists sha, or_null (commitSha data) = Some sha /\ varchar 40 sha = None /\
                      (40 < String.length sha)%nat)
         \/ find_deployment (db s) (uuidv4 (uuids s)) <> None)) ).
Proof.
  rewrite createDeployment_run.
  destruct (refused [projectId; userId]) as [x |] eqn:Ref.
  { intros H. injection H as <- <-. split; [repeat split |]. left.
    destruct (refused_is_database_error _ _ Ref) as (q & I & U & ->).
    exists q. auto. }
  destruct (owned_projects (db s) projectId userId) as [| p rest] eqn:P.
  { intros H. injection H as <- <-. split; [repeat split | auto]. }
  pose proof (proj1 (refused_none _) Ref) as Acc. inversion Acc as [| ? ? Hp _]; subst.
  rewrite refused_cons.
  destruct (uuid_in (environmentId data)) as [bytes |] eqn:Ue.
  2: { intros H. injection H as <- <-. split; [repeat split |].
       right. right. left. split; [discriminate | auto]. }
  rewrite refused_one.
  destruct (uuid_in projectId) as [pb |] eqn:Up; [| contradiction].
  destruct (project_environments (db s) (environmentId data) projectId)
    as [| env rest'] eqn:E.
  { intros H. injection H as <- <-. split; [repeat split |].
    right. right. right. left. repeat split; discriminate. }
  destruct (insert_deployment _ _ _ _ _ _ _ _) as [[err | row] d'] eqn:Ins;
    [| discriminate].
  intros H. injection H as <- <-. split; [repeat split |]. right. right. right. right.
  split; [exact (proj2 (insert_deployment_failure _ _ _ _ _ _ _ _ _ _ Ins)) |].
  split; [discriminate |]. split; [discriminate |].
  apply filter_In_head in P, E. destruct P as [Pin Pf], E as [Ein Ef].
  apply andb_prop in Pf. destruct Pf as [Pf _]. apply andb_prop in Pf.
  destruct Pf as [Pid _].
  apply andb_prop in Ef. destruct Ef as [Ef _]. apply andb_prop in Ef.
  destruct Ef as [Eid _].
  pose proof (find_project_present _ _ _ Pin Pid) as Fp.
  pose proof (find_environment_present _ _ _ Ein Eid) as Fe.
  revert Ins. unfold insert_deployment.
  rewrite refused_cons, uuid_in_uuidv4, refused_cons, Up, refused_one, Ue.
  destruct (or_null (commitSha data)) as [sha |] eqn:Sha; cbn [varchar_null option_map].
  - destruct (varchar 40 sha) as [stored |] eqn:V; cbn [option_map].
    + destruct (find_deployment (db s) (uuidv4 (uuids s))) as [x |];
        [intros _; right; discriminate |].
      destruct (find_project (db s) projectId); [| contradiction].
      destruct (find_environment (db s) (environmentId data)); [| contradiction].
      discriminate.
    + intros _. left. exists sha. split; [reflexivity |]. split; [exact V |].
      apply varchar_refused_long. exact V.
  - destruct (find_deployment (db s) (uuidv4 (uuids s))) as [x |];
      [intros _; right; discriminate |].
    destruct (find_project (db s) projectId); [| contradiction].
    destruct (find_environment (db s) (environmentId data)); [| contradiction].
    discriminate.
Qed.

(** The row [createDeployment] inserts, and the system it leaves. *)
Lemma createDeployment_inserted
    (projectId userId : string) (data : CreateDeploymentRequest) (s s' : Sys) (r : Row) :
  run (DeploymentService.createDeployment projectId userId data) s = (inr r, s') ->
  exists stored,
  owned_projects (db s) projectId userId <> [] /\
  project_environments (db s) (environmentId data) projectId <> [] /\
  find_deployment (db s) (uuidv4 (uuids s)) = None /\
  varchar_null 40 (or_null (commitSha data)) = Some stored /\
  let row := Deployment.mk (uuidv4 (uuids s)) (canonical projectId)
               (canonical (environmentId data))
               stored (or_null (commitMessage data))
               pending None None None None None (clock s) (clock s) in
  r = row_of_deployment row /\
  s' = mkSys (mkDb (projects (db s)) (environments (db s))
                   (deployments (db s) ++ [row]) (deployment_logs (db s)))
             (docker s) (clock s) (S (uuids s)) (randoms s)
             (spawned s ++ [PipelineTask (uuidv4 (uuids s)) projectId
                                         (environmentId data) userId])
             (trace s).
Proof.
  rewrite createDeployment_run.
  destruct (refused [projectId; userId]); [discriminate |].
  destruct (owned_projects (db s) projectId userId) as [| p rest]; [discriminate |].
  destruct (refused [environmentId data; projectId]); [discriminate |].
  destruct (project_environments (db s) (environmentId data) projectId)
    as [| env rest']; [discriminate |].
  destruct (insert_deployment _ _ _ _ _ _ _ _) as [[err | row] d'] eqn:Ins;
    [discriminate |].
  apply insert_deployment_success in Ins.
  destruct Ins as (stored & V & Row & D & Free & _). rewrite canonical_uuidv4 in Row.
  intros H. injection H as <- <-. subst d' row. exists stored.
  repeat split; [discriminate | discriminate | exact Free | exact V].
Qed.

(** X9. When [createDeployment] returns, the project is a live project of the
    user and the environment a live environment of it; exactly one row was
    appended to [deployments], under a free id, [pending], with the two
    ids as the database prints them and the [commitSha] as the VARCHAR(40)
    column takes it: NULL when it is empty or missing, the value itself when
    it has at most 40 bytes, and otherwise the value without the spaces that
    the column cut off its end; it is the row returned; and exactly one task
    was queued: the pipeline of that deployment. *)
Theorem createDeployment_success
    (projectId userId : string) (data : CreateDeploymentRequest) (s s' : Sys) (r : Row) :
  run (DeploymentService.createDeployment projectId userId data) s = (inr r, s') ->
  exists row stored,
    owned_projects (db s) projectId userId <> [] /\
    project_environments (db s) (environmentId data) projectId <> [] /\
    r = row_of_deployment row /\
    row = Deployment.mk (uuidv4 (uuids s)) (canonical projectId)
            (canonical (environmentId data))
            stored (or_null (commitMessage data))
            pending None None None None None (clock s) (clock s) /\
    match or_null (commitSha data) with
    | None => stored = None
    | Some sha =>
        exists kept excess,
          stored = Some kept /\ sha = (kept ++ excess)%string /\
          spaces_only excess = true /\
          ((String.length sha <= 40)%nat -> excess = EmptyString)
    end /\
    find_deployment (db s) (Deployment.id row) = None /\
    deployments (db s') = deployments (db s) ++ [row] /\
    projects (db s') = projects (db s) /\
    environments (db s') = environments (db s) /\
    deployment_logs (db s') = deployment_logs (db s) /\
    spawned s' = spawned s ++ [PipelineTask (Deployment.id row) projectId
                                            (environmentId data) userId] /\
    docker s' = docker s /\ trace s' = trace s.
Proof.
  intros Run.
  destruct (createDeployment_inserted projectId userId data s s' r Run)
    as (stored & Owned & Env & Free & V & -> & ->).
  exists (Deployment.mk (uuidv4 (uuids s)) (canonical projectId)
            (canonical (environmentId data))
            stored (or_null (commitMessage data))
            pending None None None None None (clock s) (clock s)), stored.
  cbn [db spawned docker trace projects environments deployments deployment_logs
       Deployment.id].
  split; [exact Owned |]. split; [exact Env |].
  split; [reflexivity |]. split; [reflexivity |].
  split.
  { destruct (or_null (commitSha data)) as [sha |]; cbn [varchar_null] in V.
    - destruct (varchar 40 sha) as [kept |] eqn:K; [| discriminate V].
      cbn [option_map] in V. injection V as <-.
      destruct (varchar_stored _ _ _ K) as (excess & Split & Sp).
      exists kept, excess. repeat split; [exact Split | exact Sp |].
      intros L. rewrite (varchar_short _ _ L) in K. injection K as <-.
      exact (append_same_empty _ _ Split).
    - injection V as <-. reflexivity. }
  split; [exact Free |].
  repeat split.
Qed.

(** X10. A deployment created through the API does not stay [pending]: when
    the task that [createDeployment] queued is run, the deployment ends
    [success] or [failed] with its duration recorded, and the queue is
    empty again. *)
Theorem created_deployment_runs_to_an_end
    (projectId userId : string) (data : CreateDeploymentRequest) (s s' : Sys) (r : Row) :
  run (DeploymentService.createDeployment projectId userId data) s = (inr r, s') ->
  spawned s = [] ->
  exists d,
    find_deployment (db (drain 1 s')) (uuidv4 (uuids s)) = Some d /\
    (Deployment.status d = success \/ Deployment.status d = failed) /\
    (exists n, Deployment.duration_seconds d = Some n) /\
    spawned (drain 1 s') = [].
Proof.
  intros R Q. apply createDeployment_inserted in R.
  destruct R as (stored & _ & _ & Free & _ & _ & ->). cbv zeta.
  cbn [drain spawned]. rewrite Q. cbn [app program]. rewrite run_try_catch.
  cbn [db docker clock uuids randoms trace].
  match goal with
  | |- context [run _ ?st] => set (s1 := st)
  end.
  destruct (executeDeployment_outcome (uuidv4 (uuids s)) projectId (environmentId data)
              userId s1) as (s2 & d & Run & F & St & Du & Sp2).
  { subst s1. cbn [db deployments]. unfold find_deployment. cbn [deployments].
    rewrite find_append.
    destruct (find _ (deployments (db s))); [discriminate |].
    cbn [find Deployment.id].
    replace (same_uuid (uuidv4 (uuids s)) (uuidv4 (uuids s))) with true; [discriminate |].
    symmetry. rewrite <- (canonical_uuidv4 (uuids s)) at 1.
    apply same_uuid_refl, uuidv4_accepted. }
  rewrite Run. cbn [snd]. exists d. auto.
Qed.

(** X6. The ids [createDeployment] hands to the pipeline are ids the
    database has accepted: when it returns, the one task it has queued
    carries the id of the row just inserted, which is found under it, and
    the project id, the environment id and the user id of the request, all
    four the text of a uuid; the project and the environment are found
    under theirs.  So no statement of the pipeline is refused for the
    syntax of an id. *)
Theorem createDeployment_queues_accepted_ids
    (projectId userId : string) (data : CreateDeploymentRequest) (s s' : Sys) (r : Row) :
  run (DeploymentService.createDeployment projectId userId data) s = (inr r, s') ->
  exists id,
    spawned s' = spawned s ++ [PipelineTask id projectId (environmentId data) userId] /\
    refused [id; projectId; environmentId data; userId] = None /\
    find_deployment (db s') id <> None /\
    find_project (db s') projectId <> None /\
    find_environment (db s') (environmentId data) <> None.
Proof.
  intros R. apply createDeployment_inserted in R.
  destruct R as (stored & Owned & Env & Free & _ & _ & ->). cbv zeta.
  exists (uuidv4 (uuids s)). cbn [spawned db deployments projects environments].
  destruct (owned_projects (db s) projectId userId) as [| p ps] eqn:P; [contradiction |].
  destruct (project_environments (db s) (environmentId data) projectId)
    as [| env es] eqn:E; [contradiction |].
  apply filter_In_head in P, E. destruct P as [Pin Pf], E as [Ein Ef].
  apply andb_prop in Pf. destruct Pf as [Pf _]. apply andb_prop in Pf.
  destruct Pf as [Pid Pown].
  apply andb_prop in Ef. destruct Ef as [Ef _]. apply andb_prop in Ef.
  destruct Ef as [Eid _].
  split; [reflexivity |]. split; [| split; [| split]].
  - apply refused_none. constructor; [apply uuidv4_accepted |].
    apply same_uuid_true in Pid, Pown, Eid.
    constructor; [tauto |]. constructor; [tauto |]. constructor; [tauto | constructor].
  - unfold find_deployment. cbn [deployments]. rewrite find_append.
    destruct (find _ (deployments (db s))); [discriminate |].
    cbn [find Deployment.id].
    replace (same_uuid (uuidv4 (uuids s)) (uuidv4 (uuids s))) with true; [discriminate |].
    symmetry. rewrite <- (canonical_uuidv4 (uuids s)) at 1.
    apply same_uuid_refl, uuidv4_accepted.
  - exact (find_project_present _ _ _ Pin Pid).
  - exact (find_environment_present _ _ _ Ein Eid).
Qed.

End CreateDeployment.

Lemma createDeployment_rejection_stores_nothing_witness :
  let s := Fixture.sys Fixture.db0 in
  let out := run (DeploymentService.createDeployment (host := Fixture.host_ok)
                    Fixture.p1 Fixture.u2 Fixture.request1) s in
  fst out = inl (ApiError 404 "PROJECT_NOT_FOUND" "Project not found") /\
  unchanged s (snd out).
Proof.
  cbv zeta. split; [vm_compute; reflexivity |].
  apply (createDeployment_rejection_stores_nothing (host := Fixture.host_ok)
           Fixture.p1 Fixture.u2 Fixture.request1 (Fixture.sys Fixture.db0) _
           (ApiError 404 "PROJECT_NOT_FOUND" "Project not found")).
  vm_compute. reflexivity.
Defined.

Lemma createDeployment_success_witness :
  let s := Fixture.sys Fixture.db0 in
  let out := run (DeploymentService.createDeployment (host := Fixture.host_ok)
                    Fixture.p1 Fixture.u1 Fixture.request1) s in
  exists row,
    fst out = inr (row_of_deployment row) /\
    deployments (db (snd out)) = [row] /\
    spawned (snd out) = [PipelineTask (Deployment.id row) Fixture.p1 Fixture.e1 Fixture.u1].
Proof.
  cbv zeta.
  destruct (createDeployment_success (host := Fixture.host_ok)
              Fixture.p1 Fixture.u1 Fixture.request1 (Fixture.sys Fixture.db0)
              (snd (run (DeploymentService.createDeployment (host := Fixture.host_ok)
                           Fixture.p1 Fixture.u1 Fixture.request1) (Fixture.sys Fixture.db0)))
              (row_of_deployment
                 (Deployment.mk Fixture.deployment0 Fixture.p1 Fixture.e1 None None pending None None None None
                                None 1000000 1000000)))
    as (row & stored & _ & _ & R & Row & St & _ & Rows & _ & _ & _ & Q & _);
    [vm_compute; reflexivity |].
  exists row. split; [| split; [exact Rows | exact Q]].
  cbn in St. rewrite Row, St. vm_compute. reflexivity.
Defined.

Lemma created_deployment_runs_to_an_end_witness :
  let s := Fixture.sys Fixture.db0 in
  let s' := snd (run (DeploymentService.createDeployment (host := Fixture.host_ok)
                        Fixture.p1 Fixture.u1 Fixture.request1) s) in
  spawned s = [] /\
  exists d,
    find_deployment (db (drain (host := Fixture.host_ok) 1 s')) Fixture.deployment0 = Some d /\
    (Deployment.status d = success \/ Deployment.status d = failed) /\
    (exists n, Deployment.duration_seconds d = Some n) /\
    spawned (drain (host := Fixture.host_ok) 1 s') = [].
Proof.
  cbv zeta. split; [reflexivity |].
  apply (created_deployment_runs_to_an_end (host := Fixture.host_ok)
           Fixture.p1 Fixture.u1 Fixture.request1 (Fixture.sys Fixture.db0) _
           (row_of_deployment
              (Deployment.mk Fixture.deployment0 Fixture.p1 Fixture.e1 None None pending None None None None
                             None 1000000 1000000)));
    [vm_compute; reflexivity | reflexivity].
Defined.

Lemma createDeployment_queues_accepted_ids_witness :
  let s := Fixture.sys Fixture.db0 in
  let s' := snd (run (DeploymentService.createDeployment (host := Fixture.host_ok)
                        Fixture.p1 Fixture.u1 Fixture.request1) s) in
  exists id,
    spawned s' = [PipelineTask id Fixture.p1 Fixture.e1 Fixture.u1] /\
    refused [id; Fixture.p1; Fixture.e1; Fixture.u1] = None.
Proof.
  cbv zeta.
  destruct (createDeployment_queues_accepted_ids (host := Fixture.host_ok)
              Fixture.p1 Fixture.u1 Fixture.request1 (Fixture.sys Fixture.db0)
              (snd (run (DeploymentService.createDeployment (host := Fixture.host_ok)
                           Fixture.p1 Fixture.u1 Fixture.request1) (Fixture.sys Fixture.db0)))
              (row_of_deployment
                 (Deployment.mk Fixture.deployment0 Fixture.p1 Fixture.e1 None None pending
                                None None None None None 1000000 1000000)))
    as (id & Q & Acc & _); [vm_compute; reflexivity |].
  exists id. split; [exact Q | exact Acc].
Defined.

(* ===================================================================== *)
(** * The pipeline touches its own deployment only *)
(* ===================================================================== *)

Lemma Forall2_same_or_own_refl (id : string) (l : list Deployment.t) :
  Forall2 (same_or_own id) l l.
Proof. induction l; constructor; [left; reflexivity | assumption]. Qed.

Lemma Forall2_same_or_own_trans (id : string) (a b c : list Deployment.t) :
  Forall2 (same_or_own id) a b -> Forall2 (same_or_own id) b c ->
  Forall2 (same_or_own id) a c.
Proof.
  intros H. revert c. induction H as [| x y a b Hxy Hab IH]; intros c Hbc.
  - inversion Hbc. constructor.
  - inversion Hbc as [| y' z b' c' Hyz Hbc']; subst. constructor; [| apply IH, Hbc'].
    destruct Hxy as [-> | [Hx Hy]]; [exact Hyz |].
    destruct Hyz as [-> | [_ Hz]]; right; auto.
Qed.

Lemma isolated_refl (id : string) (s : Sys) : isolated id s s.
Proof.
  repeat split; [apply Forall2_same_or_own_refl |].
  exists []. rewrite app_nil_r. auto.
Qed.

Lemma isolated_trans (id : string) (a b c : Sys) :
  isolated id a b -> isolated id b c -> isolated id a c.
Proof.
  intros (R1 & P1 & E1 & (l1 & L1 & F1) & Q1) (R2 & P2 & E2 & (l2 & L2 & F2) & Q2).
  repeat split; try congruence.
  - eapply Forall2_same_or_own_trans; eassumption.
  - exists (l1 ++ l2). rewrite L2, L1, app_assoc. split; [reflexivity |].
    apply Forall_app. auto.
Qed.

Lemma isolated_quiet (id : string) (s s' : Sys) :
  db s' = db s -> spawned s' = spawned s -> isolated id s s'.
Proof.
  intros D Q. unfold isolated. rewrite D, Q.
  repeat split; [apply Forall2_same_or_own_refl |].
  exists []. rewrite app_nil_r. auto.
Qed.

Section Isolated.
Context {host : Host}.
Variable id : string.

Lemma Forall2_update (f : Deployment.t -> Deployment.t) (l : list Deployment.t) :
  preserves_id f ->
  Forall2 (same_or_own id) l
          (map (fun d => if same_uuid (Deployment.id d) id then f d else d) l).
Proof.
  intros H. induction l as [| x l IH]; cbn [map]; constructor; [| exact IH].
  destruct (same_uuid (Deployment.id x) id) eqn:E; [| left; reflexivity].
  apply same_uuid_true in E. destruct E as [_ E]. right. rewrite H. auto.
Qed.

Lemma isolated_update (set : Z -> Deployment.t -> Deployment.t) :
  (forall now, preserves_id (set now)) ->
  respects (isolated id) (DeploymentService.update id set).
Proof.
  intros H. apply respects_await. intros s. cbn.
  repeat split; [apply Forall2_update, H | exists []; rewrite app_nil_r; auto].
Qed.

Lemma isolated_addDeploymentLog (level message : string) :
  respects (isolated id) (DeploymentService.addDeploymentLog id level message).
Proof.
  unfold DeploymentService.addDeploymentLog.
  apply respects_bind; [apply respects_await; intros s; apply isolated_quiet; reflexivity |].
  intros u. apply respects_await. intros s. cbn.
  destruct (refused [id]), (find_deployment (db s) id); cbn;
    try (apply isolated_quiet; reflexivity).
  repeat split; [apply Forall2_same_or_own_refl |].
  eexists. split; [reflexivity |]. constructor; [reflexivity | constructor].
Qed.

(** An effect that leaves the tables and the queue alone. *)
Ltac quiet :=
  apply respects_await; intros ?;
  unfold Dockerode.inspect, Dockerode.stop, Dockerode.remove, Dockerode.createContainer,
         Dockerode.start, Dockerode.build;
  cbv zeta;
  repeat match goal with
    | |- context [match ?x with _ => _ end] => destruct x
    end;
  apply isolated_quiet; reflexivity.

Ltac walk_isolated :=
  repeat match goal with
    | |- respects _ (Ret _) => exact I
    | |- respects _ (Throw _) => exact I
    | |- respects _ (bind _ _) => apply respects_bind; [| intros ?]
    | |- respects _ (try_catch _ _) => apply respects_try_catch; [| intros ?]
    | |- respects _ (DeploymentService.update _ _) =>
        apply isolated_update; intros ? ?; reflexivity
    | |- respects _ (DeploymentService.addDeploymentLog _ _ _) =>
        apply isolated_addDeploymentLog
    | |- respects _ (match ?x with _ => _ end) => destruct x
    | |- respects _ Date_now => unfold Date_now; quiet
    | |- respects _ new_uuid => unfold new_uuid; quiet
    | |- respects _ (exec _) => unfold exec; quiet
    | |- respects _ (query _) => unfold query; quiet
    | |- respects _ DeploymentService.applyNginx => unfold DeploymentService.applyNginx; quiet
    | |- respects _ DockerService.allocatePort => unfold DockerService.allocatePort; quiet
    | |- respects _ (await _) => quiet
    end.

Lemma isolated_buildImage p d url :
  respects (isolated id) (DockerService.buildImage p d url).
Proof. unfold DockerService.buildImage. walk_isolated. Qed.

Lemma isolated_runContainer i p e vars f :
  respects (isolated id) (DockerService.runContainer i p e vars f).
Proof. unfold DockerService.runContainer. walk_isolated. Qed.

Lemma isolated_executeDeployment p e u :
  respects (isolated id) (DeploymentService.executeDeployment id p e u).
Proof.
  unfold DeploymentService.executeDeployment, DeploymentService.pipeline,
         DeploymentService.on_pipeline_error, DeploymentService.regenerate_nginx.
  repeat match goal with
    | |- respects _ (DockerService.buildImage _ _ _) => apply isolated_buildImage
    | |- respects _ (DockerService.runContainer _ _ _ _ _) => apply isolated_runContainer
    | _ => progress walk_isolated
    end.
Qed.

(** X11. Whatever the daemon, the shell and nginx answer, and whatever is
    in the tables, [executeDeployment] changes no row of another
    deployment, no project and no environment; the log entries it writes are
    appended after the existing ones and all belong to its own deployment;
    and it queues nothing.  This holds after every one of its awaited
    effects, so also when other requests are served in between. *)
Theorem executeDeployment_touches_only_its_own_deployment (p e u : string) (s : Sys) :
  respects (isolated id) (DeploymentService.executeDeployment id p e u) /\
  isolated id s (snd (run (DeploymentService.executeDeployment id p e u) s)).
Proof.
  split; [apply isolated_executeDeployment |].
  apply respects_run;
    [apply isolated_refl | apply isolated_trans | apply isolated_executeDeployment].
Qed.

End Isolated.

(* ===================================================================== *)
(** * Access to a deployment: getDeployment, cancelDeployment,
      rollbackDeployment *)
(* ===================================================================== *)

Section Access.
Context {host : Host}.

Lemma select_deployment_owned (d : Db) (id user : string) (x : Deployment.t) :
  In x (DeploymentService.select_deployment d id user) <->
  In x (deployments d) /\ uuid_in id <> None /\ Deployment.id x = canonical id /\
  exists p, In p (projects d) /\ Project.id p = Deployment.project_id x
            /\ uuid_in user <> None /\ Project.user_id p = canonical user.
Proof.
  unfold DeploymentService.select_deployment. rewrite filter_In, andb_true_iff.
  rewrite same_uuid_true, existsb_exists. split.
  - intros (Hin & (Hu & Hid) & p & Hp & Hb). apply andb_prop in Hb. destruct Hb as [H1 H2].
    apply String.eqb_eq in H1. apply same_uuid_true in H2. destruct H2. eauto 10.
  - intros (Hin & Hu & Hid & p & Hp & H1 & Hv & H2). repeat split; auto.
    exists p. split; [exact Hp |]. apply andb_true_intro.
    split; [apply String.eqb_eq; assumption | apply same_uuid_true; auto].
Qed.

Lemma select_deployment_accepted (d : Db) (id user : string) (x : Deployment.t)
    (rest : list Deployment.t) :
  DeploymentService.select_deployment d id user = x :: rest ->
  refused [id; user] = None /\ uuid_in id <> None.
Proof.
  intros Sel.
  assert (Hin : In x (DeploymentService.select_deployment d id user))
    by (rewrite Sel; left; reflexivity).
  apply select_deployment_owned in Hin.
  destruct Hin as (_ & Hu & _ & p & _ & _ & Hv & _).
  split; [| exact Hu]. apply refused_none. repeat constructor; assumption.
Qed.

(** X12. [getDeployment] changes nothing, and the row it returns is the row
    of a deployment with the requested id whose project belongs to the
    requesting user, both ids as the database prints them. *)
Theorem getDeployment_returns_only_own (id user : string) (s s' : Sys) (r : Row) :
  run (DeploymentService.getDeployment id user) s = (inr r, s') ->
  s' = s /\
  exists x p,
    r = row_of_deployment x /\
    In x (deployments (db s)) /\ Deployment.id x = canonical id /\
    In p (projects (db s)) /\ Project.id p = Deployment.project_id x /\
    Project.user_id p = canonical user.
Proof.
  rewrite getDeployment_run.
  destruct (refused [id; user]); [discriminate |].
  destruct (DeploymentService.select_deployment (db s) id user) as [| x rest] eqn:Sel;
    [discriminate |].
  intros H. injection H as <- <-. split; [reflexivity |].
  assert (Hin : In x (DeploymentService.select_deployment (db s) id user))
    by (rewrite Sel; left; reflexivity).
  apply select_deployment_owned in Hin.
  destruct Hin as (Hin & _ & Hid & p & Hp & H1 & _ & H2).
  exists x, p. auto 8.
Qed.

(** X13. A deployment whose project is not the user's does not exist for
    that user: [getDeployment], [cancelDeployment] and [rollbackDeployment]
    all reject, and nothing is changed: with 404 NOT_FOUND when the database
    accepts both ids, and otherwise with the database's error for the first
    of the deployment id and the user id that is not the text of a uuid. *)
Theorem foreign_deployment_is_not_found (id user : string) (s : Sys) :
  (forall x p, In x (deployments (db s)) -> Deployment.id x = canonical id ->
               In p (projects (db s)) -> Project.id p = Deployment.project_id x ->
               Project.user_id p <> canonical user) ->
  let not_found :=
    match refused [id; user] with
    | Some e => e
    | None => ApiError 404 "NOT_FOUND" "Deployment not found"
    end in
  run (DeploymentService.getDeployment id user) s = (inl not_found, s) /\
  run (DeploymentService.cancelDeployment id user) s = (inl not_found, s) /\
  run (DeploymentService.rollbackDeployment id user) s = (inl not_found, s).
Proof.
  intros Foreign. cbv zeta.
  assert (Sel : DeploymentService.select_deployment (db s) id user = []).
  { destruct (DeploymentService.select_deployment (db s) id user) as [| x rest] eqn:Sel;
      [reflexivity | exfalso].
    assert (Hin : In x (DeploymentService.select_deployment (db s) id user))
      by (rewrite Sel; left; reflexivity).
    apply select_deployment_owned in Hin.
    destruct Hin as (Hin & _ & Hid & p & Hp & H1 & _ & H2).
    exact (Foreign x p Hin Hid Hp H1 H2). }
  rewrite getDeployment_run, cancelDeployment_run, rollbackDeployment_run, Sel.
  destruct (refused [id; user]); auto.
Qed.

(** X14. [cancelDeployment] on a deployment of the user: once the status is
    [success], [failed] or [cancelled] it rejects with 400 VALIDATION_ERROR
    and changes nothing; while it is [pending] or [building] it settles, the
    row keeps everything but [status], now [cancelled], and [updated_at],
    one log entry of level [info] is appended to the deployment, no other
    deployment changes, and the daemon is not called. *)
Theorem cancelDeployment_is_refused_once_finished
    (id user : string) (s : Sys) (x : Deployment.t) (rest : list Deployment.t) :
  DeploymentService.select_deployment (db s) id user = x :: rest ->
  if terminal (Deployment.status x)
  then run (DeploymentService.cancelDeployment id user) s
       = (inl (ApiError 400 "VALIDATION_ERROR" "Cannot cancel completed deployment"), s)
  else exists s',
       run (DeploymentService.cancelDeployment id user) s = (inr tt, s') /\
       find_deployment (db s') id
       = option_map (DeploymentService.set_cancelled (clock s)) (find_deployment (db s) id) /\
       logs_of (db s') id
       = logs_of (db s) id
         ++ [DeploymentLog.mk (uuidv4 (uuids s)) (canonical id) "info"
                              "Deployment cancelled by user" (clock s)] /\
       isolated id s s' /\
       docker s' = docker s /\ trace s' = trace s.
Proof.
  intros Sel. destruct (select_deployment_accepted _ _ _ _ _ Sel) as [Ref Acc].
  rewrite cancelDeployment_run, Ref, Sel.
  destruct (terminal (Deployment.status x)); [reflexivity |].
  eexists. split; [reflexivity |].
  split; [| split; [| split; [| split; reflexivity]]].
  - unfold appended_log. cbn [db with_db].
    change (find_deployment
              (update_deployments (db s) id (DeploymentService.set_cancelled (clock s))) id
            = option_map (DeploymentService.set_cancelled (clock s))
                         (find_deployment (db s) id)).
    apply find_deployment_update, set_cancelled_preserves_id.
  - rewrite logs_of_appended_log by exact Acc. reflexivity.
  - unfold appended_log. cbn.
    repeat split.
    + apply Forall2_update, set_cancelled_preserves_id.
    + eexists. split; [reflexivity |]. constructor; [reflexivity | constructor].
Qed.

End Access.

Lemma getDeployment_returns_only_own_witness :
  let s := Fixture.sys Fixture.db_two in
  exists x p,
    In x (deployments (db s)) /\ Deployment.id x = Fixture.d2 /\
    In p (projects (db s)) /\ Project.id p = Deployment.project_id x /\
    Project.user_id p = Fixture.u1.
Proof.
  cbv zeta.
  destruct (getDeployment_returns_only_own Fixture.d2 Fixture.u1
              (Fixture.sys Fixture.db_two) (Fixture.sys Fixture.db_two)
              (row_of_deployment Fixture.new))
    as (_ & x & p & _ & H); [vm_compute; reflexivity |].
  exists x, p. exact H.
Defined.

Lemma foreign_deployment_is_not_found_witness :
  let s := Fixture.sys Fixture.db_two in
  run (DeploymentService.cancelDeployment (host := Fixture.host_ok) Fixture.d2 Fixture.u2) s
  = (inl (ApiError 404 "NOT_FOUND" "Deployment not found"), s).
Proof.
  cbv zeta.
  apply (foreign_deployment_is_not_found (host := Fixture.host_ok) Fixture.d2 Fixture.u2
           (Fixture.sys Fixture.db_two)).
  intros x p _ _ [<- | []] _. vm_compute. discriminate.
Defined.

Lemma cancelDeployment_is_refused_once_finished_witness :
  let s := Fixture.sys Fixture.db_two in
  run (DeploymentService.cancelDeployment (host := Fixture.host_ok) Fixture.d2 Fixture.u1) s
  = (inl (ApiError 400 "VALIDATION_ERROR" "Cannot cancel completed deployment"), s).
Proof.
  cbv zeta.
  apply (cancelDeployment_is_refused_once_finished (host := Fixture.host_ok) Fixture.d2 Fixture.u1
           (Fixture.sys Fixture.db_two) Fixture.new []).
  reflexivity.
Defined.

(* ===================================================================== *)
(** * executeWebhookDeployment *)
(* ===================================================================== *)

Section ExecuteWebhook.
Context {host : Host}.

Lemma filter_find_none {A : Type} (f : A -> bool) (l : list A) :
  find f l = None -> filter f l = [].
Proof.
  induction l as [| x l IH]; simpl; [reflexivity |].
  destruct (f x); [discriminate | exact IH].
Qed.

Lemma filter_nil_weaker {A : Type} (f g : A -> bool) (l : list A) :
  (forall x, g x = true -> f x = true) -> filter f l = [] -> filter g l = [].
Proof.
  intros H. induction l as [| x l IH]; simpl; [reflexivity |].
  destruct (f x) eqn:F; [discriminate |]. intros E.
  destruct (g x) eqn:G; [| exact (IH E)].
  apply H in G. congruence.
Qed.

Lemma executeWebhookDeployment_run (deploymentId : string) (s : Sys) :
  run (DeploymentService.executeWebhookDeployment deploymentId) s
  = (inr tt,
     match refused [deploymentId] with
     | Some _ => s
     | None =>
     match filter (fun x => same_uuid (Deployment.id x) deploymentId)
                  (deployments (db s)) with
     | [] => s
     | deployment :: _ =>
       match refused [Deployment.project_id deployment] with
       | Some _ => s
       | None =>
       match filter (fun p => same_uuid (Project.id p) (Deployment.project_id deployment))
                    (projects (db s)) with
       | [] => s
       | p :: _ =>
           mkSys (db s) (docker s) (clock s) (uuids s) (randoms s)
                 (spawned s ++ [PipelineTask (Deployment.id deployment)
                                  (Deployment.project_id deployment)
                                  (Deployment.environment_id deployment)
                                  (Project.user_id p)])
                 (trace s)
       end
       end
     end
     end).
Proof.
  unfold DeploymentService.executeWebhookDeployment.
  rewrite run_try_catch, run_bind, run_select.
  destruct (refused [deploymentId]); [reflexivity |].
  destruct (filter _ (deployments (db s))) as [| deployment rest]; [reflexivity |].
  rewrite run_bind, run_select.
  destruct (refused [Deployment.project_id deployment]); [reflexivity |].
  destruct (filter _ (projects (db s))) as [| p rest']; [reflexivity |].
  unfold DeploymentService.spawn. rewrite run_await. reflexivity.
Qed.

(** X15. [executeWebhookDeployment], which nothing calls, never rejects and
    changes no table.  Given the deployment a successful push webhook has
    just created, it queues exactly the pipeline of that deployment, for the
    pushed project, with a user who owns a project of that id; and that
    task, when run, brings the deployment to [success] or [failed]. *)
Theorem executeWebhookDeployment_starts_the_webhook_deployment
    (payload : PushPayload) (projectId : string) (s s1 : Sys) (r : PushResult.t) :
  run (WebhookService.handlePushWebhook payload projectId) s = (inr r, s1) ->
  PushResult.success r = true ->
  exists id env user s2 s3 d,
    PushResult.deploymentId r = Some id /\
    run (DeploymentService.executeWebhookDeployment id) s1 = (inr tt, s2) /\
    db s2 = db s1 /\
    spawned s2 = spawned s1 ++ [PipelineTask id (canonical projectId) env user] /\
    (exists p, In p (projects (db s)) /\ Project.id p = canonical projectId
               /\ Project.user_id p = user) /\
    run (program (PipelineTask id (canonical projectId) env user)) s2 = (inr tt, s3) /\
    find_deployment (db s3) id = Some d /\
    (Deployment.status d = success \/ Deployment.status d = failed).
Proof.
  intros Run Ok.
  destruct (handlePushWebhook_inserted payload projectId s s1 r Run Ok)
    as (env & message & stored & Hp & Live & _ & Free & Id & _ & S1).
  cbv zeta in S1.
  set (id := uuidv4 (uuids s)) in *.
  assert (Rows : exists row, deployments (db s1) = deployments (db s) ++ [row]
                             /\ Deployment.id row = id
                             /\ Deployment.project_id row = canonical projectId
                             /\ Deployment.environment_id row
                                = canonical (Environment.id env))
    by (rewrite S1; eexists; repeat split).
  destruct Rows as (row & Rows & Rid & Pid & Eid).
  assert (Ps : projects (db s1) = projects (db s)) by (rewrite S1; reflexivity).
  assert (Same : same_uuid id id = true).
  { unfold id. rewrite <- (canonical_uuidv4 (uuids s)) at 1.
    apply same_uuid_refl, uuidv4_accepted. }
  pose proof (executeWebhookDeployment_run id s1) as W.
  assert (Acc : uuid_in id = Some (v4 (rng (uuids s)))) by apply uuid_in_uuidv4.
  rewrite refused_one, Acc in W.
  rewrite Rows, filter_app, (filter_find_none _ _ Free) in W.
  cbn [app filter] in W. rewrite Rid, Same in W. rewrite Ps, Pid, Eid in W.
  rewrite refused_one, uuid_in_canonical in W.
  destruct (uuid_in projectId) as [bytes |] eqn:Up; [| contradiction].
  destruct (filter (fun p => same_uuid (Project.id p) (canonical projectId))
                   (projects (db s)))
    as [| p rest] eqn:P.
  { exfalso. apply Live. unfold live_projects.
    revert P. apply filter_nil_weaker. intros q Hq.
    apply andb_prop in Hq. rewrite same_uuid_canonical. apply Hq. }
  apply filter_In_head in P. destruct P as [Pin Pf].
  apply same_uuid_true in Pf. destruct Pf as [_ Pf]. rewrite canonical_canonical in Pf.
  rewrite Rid in W.
  set (s2 := mkSys (db s1) (docker s1) (clock s1) (uuids s1) (randoms s1)
                   (spawned s1 ++ [PipelineTask id (canonical projectId)
                                                (canonical (Environment.id env))
                                                (Project.user_id p)])
                   (trace s1)) in *.
  destruct (executeDeployment_outcome id (canonical projectId)
              (canonical (Environment.id env)) (Project.user_id p) s2)
    as (s3 & d & Run3 & F & St & _).
  { subst s2. cbn [db]. unfold find_deployment. rewrite Rows, find_append.
    destruct (find _ (deployments (db s))); [discriminate |].
    cbn [find]. rewrite Rid, Same. discriminate. }
  exists id, (canonical (Environment.id env)), (Project.user_id p), s2, s3, d.
  split; [exact Id |]. split; [exact W |].
  split; [reflexivity |]. split; [reflexivity |].
  split; [exists p; auto |].
  split; [cbn [program]; rewrite run_try_catch, Run3; reflexivity |].
  split; [exact F | exact St].
Qed.

End ExecuteWebhook.

Lemma executeWebhookDeployment_starts_the_webhook_deployment_witness :
  let s := Fixture.sys Fixture.db0 in
  let s1 := snd (run (WebhookService.handlePushWebhook (host := Fixture.host_ok)
                        Fixture.push1 Fixture.p1) s) in
  exists s2 env user,
    run (DeploymentService.executeWebhookDeployment Fixture.deployment0) s1 = (inr tt, s2) /\
    spawned s2 = spawned s1 ++ [PipelineTask Fixture.deployment0 Fixture.p1 env user].
Proof.
  cbv zeta.
  destruct (executeWebhookDeployment_starts_the_webhook_deployment
              (host := Fixture.host_ok) Fixture.push1 Fixture.p1 (Fixture.sys Fixture.db0)
              (snd (run (WebhookService.handlePushWebhook (host := Fixture.host_ok)
                           Fixture.push1 Fixture.p1) (Fixture.sys Fixture.db0)))
              (PushResult.mk true (Some Fixture.deployment0) "Deployment triggered for main branch"))
    as (id & env & user & s2 & s3 & d & Id & Run & _ & Q & _);
    [vm_compute; reflexivity | reflexivity |].
  injection Id as <-. exists s2, env, user. split; [exact Run | exact Q].
Defined.

(* ===================================================================== *)
(** * DockerService.runContainer on the daemon *)
(* ===================================================================== *)

Section RunContainer.
Context {host : Host}.

(** The block under [// Stop and remove existing container if it exists]:
    it settles, and no container is left under that name. *)
Lemma runContainer_cleanup (name : string) (s : Sys) :
  exists s1,
    run (try_catch
           (_ <- await (Dockerode.inspect name) ;;
            try_catch (await (Dockerode.stop name 5)) (fun _ => Ret tt) ;;
            await (Dockerode.remove name))
           (fun _ => Ret tt)) s = (inr tt, s1) /\
    docker s1 = Docker.delete (docker s) name /\
    db s1 = db s /\ spawned s1 = spawned s /\
    randoms s1 = randoms s /\ uuids s1 = uuids s.
Proof.
  cbn [run try_catch bind await].
  unfold Dockerode.inspect at 1. cbn [docker emit].
  destruct (Docker.lookup (docker s) name) as [c |] eqn:E.
  - cbn [run try_catch bind await].
    unfold Dockerode.stop at 1. cbn [docker emit]. rewrite E.
    destruct (Docker.Running c) eqn:R.
    + cbn [run try_catch bind await].
      unfold Dockerode.remove at 1. cbn [docker emit with_docker].
      rewrite (lookup_set_running _ _ false c E). cbn [Docker.Running].
      cbn [run try_catch bind await].
      eexists. split; [reflexivity |]. cbn.
      rewrite delete_set_running. auto.
    + cbn [run try_catch bind await].
      unfold Dockerode.remove at 1. cbn [docker emit]. rewrite E, R.
      cbn [run try_catch bind await].
      eexists. split; [reflexivity |]. cbn. auto.
  - cbn [run try_catch bind await].
    eexists. split; [reflexivity |]. cbn. rewrite delete_absent by exact E. auto.
Qed.

Lemma delete_names (d : Docker.t) (ref : string) (c : Docker.Container) :
  In c (Docker.containers (Docker.delete d ref)) ->
  In c (Docker.containers d) /\ Docker.name (Docker.Config c) <> ref /\ Docker.Id c <> ref.
Proof.
  unfold Docker.delete. cbn. rewrite filter_In. intros [Hin Hm].
  split; [exact Hin |]. unfold Docker.matches in Hm.
  apply negb_true_iff, orb_false_elim in Hm. destruct Hm as [H1 H2].
  apply String.eqb_neq in H1, H2. auto.
Qed.

Lemma name_free_after_delete (d : Docker.t) (ref : string) :
  existsb (fun c => (Docker.name (Docker.Config c) =? ref)%string)
          (Docker.containers (Docker.delete d ref)) = false.
Proof.
  destruct (existsb _ _) eqn:E; [| reflexivity].
  apply existsb_exists in E. destruct E as (c & Hin & Hn).
  apply delete_names in Hin. apply String.eqb_eq in Hn. tauto.
Qed.

Lemma drawn_port_range (s : Sys) : 8000 <= drawn_port s <= 8999.
Proof.
  unfold drawn_port.
  pose proof (Z.mod_pos_bound (random1000 (randoms s)) 1000 ltac:(lia)). lia.
Qed.

(** [runContainer] after its cleanup: create, then start. *)
Lemma runContainer_run (imageName projectId environmentId : string)
    (envVariables : list (string * string)) (framework : string) (s : Sys) :
  let o := DockerService.container_options imageName projectId environmentId
             envVariables framework (drawn_port s) in
  exists s1,
    docker s1 = Docker.delete (docker s) (containerName projectId environmentId) /\
    db s1 = db s /\ spawned s1 = spawned s /\
    run (DockerService.runContainer imageName projectId environmentId
           envVariables framework) s
    = match Dockerode.createContainer o s1 with
      | (inl e, s2) =>
          (inl (Error ("Failed to run Docker container: " ++ toString e)), s2)
      | (inr container, s2) =>
          match Dockerode.start container s2 with
          | (inl e, s3) =>
              (inl (Error ("Failed to run Docker container: " ++ toString e)), s3)
          | (inr _, s3) => (inr (container, drawn_port s), s3)
          end
      end.
Proof.
  cbv zeta. unfold DockerService.runContainer.
  rewrite run_try_catch, run_bind.
  unfold DockerService.allocatePort at 1. rewrite run_await. cbn beta iota.
  fold (drawn_port s). fold (containerName projectId environmentId).
  rewrite run_bind.
  destruct (runContainer_cleanup (containerName projectId environmentId)
              (mkSys (db s) (docker s) (clock s) (uuids s) (S (randoms s))
                     (spawned s) (trace s)))
    as (s1 & Run & D & B & Q & _).
  rewrite Run. exists s1. split; [exact D |]. split; [exact B |]. split; [exact Q |].
  rewrite run_bind, run_await.
  destruct (Dockerode.createContainer _ s1) as [[e | container] s2]; [reflexivity |].
  rewrite run_bind, run_await.
  destruct (Dockerode.start container s2) as [[e | []] s3]; reflexivity.
Qed.

(** X16. When [runContainer] returns, the host port is the one drawn, in
    8000..8999; the image was known to the daemon; the container it reports
    is in the daemon, running, created from the options of the call; every
    container that had the environment's name (or it as id) before is gone,
    so that the new one is the only container of that name; and no table
    and no queue was touched. *)
Theorem runContainer_replaces_the_container_of_the_environment
    (imageName projectId environmentId : string)
    (envVariables : list (string * string)) (framework : string)
    (s s' : Sys) (containerId : string) (port : Z) :
  run (DockerService.runContainer imageName projectId environmentId envVariables framework) s
  = (inr (containerId, port), s') ->
  let o := DockerService.container_options imageName projectId environmentId
             envVariables framework port in
  port = drawn_port s /\ 8000 <= port <= 8999 /\
  containerId = container_id (Docker.created (docker s)) /\
  In imageName (Docker.images (docker s)) /\
  In (Docker.mkContainer containerId o true) (Docker.containers (docker s')) /\
  (forall c, In c (Docker.containers (docker s')) ->
             Docker.name (Docker.Config c) = containerName projectId environmentId ->
             c = Docker.mkContainer containerId o true) /\
  db s' = db s /\ spawned s' = spawned s.
Proof.
  destruct (runContainer_run imageName projectId environmentId envVariables framework s)
    as (s1 & D & B & Q & Run).
  rewrite Run. clear Run. cbv zeta.
  set (o := DockerService.container_options imageName projectId environmentId
              envVariables framework (drawn_port s)).
  unfold Dockerode.createContainer. cbn [docker emit]. rewrite D.
  change (Docker.name o) with (containerName projectId environmentId).
  rewrite name_free_after_delete.
  change (Docker.Image o) with imageName.
  change (Docker.images (Docker.delete (docker s) (containerName projectId environmentId)))
    with (Docker.images (docker s)).
  destruct (existsb (fun i => (i =? imageName)%string) (Docker.images (docker s))) eqn:Img;
    [| cbn; discriminate].
  cbn [negb]. cbv zeta.
  change (Docker.created (Docker.delete (docker s) (containerName projectId environmentId)))
    with (Docker.created (docker s)).
  set (cid := container_id (Docker.created (docker s))).
  unfold Dockerode.start. cbn [docker emit with_docker].
  set (d2 := Docker.mk _ _ _).
  destruct (Docker.lookup d2 cid) as [c |]; [| cbn; discriminate].
  destruct (Docker.Running c); [cbn; discriminate |].
  destruct (Docker.port_in_use d2 _); [cbn; discriminate |].
  intros H. injection H as <- <- <-.
  split; [reflexivity |]. split; [apply drawn_port_range |]. split; [reflexivity |].
  split.
  { apply existsb_exists in Img. destruct Img as (i & Hin & Hi).
    apply String.eqb_eq in Hi. subst i. exact Hin. }
  cbn [docker with_docker db spawned Docker.set_running Docker.containers d2].
  split; [| split; [| auto]].
  - rewrite map_app. apply in_or_app. right. cbn.
    unfold Docker.matches. cbn. rewrite String.eqb_refl. cbn. left. reflexivity.
  - intros x Hx Hname. rewrite map_app in Hx. apply in_app_or in Hx.
    destruct Hx as [Hx | Hx].
    + exfalso. apply in_map_iff in Hx. destruct Hx as (y & Hy & Hin).
      apply delete_names in Hin. destruct Hin as (_ & Hn & _).
      destruct (Docker.matches cid y); subst x; cbn in Hname; contradiction.
    + cbn in Hx. unfold Docker.matches in Hx. cbn in Hx.
      rewrite String.eqb_refl in Hx. cbn in Hx. destruct Hx as [<- | []]. reflexivity.
Qed.

(** X17. The drawn port is not checked against the ports in use: when the
    image is known and some running container, other than the one being
    replaced, is bound to the drawn port, [runContainer] rejects with the
    daemon's error behind its own prefix, and the container it created for
    the call stays in the daemon, not running. *)
Theorem runContainer_fails_on_a_port_in_use
    (imageName projectId environmentId : string)
    (envVariables : list (string * string)) (framework : string) (s : Sys) :
  let name := containerName projectId environmentId in
  let cid := container_id (Docker.created (docker s)) in
  let o := DockerService.container_options imageName projectId environmentId
             envVariables framework (drawn_port s) in
  In imageName (Docker.images (docker s)) ->
  Docker.lookup (docker s) cid = None ->
  Docker.port_in_use (Docker.delete (docker s) name) (show (drawn_port s)) = true ->
  exists s',
    run (DockerService.runContainer imageName projectId environmentId
           envVariables framework) s
    = (inl (Error "Failed to run Docker container: Error: (HTTP code 500) server error - port is already allocated"),
       s') /\
    In (Docker.mkContainer cid o false) (Docker.containers (docker s')) /\
    db s' = db s.
Proof.
  cbv zeta. intros Img Fresh Taken.
  destruct (runContainer_run imageName projectId environmentId envVariables framework s)
    as (s1 & D & B & Q & Run).
  rewrite Run. clear Run. cbv zeta.
  set (o := DockerService.container_options imageName projectId environmentId
              envVariables framework (drawn_port s)) in *.
  unfold Dockerode.createContainer. cbn [docker emit]. rewrite D.
  change (Docker.name o) with (containerName projectId environmentId).
  rewrite name_free_after_delete.
  change (Docker.Image o) with imageName.
  change (Docker.images (Docker.delete (docker s) (containerName projectId environmentId)))
    with (Docker.images (docker s)).
  assert (I : existsb (fun i => (i =? imageName)%string) (Docker.images (docker s)) = true).
  { apply existsb_exists. exists imageName. split; [exact Img | apply String.eqb_refl]. }
  rewrite I. cbn [negb]. cbv zeta.
  change (Docker.created (Docker.delete (docker s) (containerName projectId environmentId)))
    with (Docker.created (docker s)).
  set (cid := container_id (Docker.created (docker s))) in *.
  unfold Dockerode.start. cbn [docker emit with_docker].
  set (d2 := Docker.mk _ _ _).
  assert (L : Docker.lookup d2 cid = Some (Docker.mkContainer cid o false)).
  { unfold Docker.lookup, d2. cbn [Docker.containers]. rewrite find_append.
    assert (N : find (Docker.matches cid)
                  (Docker.containers
                     (Docker.delete (docker s) (containerName projectId environmentId)))
                = None).
    { destruct (find _ _) as [c |] eqn:F; [| reflexivity]. exfalso.
      apply find_some in F. destruct F as [Hin Hm].
      apply delete_names in Hin. destruct Hin as (Hin & _).
      unfold Docker.lookup in Fresh.
      apply (find_none _ _ Fresh) in Hin. congruence. }
    rewrite N. cbn. unfold Docker.matches. cbn. rewrite String.eqb_refl. reflexivity. }
  rewrite L. cbn [Docker.Running Docker.Config].
  assert (P : Docker.port_in_use d2 (Docker.HostPort o) = true).
  { unfold Docker.port_in_use, d2. cbn [Docker.containers]. rewrite existsb_app.
    unfold Docker.port_in_use in Taken.
    change (Docker.HostPort o) with (show (drawn_port s)). rewrite Taken. reflexivity. }
  rewrite P. eexists. split; [reflexivity |].
  cbn [docker with_docker emit db d2 Docker.containers]. split; [| exact B].
  apply in_or_app. right. left. reflexivity.
Qed.

End RunContainer.

Lemma runContainer_replaces_the_container_of_the_environment_witness :
  let s := Fixture.sys_rebuilding in
  let out := run (DockerService.runContainer (host := Fixture.host_ok)
                    "gilgal-p1-aaaa" Fixture.p1 Fixture.e1 [] "express") s in
  exists cid port,
    fst out = inr (cid, port) /\ 8000 <= port <= 8999 /\
    forall c, In c (Docker.containers (docker (snd out))) ->
              Docker.name (Docker.Config c) = containerName Fixture.p1 Fixture.e1 ->
              Docker.Id c = cid.
Proof.
  cbv zeta. exists "container-1"%string, 8342.
  split; [vm_compute; reflexivity |].
  destruct (runContainer_replaces_the_container_of_the_environment
              (host := Fixture.host_ok) "gilgal-p1-aaaa" Fixture.p1 Fixture.e1 [] "express"
              Fixture.sys_rebuilding
              (snd (run (DockerService.runContainer (host := Fixture.host_ok)
                           "gilgal-p1-aaaa" Fixture.p1 Fixture.e1 [] "express") Fixture.sys_rebuilding))
              "container-1" 8342)
    as (_ & Range & _ & _ & _ & Only & _); [vm_compute; reflexivity |].
  split; [exact Range |]. intros c Hin Hname. rewrite (Only c Hin Hname). reflexivity.
Defined.

Lemma runContainer_fails_on_a_port_in_use_witness :
  let s := Fixture.created_port_taken in
  exists s',
    run (DockerService.runContainer (host := Fixture.host_ok)
           "gilgal-p9-bbbb" Fixture.p1 Fixture.e1 [] "node") s
    = (inl (Error "Failed to run Docker container: Error: (HTTP code 500) server error - port is already allocated"),
       s') /\
    db s' = db s.
Proof.
  cbv zeta.
  destruct (runContainer_fails_on_a_port_in_use (host := Fixture.host_ok)
              "gilgal-p9-bbbb" Fixture.p1 Fixture.e1 [] "node" Fixture.created_port_taken)
    as (s' & Run & _ & B).
  - vm_compute. left. reflexivity.
  - vm_compute. reflexivity.
  - vm_compute. reflexivity.
  - exists s'. split; [exact Run | exact B].
Defined.

(* ===================================================================== *)
(** * DockerService.buildImage *)
(* ===================================================================== *)

(** Walk an asynchronous function along its binds, handlers and branches,
    leaving the awaited effects to [leaf]. *)
Ltac walk_with leaf :=
  repeat match goal with
    | |- respects _ (Ret _) => exact I
    | |- respects _ (Throw _) => exact I
    | |- respects _ (bind _ _) => apply respects_bind; [| intros ?]
    | |- respects _ (try_catch _ _) => apply respects_try_catch; [| intros ?]
    | |- respects _ (match ?x with _ => _ end) => destruct x
    | |- respects _ _ => leaf
    end.

Lemma before_build_refl (s : Sys) : before_build s s.
Proof. repeat split. exists []. rewrite app_nil_r. reflexivity. Qed.

Lemma before_build_trans (a b c : Sys) :
  before_build a b -> before_build b c -> before_build a c.
Proof.
  intros (D1 & B1 & Q1 & e1 & T1) (D2 & B2 & Q2 & e2 & T2).
  repeat split; try congruence.
  exists (e1 ++ e2). rewrite T2, T1, app_assoc. reflexivity.
Qed.

Lemma detect_frameworks (dependencies devDependencies : list (string * Json)) :
  In (DockerService.detect dependencies devDependencies) frameworks.
Proof.
  unfold DockerService.detect, frameworks. cbv zeta.
  repeat match goal with
    | |- context [if ?b then _ else _] => destruct b
    end; simpl; auto.
Qed.

Section BuildImage.
Context {host : Host}.

Lemma before_build_exec (command : string) : respects before_build (exec command).
Proof.
  apply respects_await. intros s. cbn. repeat split. eexists. reflexivity.
Qed.

(** X18. When [buildImage] returns, the image is named
    [gilgal-<projectId>-<first 8 characters of a fresh uuid>] and its id is
    that name; the daemon holds it; the framework is one of [react], [next],
    [express], [node]; [docker build] with that name on the deployment's
    directory was the last external call, and it had succeeded; and no
    container, table or queue was touched. *)
Theorem buildImage_success (projectId deploymentId : string) (sourceUrl : option string)
    (s s' : Sys) (image : DockerService.Image) :
  run (DockerService.buildImage projectId deploymentId sourceUrl) s = (inr image, s') ->
  let name := ("gilgal-" ++ projectId ++ "-" ++ substring 0 8 (uuidv4 (uuids s)))%string in
  DockerService.imageName image = name /\
  DockerService.imageId image = name /\
  In (DockerService.framework image) frameworks /\
  Docker.images (docker s') = name :: Docker.images (docker s) /\
  Docker.containers (docker s') = Docker.containers (docker s) /\
  (exists out, execSync (build_command name deploymentId) = inr out) /\
  (exists events,
     trace s' = trace s ++ events ++ [EvExec (build_command name deploymentId)]) /\
  db s' = db s /\ spawned s' = spawned s.
Proof.
  unfold DockerService.buildImage. cbv zeta.
  rewrite run_bind. unfold new_uuid at 1. rewrite run_await. cbn beta iota.
  set (name := ("gilgal-" ++ projectId ++ "-" ++ substring 0 8 (uuidv4 (uuids s)))%string).
  set (s0 := mkSys (db s) (docker s) (clock s) (S (uuids s)) (randoms s)
                   (spawned s) (trace s)).
  rewrite run_try_catch, run_bind.
  match goal with
  | |- context [run ?m s0] =>
      pose proof (respects_run before_build before_build_refl before_build_trans m) as HA;
      destruct (run m s0) as [[e | []] sA] eqn:RA; [discriminate |]
  end.
  specialize (HA ltac:(walk_with ltac:(apply before_build_exec)) s0).
  rewrite RA in HA. cbn [snd] in HA.
  rewrite run_bind.
  match goal with
  | |- context [run ?m sA] =>
      assert (HF : exists framework, In framework frameworks
                                     /\ (run m sA = (inr framework, sA)
                                         \/ exists e, run m sA = (inl e, sA)))
  end.
  { destruct (package_json _) as [| e | dependencies devDependencies].
    - exists "node"%string. split; [unfold frameworks; simpl; auto | left; reflexivity].
    - exists "node"%string. split; [unfold frameworks; simpl; auto |].
      right. exists e. reflexivity.
    - exists (DockerService.detect dependencies devDependencies).
      split; [apply detect_frameworks |].
      left. reflexivity. }
  destruct HF as (framework & Fw & [RF | (e & RF)]); rewrite RF; [| discriminate].
  rewrite run_bind.
  match goal with
  | |- context [run ?m sA] =>
      pose proof (respects_run before_build before_build_refl before_build_trans m) as HC;
      destruct (run m sA) as [[e | []] sC] eqn:RC; [discriminate |]
  end.
  specialize (HC ltac:(walk_with ltac:(apply before_build_exec)) sA).
  rewrite RC in HC. cbn [snd] in HC.
  pose proof (before_build_trans _ _ _ HA HC) as (D & B & Q & events & T).
  rewrite run_bind, run_try_catch, run_bind, run_await.
  unfold Dockerode.build at 1. fold (build_command name deploymentId).
  destruct (execSync (build_command name deploymentId)) as [e | out] eqn:Build.
  { cbn beta iota zeta. rewrite run_bind.
    match goal with
    | |- context [run (try_catch ?m ?h) ?st] =>
        destruct (run (try_catch m h) st) as [[? | ?] ?]
    end; cbn; discriminate. }
  cbn. intros H. injection H as <- <-.
  cbn [DockerService.imageName DockerService.imageId DockerService.framework
       docker db spawned trace emit with_docker Docker.images Docker.containers].
  rewrite D, B, Q, T. cbn. repeat split; auto.
  - exists out. reflexivity.
  - exists events. rewrite <- app_assoc. reflexivity.
Qed.

End BuildImage.

Lemma buildImage_success_witness :
  let s := Fixture.sys Fixture.db0 in
  let out := run (DockerService.buildImage (host := Fixture.host_ok)
                    Fixture.p1 Fixture.deployment0 (Some "https://example.org/demo.git")) s in
  exists image,
    fst out = inr image /\
    DockerService.imageName image = "gilgal-c2d8e4a6-1b3f-4a5c-9e7d-0f2a4c6e8b10-00000000"%string /\
    Docker.images (docker (snd out)) = ["gilgal-c2d8e4a6-1b3f-4a5c-9e7d-0f2a4c6e8b10-00000000"%string].
Proof.
  cbv zeta. exists (DockerService.mkImage "gilgal-c2d8e4a6-1b3f-4a5c-9e7d-0f2a4c6e8b10-00000000" "gilgal-c2d8e4a6-1b3f-4a5c-9e7d-0f2a4c6e8b10-00000000" "express").
  split; [vm_compute; reflexivity |].
  destruct (buildImage_success (host := Fixture.host_ok)
              Fixture.p1 Fixture.deployment0 (Some "https://example.org/demo.git")
              (Fixture.sys Fixture.db0)
              (snd (run (DockerService.buildImage (host := Fixture.host_ok)
                           Fixture.p1 Fixture.deployment0 (Some "https://example.org/demo.git"))
                        (Fixture.sys Fixture.db0)))
              (DockerService.mkImage "gilgal-c2d8e4a6-1b3f-4a5c-9e7d-0f2a4c6e8b10-00000000" "gilgal-c2d8e4a6-1b3f-4a5c-9e7d-0f2a4c6e8b10-00000000" "express"))
    as (N & _ & _ & I & _); [vm_compute; reflexivity |].
  split; [exact N | exact I].
Defined.

(* ===================================================================== *)
(** * The route POST /webhooks/github/:projectId/generate-secret *)
(* ===================================================================== *)

Section SecretRoute.
Variable randomBytes : nat -> list Z.

(** X19. The route reads [req.user.id]; nothing on the webhook router sets
    [req.user], and a decoded token has [userId], not [id].  So for a
    request without a user, and for one whose user is a decoded token, the
    answer is 401 UNAUTHORIZED and nothing is read or changed. *)
Theorem generate_secret_refuses_every_token
    (projectId : string) (user : option Row) (s : Sys) :
  user = None \/ (exists payload, user = Some (JwtPayload.object payload)) ->
  run (SecretRoute.generate_secret randomBytes projectId user) s
  = (inr (Http.sendError 401 "UNAUTHORIZED" "Authentication required"), s).
Proof.
  intros [-> | (payload & ->)]; reflexivity.
Qed.

Lemma update_projects_other (d : Db) (id : string) (f : Project.t -> Project.t)
    (p : Project.t) :
  In p (projects d) -> Project.id p <> canonical id ->
  In p (projects (update_projects d id f)).
Proof.
  intros Hin Hne. unfold update_projects. cbn [projects]. apply in_map_iff. exists p.
  split; [| exact Hin].
  destruct (same_uuid (Project.id p) id) eqn:E; [| reflexivity].
  apply same_uuid_true in E. tauto.
Qed.

(** X20. When the route answers with a secret, the user object had an [id],
    a string, owning a live project of that id; the secret is the hex form
    of the 32 random bytes, 64 characters; it is stored on every project row
    of that id and is the secret the webhook route will read; projects of
    other ids and the other tables are as before.  Ids are compared as the
    database prints them. *)
Theorem generate_secret_stores_the_secret
    (projectId : string) (user : option Row) (s s' : Sys)
    (data : SecretRoute.Data) (message : string) (statusCode : Z) :
  List.length (randomBytes 32) = 32%nat ->
  run (SecretRoute.generate_secret randomBytes projectId user) s
  = (inr (Http.sendSuccess data message statusCode), s') ->
  (exists u owner p,
     user = Some u /\ prop u "id" = JsString owner /\
     In p (live_projects (db s) projectId) /\ Project.user_id p = canonical owner) /\
  SecretRoute.secret data = Sha256.hex (randomBytes 32) /\
  String.length (SecretRoute.secret data) = 64%nat /\
  SecretRoute.webhookUrl data
  = ("https://api.gilgal.tech/webhooks/github/" ++ projectId)%string /\
  (forall p, In p (projects (db s')) -> Project.id p = canonical projectId ->
             Project.webhook_secret p = Some (SecretRoute.secret data)) /\
  (forall p, In p (projects (db s)) -> Project.id p <> canonical projectId ->
             In p (projects (db s'))) /\
  map Project.id (projects (db s')) = map Project.id (projects (db s)) /\
  environments (db s') = environments (db s) /\
  deployments (db s') = deployments (db s) /\
  deployment_logs (db s') = deployment_logs (db s) /\
  spawned s' = spawned s.
Proof.
  intros Len. unfold SecretRoute.generate_secret. rewrite run_try_catch. cbv zeta.
  destruct (truthy (match user with Some u => prop u "id" | None => JsUndefined end))
    eqn:T; cbn [negb]; [| cbn; discriminate].
  destruct user as [u |]; [| discriminate T].
  destruct (prop u "id") as [| | owner | n | ms] eqn:Id.
  1, 2: discriminate T.
  2, 3: rewrite run_bind; unfold query at 1; rewrite run_await; cbn; discriminate.
  rewrite run_bind, run_select.
  destruct (refused [projectId; owner]) as [e |] eqn:Ref; [cbn; discriminate |].
  destruct (owned_projects (db s) projectId owner) as [| p rest] eqn:F;
    [cbn; discriminate |].
  pose proof (proj1 (refused_none _) Ref) as Acc.
  inversion Acc as [| ? ? Hp _]; subst.
  rewrite run_bind. unfold query at 1. rewrite run_await. cbn.
  intros H. injection H as <- _ _ <-. cbn.
  apply filter_In_head in F. destruct F as [Pin Pf].
  apply andb_prop in Pf. destruct Pf as [Pf Pdel]. apply andb_prop in Pf.
  destruct Pf as [Pid Pown].
  split; [| split; [reflexivity | split; [| split; [reflexivity | split; [| split]]]]].
  - exists u, owner, p. repeat split; auto.
    + unfold live_projects. apply filter_In. split; [exact Pin |].
      rewrite Pid, Pdel. reflexivity.
    + apply same_uuid_true in Pown. apply Pown.
  - unfold SecretRoute.generateSecret. rewrite hex_length, Len. reflexivity.
  - intros q Hq Hid. apply in_map_iff in Hq. destruct Hq as (q0 & Hq0 & _).
    destruct (same_uuid (Project.id q0) projectId) eqn:E.
    + subst q. reflexivity.
    + subst q. exfalso.
      assert (same_uuid (Project.id q0) projectId = true)
        by (apply same_uuid_true; split; [exact Hp | exact Hid]).
      congruence.
  - intros q Hq Hne. apply in_map_iff. exists q. split; [| exact Hq].
    destruct (same_uuid (Project.id q) projectId) eqn:E; [| reflexivity].
    apply same_uuid_true in E. tauto.
  - split; [| auto]. rewrite map_map. apply map_ext. intros q.
    destruct (same_uuid (Project.id q) projectId); reflexivity.
Qed.

End SecretRoute.

Lemma generate_secret_refuses_every_token_witness :
  let user := Some (JwtPayload.object (JwtPayload.mk Fixture.u1 "a@example.org" "a" 1 2)) in
  run (SecretRoute.generate_secret (fun n => repeat 171 n)
         Fixture.p1 user) (Fixture.sys Fixture.db0)
  = (inr (Http.sendError 401 "UNAUTHORIZED" "Authentication required"),
     Fixture.sys Fixture.db0).
Proof.
  cbv zeta.
  apply generate_secret_refuses_every_token.
  right. eexists. reflexivity.
Defined.

Lemma generate_secret_stores_the_secret_witness :
  let user := Some [("id", JsString Fixture.u1)]%string in
  let out := run (SecretRoute.generate_secret
                    (fun n => repeat 171 n) Fixture.p1 user) (Fixture.sys Fixture.db0) in
  List.length (repeat 171 32) = 32%nat /\
  forall p, In p (projects (db (snd out))) -> Project.id p = Fixture.p1 ->
            Project.webhook_secret p
            = Some "abababababababababababababababababababababababababababababababab"%string.
Proof.
  cbv zeta. split; [reflexivity |].
  destruct (generate_secret_stores_the_secret
              (fun n => repeat 171 n) Fixture.p1 (Some [("id", JsString Fixture.u1)]%string)
              (Fixture.sys Fixture.db0)
              (snd (run (SecretRoute.generate_secret
                           (fun n => repeat 171 n) Fixture.p1
                           (Some [("id", JsString Fixture.u1)]%string))
                        (Fixture.sys Fixture.db0)))
              (SecretRoute.mkData
                 "abababababababababababababababababababababababababababababababab"
                 ("https://api.gilgal.tech/webhooks/github/" ++ Fixture.p1)
                 ("Add this webhook to your GitHub repository: Settings > Webhooks > Add webhook"
                  ++ newline ++ "- Payload URL: https://api.gilgal.tech/webhooks/github/" ++ Fixture.p1
                  ++ newline ++ "- Content type: application/json"
                  ++ newline
                  ++ "- Secret: abababababababababababababababababababababababababababababababab"
                  ++ newline ++ "- Events: Push events"))
              "Webhook secret generated" 200)
    as (_ & _ & _ & _ & Stored & _); [reflexivity | vm_compute; reflexivity |].
  exact Stored.
Defined.

(* ===================================================================== *)
(** * The Authorization header *)
(* ===================================================================== *)

Lemma split_no_sep (s : string) : no_space s = true -> split " " s = [s].
Proof.
  induction s as [| c s IH]; simpl; [reflexivity |].
  intros H. apply andb_prop in H. destruct H as [Hc Hs].
  destruct (Ascii.eqb c " "); [discriminate |]. rewrite (IH Hs). reflexivity.
Qed.

Lemma split_nonempty (s : string) : split " " s <> [].
Proof.
  destruct s as [| c s]; simpl; [discriminate |].
  destruct (Ascii.eqb c " "); [discriminate |].
  destruct (split " " s); discriminate.
Qed.

Lemma split_append (a b : string) :
  no_space a = true -> split " " (a ++ String " " b) = a :: split " " b.
Proof.
  induction a as [| c a IH]; simpl; [reflexivity |].
  intros H. apply andb_prop in H. destruct H as [Hc Ha].
  destruct (Ascii.eqb c " "); [discriminate |]. rewrite (IH Ha). reflexivity.
Qed.

Lemma split_one (s b : string) : split " " s = [b] -> s = b /\ no_space b = true.
Proof.
  revert b. induction s as [| c s IH]; simpl; intros b H.
  - injection H as <-. auto.
  - destruct (Ascii.eqb c " ") eqn:E.
    + injection H as _ H. exfalso. exact (split_nonempty s H).
    + destruct (split " " s) as [| p ps] eqn:S; [exfalso; exact (split_nonempty s S) |].
      injection H as <- ->. destruct (IH p eq_refl) as [-> Hp].
      simpl. rewrite E. auto.
Qed.

(** A string splits in two exactly when it is two space-free parts joined
    by one space. *)
Lemma split_two (s a b : string) :
  split " " s = [a; b] <->
  s = (a ++ String " " b)%string /\ no_space a = true /\ no_space b = true.
Proof.
  split.
  - revert a b. induction s as [| c s IH]; simpl; intros a b H; [discriminate |].
    destruct (Ascii.eqb c " ") eqn:E.
    + apply Ascii.eqb_eq in E. subst c. injection H as <- H.
      apply split_one in H. destruct H as [-> Hb]. auto.
    + destruct (split " " s) as [| p ps] eqn:S; [discriminate |].
      injection H as <- ->. destruct (IH p b eq_refl) as (-> & Hp & Hb).
      simpl. rewrite E. auto.
  - intros (-> & Ha & Hb). rewrite (split_append a b Ha), (split_no_sep b Hb). reflexivity.
Qed.

Lemma extractTokenFromHeader_token (header : option string) (token : string) :
  Jwt.extractTokenFromHeader header = inr token ->
  header = Some ("Bearer " ++ token)%string /\ no_space token = true.
Proof.
  unfold Jwt.extractTokenFromHeader.
  destruct header as [[| c h] |]; try discriminate.
  destruct (split " " (String c h)) as [| scheme [| t [| x rest]]] eqn:S;
    try discriminate.
  apply split_two in S. destruct S as (S & _ & Ht).
  destruct (scheme =? "Bearer")%string eqn:E; [| discriminate].
  apply String.eqb_eq in E. subst scheme.
  intros H. injection H as <-. rewrite S. auto.
Qed.

Lemma extractTokenFromHeader_error (header : option string) (error : Exn) :
  Jwt.extractTokenFromHeader header = inl error ->
  exists errorCode message, error = ApiError 401 errorCode message.
Proof.
  unfold Jwt.extractTokenFromHeader. destruct header as [[| c h] |].
  - intros H. injection H as <-. eauto.
  - destruct (split " " (String c h)) as [| scheme [| t [| x rest]]];
      try (intros H; injection H as <-; eauto).
    destruct (scheme =? "Bearer")%string; [discriminate |].
    intros H; injection H as <-; eauto.
  - intros H. injection H as <-. eauto.
Qed.

(** X21. [extractTokenFromHeader] returns a token exactly for a header that
    is [Bearer], one space, and a token without a space (the empty token
    included); every other header, a missing one and one with two spaces
    included, is refused with a 401 [ApiError]. *)
Theorem extractTokenFromHeader_accepts_only_bearer (header : option string) :
  (forall token,
     Jwt.extractTokenFromHeader header = inr token <->
     header = Some ("Bearer " ++ token)%string /\ no_space token = true) /\
  (forall error,
     Jwt.extractTokenFromHeader header = inl error ->
     exists errorCode message, error = ApiError 401 errorCode message).
Proof.
  split; [| apply extractTokenFromHeader_error].
  intros token. split; [apply extractTokenFromHeader_token |].
  intros [-> Ht]. unfold Jwt.extractTokenFromHeader.
  assert (S : split " " ("Bearer" ++ String " " token) = ["Bearer"%string; token])
    by (apply split_two; auto).
  cbn [append] in S |- *. rewrite S. reflexivity.
Qed.

(* ===================================================================== *)
(** * DELETE /api/deployments/:id through the app *)
(* ===================================================================== *)

Section DeleteDeployment.
Context {host : Host}.
Variable jwt_verify : string -> Jwt.Verified.

Lemma authMiddleware_passed (authorization : option string) (user : JwtPayload.t) :
  Jwt.authMiddleware jwt_verify authorization = Jwt.passed user ->
  exists token, authorization = Some ("Bearer " ++ token)%string
                /\ jwt_verify token = Jwt.Decoded user.
Proof.
  unfold Jwt.authMiddleware.
  destruct (Jwt.extractTokenFromHeader authorization) as [e | token] eqn:X.
  - destruct e; discriminate.
  - apply extractTokenFromHeader_token in X.
    destruct X as [-> _]. unfold Jwt.verifyToken.
    destruct (jwt_verify token) as [payload | |] eqn:V; try discriminate.
    intros H. injection H as <-. exists token. auto.
Qed.

Lemma authMiddleware_answers_401 (authorization : option string)
    (statusCode : Z) (errorCode message : string) :
  Jwt.authMiddleware jwt_verify authorization = Jwt.answered statusCode errorCode message ->
  statusCode = 401.
Proof.
  unfold Jwt.authMiddleware.
  destruct (Jwt.extractTokenFromHeader authorization) as [e | token] eqn:X.
  - apply extractTokenFromHeader_error in X.
    destruct X as (c & m & ->). intros H. injection H as <- _ _. reflexivity.
  - unfold Jwt.verifyToken. destruct (jwt_verify token); try discriminate;
      intros H; injection H as <- _ _; reflexivity.
Qed.

Lemma authMiddleware_never_fails (authorization : option string) (error : Exn) :
  Jwt.authMiddleware jwt_verify authorization <> Jwt.failed_with error.
Proof.
  unfold Jwt.authMiddleware.
  destruct (Jwt.extractTokenFromHeader authorization) as [e | token] eqn:X.
  - apply extractTokenFromHeader_error in X.
    destruct X as (c & m & ->). discriminate.
  - unfold Jwt.verifyToken. destruct (jwt_verify token); discriminate.
Qed.

(** X22. A DELETE of a deployment, from the content type middleware through
    [authMiddleware] and the route to [errorHandler], is always answered.
    A success is a 200 and means that the request carried a Bearer token
    that verified, for a user owning the project of the deployment, which
    was [pending] or [building]; every error is a 400, 401, 404 or 500 and
    leaves the system as it was.  The 500 is INTERNAL_SERVER_ERROR and is
    the answer exactly when the request passed the content type middleware
    and [authMiddleware] and the database refuses the deployment id, or the
    user id of the token, as the text of a uuid.  A request without body and
    without content type is refused with 400 whatever its token. *)
Theorem DELETE_deployment_answers (h : App.Headers) (id : string) (s : Sys) :
  exists reply s',
    run (App.DELETE_deployment jwt_verify h id) s = (inr reply, s') /\
    match reply with
    | Http.sendSuccess _ message statusCode =>
        statusCode = 200 /\ message = "Deployment cancelled"%string /\
        exists token user x rest,
          App.authorization h = Some ("Bearer " ++ token)%string /\
          jwt_verify token = Jwt.Decoded user /\
          DeploymentService.select_deployment (db s) id (JwtPayload.userId user)
          = x :: rest /\
          terminal (Deployment.status x) = false
    | Http.sendError statusCode errorCode message =>
        s' = s /\
        (statusCode = 400 \/ statusCode = 401 \/ statusCode = 404 \/
         (statusCode = 500 /\ errorCode = "INTERNAL_SERVER_ERROR"%string /\
          message = "An unexpected error occurred"%string)) /\
        (statusCode = 500 <->
         App.validate_content_type (D := unit) h = None /\
         exists user,
           Jwt.authMiddleware jwt_verify (App.authorization h) = Jwt.passed user /\
           refused [id; JwtPayload.userId user] <> None)
    | Http.next _ => False
    end /\
    (App.is_json h = false -> App.body_keys h = 0%nat -> App.content_type h = None ->
     reply = Http.sendError 400 "INVALID_CONTENT_TYPE"
               "Content-Type: application/json header is required for this request").
Proof.
  unfold App.DELETE_deployment.
  destruct (App.validate_content_type h) as [answer |] eqn:V.
  { unfold App.validate_content_type in V.
    destruct (negb (App.is_json h) && (App.body_keys h =? 0)%nat); [| discriminate].
    match type of V with
    | (if ?b then _ else _) = _ => destruct b; [| discriminate]
    end.
    injection V as <-. eexists _, _. split; [reflexivity |]. split; [| auto].
    split; [reflexivity |]. split; [auto |].
    split; [discriminate | intros [? _]; discriminate]. }
  assert (Gate : App.is_json h = false -> App.body_keys h = 0%nat ->
                 App.content_type h = None -> False).
  { intros J K C. unfold App.validate_content_type in V. rewrite J, K, C in V.
    discriminate V. }
  destruct (Jwt.authMiddleware jwt_verify (App.authorization h))
    as [user | statusCode errorCode message | error] eqn:A.
  - pose proof (authMiddleware_passed _ _ A) as (token & Hh & Hv).
    rewrite run_bind. unfold DeploymentRoutes.delete_deployment.
    rewrite run_try_catch, run_bind, cancelDeployment_run.
    destruct (refused [id; JwtPayload.userId user]) as [e |] eqn:Ref.
    { destruct (refused_is_database_error _ _ Ref) as (q & _ & _ & Eq).
      rewrite Eq.
      eexists _, _. split; [reflexivity |]. cbn. split; [| tauto].
      split; [reflexivity |]. split; [auto 6 |].
      split; [intros _; split; [reflexivity |]; exists user; split;
                [reflexivity | rewrite Ref; discriminate]
             | reflexivity]. }
    assert (Never : forall code : Z, code <> 500 ->
              (code = 500 <->
               @None (Http.Reply unit) = None /\
               exists user0 : JwtPayload.t,
                 Jwt.passed user = Jwt.passed user0 /\
                 refused [id; JwtPayload.userId user0] <> None)).
    { intros code Ne. split; [contradiction |].
      intros (_ & user0 & E & R). injection E as E. subst user0. congruence. }
    destruct (DeploymentService.select_deployment (db s) id (JwtPayload.userId user))
      as [| x rest] eqn:Sel.
    { eexists _, _. split; [reflexivity |]. cbn. split; [| tauto].
      split; [reflexivity |]. split; [auto |]. apply Never. discriminate. }
    destruct (terminal (Deployment.status x)) eqn:T.
    { eexists _, _. split; [reflexivity |]. cbn. split; [| tauto].
      split; [reflexivity |]. split; [auto |]. apply Never. discriminate. }
    eexists _, _. split; [reflexivity |]. cbn. split; [| tauto].
    split; [reflexivity |]. split; [reflexivity |].
    exists token, user, x, rest. auto.
  - pose proof (authMiddleware_answers_401 _ _ _ _ A) as ->.
    eexists _, _. split; [reflexivity |]. cbn. split; [| tauto].
    split; [reflexivity |]. split; [auto |].
    split; [discriminate | intros (_ & user & E & _); discriminate E].
  - exfalso. exact (authMiddleware_never_fails _ _ A).
Qed.

End DeleteDeployment.

(* ===================================================================== *)
(** * Ordered rows, pages and slices *)
(* ===================================================================== *)

Lemma insert_by_perm {A : Type} (key : A -> Z) (x : A) (l : list A) :
  Permutation (insert_by key x l) (x :: l).
Proof.
  induction l as [| y l IH]; simpl; [reflexivity |].
  destruct (key x <=? key y); [reflexivity |].
  rewrite IH. apply perm_swap.
Qed.

Lemma order_by_perm {A : Type} (key : A -> Z) (l : list A) :
  Permutation (order_by key l) l.
Proof.
  induction l as [| x l IH]; simpl; [reflexivity |].
  rewrite insert_by_perm, IH. reflexivity.
Qed.

Lemma insert_by_sorted {A : Type} (key : A -> Z) (x : A) (l : list A) :
  StronglySorted (fun a b => key a <= key b) l ->
  StronglySorted (fun a b => key a <= key b) (insert_by key x l).
Proof.
  induction 1 as [| y l Hl IH Hy]; simpl.
  - constructor; constructor.
  - destruct (key x <=? key y) eqn:E.
    + apply Z.leb_le in E. constructor; [constructor; assumption |].
      constructor; [exact E |].
      eapply Forall_impl; [| exact Hy]. cbv beta. intros; lia.
    + apply Z.leb_gt in E. constructor; [exact IH |].
      eapply Permutation_Forall; [symmetry; apply insert_by_perm |].
      constructor; [lia | exact Hy].
Qed.

Lemma order_by_sorted {A : Type} (key : A -> Z) (l : list A) :
  StronglySorted (fun a b => key a <= key b) (order_by key l).
Proof.
  induction l as [| x l IH]; simpl; [constructor | apply insert_by_sorted, IH].
Qed.


Lemma firstn_all_of {A : Type} (n : nat) (l : list A) :
  (List.length l <= n)%nat -> firstn n l = l.
Proof.
  revert n. induction l as [| x l IH]; intros [| n] H; simpl in *;
    try reflexivity; try lia.
  f_equal. apply IH. lia.
Qed.

Lemma skipn_none_left {A : Type} (n : nat) (l : list A) :
  (List.length l <= n)%nat -> skipn n l = [].
Proof.
  revert n. induction l as [| x l IH]; intros [| n] H; simpl in *;
    try reflexivity; try lia.
  apply IH. lia.
Qed.

(** [slice] with both indices non-negative is a page: [stop - start]
    elements from [start] on. *)
Lemma slice_page {A : Type} (l : list A) (start count : Z) :
  0 <= start -> 0 <= count ->
  slice l start (start + count) = firstn (Z.to_nat count) (skipn (Z.to_nat start) l).
Proof.
  intros Hs Hc. unfold slice. cbv zeta.
  destruct (start <? 0) eqn:E1; [apply Z.ltb_lt in E1; lia |].
  destruct (start + count <? 0) eqn:E2; [apply Z.ltb_lt in E2; lia |].
  set (len := Z.of_nat (List.length l)).
  destruct (Z.le_gt_cases len start) as [Far | Near].
  - rewrite (skipn_none_left (Z.to_nat start)) by lia.
    rewrite (skipn_none_left (Z.to_nat (Z.min start len))) by lia.
    rewrite !firstn_nil. reflexivity.
  - rewrite (Z.min_l start len) by lia.
    destruct (Z.le_gt_cases (start + count) len) as [In | Out].
    + rewrite (Z.min_l (start + count) len) by lia. f_equal. lia.
    + rewrite (Z.min_r (start + count) len) by lia.
      rewrite !firstn_all_of; [reflexivity | |]; rewrite length_skipn; lia.
Qed.

(** With a negative [stop], [slice] from 0 drops that many elements from
    the end and keeps all the others. *)
Lemma slice_negative_stop {A : Type} (l : list A) (stop : Z) :
  stop < 0 ->
  slice l 0 stop = firstn (Z.to_nat (Z.of_nat (List.length l) + stop)) l.
Proof.
  intros H. unfold slice. cbv zeta. cbn [Z.ltb Z.compare].
  destruct (stop <? 0) eqn:E; [| apply Z.ltb_ge in E; lia].
  rewrite Z.min_l by lia. cbn [Z.to_nat skipn]. f_equal. lia.
Qed.

(* ===================================================================== *)
(** * The logs of a deployment: getDeploymentLogs and the logs route *)
(* ===================================================================== *)

Lemma getDeploymentLogs_run (id user : string) (s : Sys) :
  run (DeploymentQueries.getDeploymentLogs id user) s
  = match refused [id; user] with
    | Some e => (inl e, s)
    | None =>
      match DeploymentService.select_deployment (db s) id user with
      | [] => (inl (ApiError 404 "NOT_FOUND" "Deployment not found"), s)
      | _ :: _ => (inr (order_by DeploymentLog.timestamp (logs_of (db s) id)), s)
      end
    end.
Proof.
  unfold DeploymentQueries.getDeploymentLogs. rewrite run_bind, run_select.
  destruct (refused [id; user]) as [e |] eqn:Ref; [reflexivity |].
  destruct (DeploymentService.select_deployment (db s) id user); [reflexivity |].
  rewrite run_select.
  apply refused_none in Ref. inversion Ref as [| ? ? Hid _]; subst.
  rewrite refused_one. destruct (uuid_in id); [reflexivity | contradiction].
Qed.

(** X23. [getDeploymentLogs] changes nothing.  For a deployment whose
    project is the user's it returns the log entries of that deployment,
    all of them and no other, in ascending order of their timestamp.
    Otherwise it rejects: with the database's error, which is no
    [ApiError], for the first of the deployment id and the user id that is
    not the text of a uuid, and with 404 NOT_FOUND when both are and the
    user owns no such deployment. *)
Theorem getDeploymentLogs_returns_the_logs_in_order (id user : string) (s : Sys) :
  match run (DeploymentQueries.getDeploymentLogs id user) s with
  | (inr logs, s') =>
      s' = s /\
      DeploymentService.select_deployment (db s) id user <> [] /\
      Permutation logs (logs_of (db s) id) /\
      StronglySorted (fun a b => DeploymentLog.timestamp a <= DeploymentLog.timestamp b)
                     logs /\
      Forall (fun log => DeploymentLog.deployment_id log = canonical id) logs
  | (inl error, s') =>
      s' = s /\
      DeploymentService.select_deployment (db s) id user = [] /\
      match refused [id; user] with
      | Some e =>
          error = e /\ instanceof_ApiError error = false /\
          exists text, In text [id; user] /\ uuid_in text = None /\
                       error = invalid_uuid text
      | None => error = ApiError 404 "NOT_FOUND" "Deployment not found"
      end
  end.
Proof.
  rewrite getDeploymentLogs_run.
  destruct (refused [id; user]) as [e |] eqn:Ref.
  { split; [reflexivity |]. split.
    - destruct (DeploymentService.select_deployment (db s) id user) as [| x rest] eqn:Sel;
        [reflexivity |].
      destruct (select_deployment_accepted _ _ _ _ _ Sel). congruence.
    - destruct (refused_is_database_error _ _ Ref) as (text & I & U & ->).
      split; [reflexivity |]. split; [reflexivity |]. exists text. auto. }
  destruct (DeploymentService.select_deployment (db s) id user) as [| x rest]; [auto |].
  split; [reflexivity |]. split; [discriminate |].
  split; [apply order_by_perm |]. split; [apply order_by_sorted |].
  eapply Permutation_Forall; [symmetry; apply order_by_perm |].
  unfold logs_of. apply Forall_forall. intros log Hin.
  apply filter_In in Hin. destruct Hin as [_ H]. apply same_uuid_true in H. apply H.
Qed.

(** X24. When the logs route answers with a page, nothing was changed and
    [total] counts the entries of the deployment with the level asked for.
    With a limit and an offset that are not negative, the page is the
    [limit] entries from [offset] on, [limit] being the parameter (100 when
    it is missing, not a number or 0) cut at 500.  A negative limit is not
    refused: with offset 0 the page is every entry but the last [-limit],
    however many they are. *)
Theorem logs_page (user : JwtPayload.t) (id : string) (q : DeploymentRoutes.LogsQuery)
    (s s' : Sys) (page : DeploymentRoutes.LogsPage) (message : string) (statusCode : Z) :
  run (DeploymentRoutes.get_logs (Some user) id q) s
  = (inr (Http.sendSuccess page message statusCode), s') ->
  let wanted := wanted_logs (db s) id (DeploymentRoutes.level q) in
  let limit := DeploymentRoutes.page_limit page in
  let offset := DeploymentRoutes.page_offset page in
  s' = s /\
  DeploymentRoutes.total page = Z.of_nat (List.length wanted) /\
  limit = Z.min (number_or (DeploymentRoutes.limit q) 100) 500 /\
  offset = number_or (DeploymentRoutes.offset q) 0 /\
  (0 <= limit -> 0 <= offset ->
   DeploymentRoutes.items page
   = firstn (Z.to_nat limit) (skipn (Z.to_nat offset) wanted) /\
   (List.length (DeploymentRoutes.items page) <= 500)%nat) /\
  (limit < 0 -> offset = 0 ->
   DeploymentRoutes.items page
   = firstn (Z.to_nat (Z.of_nat (List.length wanted) + limit)) wanted).
Proof.
  unfold DeploymentRoutes.get_logs. rewrite run_try_catch. cbv zeta.
  rewrite run_bind, getDeploymentLogs_run.
  destruct (refused [id; JwtPayload.userId user]); [cbn; discriminate |].
  destruct (DeploymentService.select_deployment (db s) id (JwtPayload.userId user))
    as [| x rest]; [cbn; discriminate |].
  cbn [run]. intros H. injection H as <- _ _ <-.
  cbn [DeploymentRoutes.total DeploymentRoutes.page_limit DeploymentRoutes.page_offset
       DeploymentRoutes.items].
  unfold wanted_logs. cbv zeta.
  set (wanted := match or_null (DeploymentRoutes.level q) with
                 | Some l => _
                 | None => _
                 end).
  split; [reflexivity |]. split; [reflexivity |]. split; [reflexivity |].
  split; [reflexivity |]. split.
  - intros Hl Ho. rewrite slice_page by assumption.
    split; [reflexivity |].
    etransitivity; [apply firstn_le_length |].
    pose proof (Z.le_min_r (number_or (DeploymentRoutes.limit q) 100) 500). lia.
  - intros Hl Ho. rewrite Ho. cbn [Z.add]. apply slice_negative_stop. exact Hl.
Qed.

Lemma logs_page_witness :
  let log1 := DeploymentLog.mk "4b1d0000-0000-4000-8000-000000000001" Fixture.d1 "info" "first" 10 in
  let log2 := DeploymentLog.mk "4b1d0000-0000-4000-8000-000000000002" Fixture.d1 "error" "second" 20 in
  let log3 := DeploymentLog.mk "4b1d0000-0000-4000-8000-000000000003" Fixture.d1 "info" "third" 30 in
  let s := Fixture.sys (mkDb [Fixture.project1] [Fixture.env1] [Fixture.old]
                             [log3; log1; log2]) in
  let user := JwtPayload.mk Fixture.u1 "a@example.org" "a" 1 2 in
  let q := DeploymentRoutes.mkLogsQuery None (Some (-1)) None in
  let page := DeploymentRoutes.mkLogsPage [log1; log2] 3 (-1) 0 ["info"; "error"]%string in
  run (DeploymentRoutes.get_logs (Some user) Fixture.d1 q) s
  = (inr (Http.sendSuccess page "Success" 200), s) /\
  DeploymentRoutes.items page = firstn 2 [log1; log2; log3].
Proof.
  cbv zeta. split; [vm_compute; reflexivity |].
  destruct (logs_page
              (JwtPayload.mk Fixture.u1 "a@example.org" "a" 1 2) Fixture.d1
              (DeploymentRoutes.mkLogsQuery None (Some (-1)) None)
              (Fixture.sys (mkDb [Fixture.project1] [Fixture.env1] [Fixture.old]
                                 [DeploymentLog.mk "4b1d0000-0000-4000-8000-000000000003" Fixture.d1 "info" "third" 30;
                                  DeploymentLog.mk "4b1d0000-0000-4000-8000-000000000001" Fixture.d1 "info" "first" 10;
                                  DeploymentLog.mk "4b1d0000-0000-4000-8000-000000000002" Fixture.d1 "error" "second" 20]))
              (Fixture.sys (mkDb [Fixture.project1] [Fixture.env1] [Fixture.old]
                                 [DeploymentLog.mk "4b1d0000-0000-4000-8000-000000000003" Fixture.d1 "info" "third" 30;
                                  DeploymentLog.mk "4b1d0000-0000-4000-8000-000000000001" Fixture.d1 "info" "first" 10;
                                  DeploymentLog.mk "4b1d0000-0000-4000-8000-000000000002" Fixture.d1 "error" "second" 20]))
              (DeploymentRoutes.mkLogsPage
                 [DeploymentLog.mk "4b1d0000-0000-4000-8000-000000000001" Fixture.d1 "info" "first" 10;
                  DeploymentLog.mk "4b1d0000-0000-4000-8000-000000000002" Fixture.d1 "error" "second" 20]
                 3 (-1) 0 ["info"; "error"]%string)
              "Success" 200)
    as (_ & _ & _ & _ & _ & Negative); [vm_compute; reflexivity |].
  rewrite Negative; [vm_compute; reflexivity | reflexivity | reflexivity].
Defined.

(* ===================================================================== *)
(** * The deployments of a project: getProjectDeployments and the list
      route *)
(* ===================================================================== *)




(* ===================================================================== *)
(** * EnvironmentService: getEnvironment and deleteEnvironment *)
(* ===================================================================== *)

Section Environments.
Context {host : Host}.

Lemma getEnvironment_run (environmentId userId : string) (s : Sys) :
  run (EnvironmentService.getEnvironment environmentId userId) s
  = match refused [environmentId; userId] with
    | Some e => (inl e, s)
    | None =>
      match EnvironmentService.select_environment (db s) environmentId userId with
      | [] => (inl (ApiError 404 "NOT_FOUND" "Environment not found"), s)
      | e :: _ => (inr e, s)
      end
    end.
Proof.
  unfold EnvironmentService.getEnvironment. rewrite run_bind, run_select.
  destruct (refused [environmentId; userId]); [reflexivity |].
  destruct (EnvironmentService.select_environment (db s) environmentId userId);
    reflexivity.
Qed.

Lemma select_environment_accepted (d : Db) (environmentId userId : string)
    (e : Environment.t) (rest : list Environment.t) :
  EnvironmentService.select_environment d environmentId userId = e :: rest ->
  uuid_in environmentId <> None /\ uuid_in userId <> None.
Proof.
  intros Sel. apply filter_In_head in Sel. destruct Sel as [_ Hf].
  apply andb_prop in Hf. destruct Hf as [Hf _]. apply andb_prop in Hf.
  destruct Hf as [Hid Hp]. apply same_uuid_true in Hid.
  apply existsb_exists in Hp. destruct Hp as (p & _ & Hp).
  apply andb_prop in Hp. destruct Hp as [_ Hu]. apply same_uuid_true in Hu. tauto.
Qed.

Lemma deleted_environments (d : Db) (environmentId : string) (now : Z) (e : Environment.t) :
  In e (environments (update_environments d environmentId
                        (EnvironmentService.set_deleted now))) ->
  same_uuid (Environment.id e) environmentId = true ->
  Environment.deleted_at e = Some now.
Proof.
  unfold update_environments. cbn [environments]. intros Hin Hid.
  apply in_map_iff in Hin. destruct Hin as (e0 & He & _).
  destruct (same_uuid (Environment.id e0) environmentId) eqn:E.
  - subst e. reflexivity.
  - subst e. congruence.
Qed.

Lemma deleteEnvironment_run (environmentId userId : string) (s : Sys) :
  run (EnvironmentService.deleteEnvironment environmentId userId) s
  = match refused [environmentId; userId] with
    | Some e => (inl e, s)
    | None =>
      match EnvironmentService.select_environment (db s) environmentId userId with
      | [] => (inl (ApiError 404 "NOT_FOUND" "Environment not found"), s)
      | _ :: _ =>
          (inr tt, with_db s (update_environments (db s) environmentId
                                (EnvironmentService.set_deleted (clock s))))
      end
    end.
Proof.
  unfold EnvironmentService.deleteEnvironment. rewrite run_bind, getEnvironment_run.
  destruct (refused [environmentId; userId]); [reflexivity |].
  destruct (EnvironmentService.select_environment (db s) environmentId userId)
    as [| e rest] eqn:Sel; [reflexivity |].
  destruct (select_environment_accepted _ _ _ _ _ Sel) as [Acc _].
  rewrite run_bind. unfold query at 1. rewrite run_await. cbn beta iota.
  rewrite refused_one. destruct (uuid_in environmentId) as [bytes |]; [| contradiction].
  apply filter_In_head in Sel. destruct Sel as [Hin Hf].
  apply andb_prop in Hf. destruct Hf as [Hf _]. apply andb_prop in Hf.
  destruct Hf as [Hid _].
  destruct (filter (fun e0 => same_uuid (Environment.id e0) environmentId)
                   (environments (db s))) as [| e0 l] eqn:F.
  - exfalso. assert (H : In e (filter (fun e0 => same_uuid (Environment.id e0) environmentId)
                                      (environments (db s))))
      by (apply filter_In; auto).
    rewrite F in H. exact H.
  - reflexivity.
Qed.

(** X26. [deleteEnvironment] on a live environment of one of the user's
    projects settles, and from then on the environment is gone for the
    service and for deployments: [getEnvironment] and a second
    [deleteEnvironment] reject, with 404 for a user id that is the text of a
    uuid and with the database's error for one that is not;
    [createDeployment] into it rejects whatever the project and the user,
    and a push webhook never takes it as its target.  The deployments made
    into it, and every other environment, stay as they are.  Ids are
    compared as the database prints them. *)
Theorem deleteEnvironment_hides_the_environment
    (id userId : string) (s : Sys) :
  EnvironmentService.select_environment (db s) id userId <> [] ->
  exists s',
    run (EnvironmentService.deleteEnvironment id userId) s = (inr tt, s') /\
    (forall user,
       let gone :=
         match refused [user] with
         | Some e => e
         | None => ApiError 404 "NOT_FOUND" "Environment not found"
         end in
       run (EnvironmentService.getEnvironment id user) s' = (inl gone, s') /\
       run (EnvironmentService.deleteEnvironment id user) s' = (inl gone, s')) /\
    (forall projectId user data,
       id = environmentId data ->
       exists error s'',
         run (DeploymentService.createDeployment projectId user data) s' = (inl error, s'')
         /\ db s'' = db s') /\
    (forall projectId e, In e (live_environments (db s') projectId) ->
                         Environment.id e <> canonical id) /\
    (forall e, In e (environments (db s)) -> Environment.id e <> canonical id ->
               In e (environments (db s'))) /\
    deployments (db s') = deployments (db s) /\
    projects (db s') = projects (db s).
Proof.
  intros Live. rewrite deleteEnvironment_run.
  destruct (EnvironmentService.select_environment (db s) id userId)
    as [| e0 rest] eqn:Sel; [contradiction |].
  destruct (select_environment_accepted _ _ _ _ _ Sel) as [Acc AccU].
  assert (Ref : refused [id; userId] = None)
    by (apply refused_none; repeat constructor; assumption).
  rewrite Ref.
  eexists. split; [reflexivity |].
  set (d' := update_environments (db s) id
               (EnvironmentService.set_deleted (clock s))).
  assert (Same : forall e, Environment.id e = canonical id ->
                           same_uuid (Environment.id e) id = true)
    by (intros e H; apply same_uuid_true; auto).
  assert (Gone : forall user, EnvironmentService.select_environment d' id user = []).
  { intros user. unfold EnvironmentService.select_environment.
    destruct (filter _ (environments d')) as [| e l] eqn:F; [reflexivity | exfalso].
    apply filter_In_head in F. destruct F as [Hin Hf].
    apply andb_prop in Hf. destruct Hf as [Hf Hdel]. apply andb_prop in Hf.
    destruct Hf as [Hid _]. unfold live in Hdel.
    rewrite (deleted_environments _ _ _ _ Hin Hid) in Hdel. discriminate. }
  assert (Two : forall user,
            refused [id; user]
            = refused [user]).
  { intros user. rewrite refused_cons. destruct (uuid_in id); [reflexivity | contradiction]. }
  cbn [db with_db]. repeat split.
  - rewrite getEnvironment_run, Two. cbn [db with_db]. rewrite Gone.
    destruct (refused [user]); reflexivity.
  - rewrite deleteEnvironment_run, Two. cbn [db with_db]. rewrite Gone.
    destruct (refused [user]); reflexivity.
  - intros projectId user data ->. rewrite createDeployment_run. cbn [db with_db].
    destruct (refused [projectId; user]); [eexists _, _; split; reflexivity |].
    destruct (owned_projects d' projectId user) as [| p0 ps];
      [eexists _, _; split; reflexivity |].
    destruct (refused [environmentId data; projectId]);
      [eexists _, _; split; reflexivity |].
    assert (E : project_environments d' (environmentId data)
                                     projectId = []).
    { unfold project_environments.
      destruct (filter _ (environments d')) as [| e1 es] eqn:F; [reflexivity | exfalso].
      apply filter_In_head in F. destruct F as [Hin Hf].
      apply andb_prop in Hf. destruct Hf as [Hf Hdel]. apply andb_prop in Hf.
      destruct Hf as [Hid _]. unfold live in Hdel.
      rewrite (deleted_environments _ _ _ _ Hin Hid) in Hdel. discriminate. }
    rewrite E. eexists _, _. split; reflexivity.
  - intros projectId e Hin Hid. unfold live_environments in Hin.
    apply filter_In in Hin. destruct Hin as [Hin Hf].
    apply andb_prop in Hf. destruct Hf as [_ Hdel]. unfold live in Hdel.
    rewrite (deleted_environments _ _ _ _ Hin (Same _ Hid)) in Hdel. discriminate.
  - intros e Hin Hne. unfold d', update_environments. cbn [environments].
    apply in_map_iff. exists e. split; [| exact Hin].
    destruct (same_uuid (Environment.id e) id) eqn:E; [| reflexivity].
    apply same_uuid_true in E. tauto.
Qed.

End Environments.

Lemma deleteEnvironment_hides_the_environment_witness :
  let s := Fixture.sys Fixture.db0 in
  exists s',
    run (EnvironmentService.deleteEnvironment Fixture.e1 Fixture.u1) s = (inr tt, s') /\
    exists error s'',
      run (DeploymentService.createDeployment (host := Fixture.host_ok)
             Fixture.p1 Fixture.u1 Fixture.request1) s' = (inl error, s'').
Proof.
  cbv zeta.
  destruct (deleteEnvironment_hides_the_environment (host := Fixture.host_ok)
              Fixture.e1 Fixture.u1 (Fixture.sys Fixture.db0))
    as (s' & Run & _ & Create & _); [vm_compute; discriminate |].
  exists s'. split; [exact Run |].
  destruct (Create Fixture.p1 Fixture.u1 Fixture.request1 eq_refl) as (error & s'' & R & _).
  exists error, s''. exact R.
Defined.

(* ===================================================================== *)
(** * The port of the image and the port of the container *)
(* ===================================================================== *)

(** X27. [buildImage] writes the Dockerfile of the framework it detects and
    [runContainer] publishes port 80 for [react] and [next] and port 3000
    otherwise.  The port the Dockerfile exposes is the port published,
    except for [next], whose Dockerfile exposes 3000 while 80 is published;
    and a project is built as [next] exactly when the manifest gives [next]
    a truthy value and gives none to [react] and to [react-dom], the value
    of a name being the one under [devDependencies] when it is there, and
    otherwise the one under [dependencies]. *)
Theorem dockerfile_port_and_container_port
    (dependencies devDependencies : list (string * Json))
    (imageName projectId environmentId : string)
    (envVariables : list (string * string)) (port : Z) :
  let framework := DockerService.detect dependencies devDependencies in
  let published :=
    Docker.ExposedPort (DockerService.container_options imageName projectId environmentId
                          envVariables framework port) in
  let value name :=
    match DockerService.property name devDependencies with
    | Some v => Some v
    | None => DockerService.property name dependencies
    end in
  let depends name := exists v, value name = Some v /\ Json_truthy v = true in
  (framework = "next"%string <->
   depends "next"%string /\ ~ depends "react"%string /\ ~ depends "react-dom"%string) /\
  (framework <> "next"%string ->
   Dockerfile.exposed_ports (Dockerfile.generateDockerfile framework) = [show published]) /\
  (framework = "next"%string ->
   Dockerfile.exposed_ports (Dockerfile.generateDockerfile framework) = ["3000"%string]
   /\ published = 80).
Proof.
  cbv zeta. unfold DockerService.detect. cbv zeta.
  assert (Has : forall name,
            match DockerService.dependency dependencies devDependencies name with
            | Some v => Json_truthy v
            | None => false
            end = true
            <-> exists v, match DockerService.property name devDependencies with
                          | Some v => Some v
                          | None => DockerService.property name dependencies
                          end = Some v /\ Json_truthy v = true).
  { intros name. unfold DockerService.dependency.
    destruct (match DockerService.property name devDependencies with
              | Some v => Some v
              | None => DockerService.property name dependencies
              end) as [v |].
    - split; [intros H; exists v; auto | intros (w & E & H); congruence].
    - split; [discriminate | intros (w & E & _); discriminate]. }
  destruct (match DockerService.dependency dependencies devDependencies "react" with
            | Some v => Json_truthy v
            | None => false
            end) eqn:R; cbn [orb].
  { split; [| split; [intros _; vm_compute; reflexivity | discriminate]].
    split; [discriminate |]. intros (_ & Hr & _).
    apply Has in R. contradiction. }
  destruct (match DockerService.dependency dependencies devDependencies "react-dom" with
            | Some v => Json_truthy v
            | None => false
            end) eqn:RD.
  { split; [| split; [intros _; vm_compute; reflexivity | discriminate]].
    split; [discriminate |]. intros (_ & _ & Hrd).
    apply Has in RD. contradiction. }
  destruct (match DockerService.dependency dependencies devDependencies "next" with
            | Some v => Json_truthy v
            | None => false
            end) eqn:N.
  { split; [| split; [intros H; contradiction H; reflexivity
                     | intros _; vm_compute; split; reflexivity]].
    split; [intros _ | reflexivity].
    split; [apply Has; exact N |].
    split; intros H; apply Has in H; congruence. }
  assert (NotNext : (exists v, match DockerService.property "next" devDependencies with
                               | Some v => Some v
                               | None => DockerService.property "next" dependencies
                               end = Some v /\ Json_truthy v = true) -> False)
    by (intros H; apply Has in H; congruence).
  destruct (match DockerService.dependency dependencies devDependencies "express" with
            | Some v => Json_truthy v
            | None => false
            end) eqn:E.
  - split; [| split; [intros _; vm_compute; reflexivity | discriminate]].
    split; [discriminate | intros (Hn & _); contradiction].
  - split; [| split; [intros _; vm_compute; reflexivity | discriminate]].
    split; [discriminate | intros (Hn & _); contradiction].
Qed.

(* ===================================================================== *)
(** * The order of the deployment routes *)
(* ===================================================================== *)

(** X28. The route GET /active is registered after GET /:id, so no request
    ever reaches its handler: a GET for [active] is taken by the route of a
    single deployment, behind [authMiddleware], with [active] as the id. *)
Theorem active_route_is_never_reached (method : Router.Method) (path : list string) :
  Router.dispatch Router.GET ["active"%string]
  = Some (Router.get_deployment, [("id", "active")]%string) /\
  forall params,
    Router.dispatch method path <> Some (Router.active_deployments, params).
Proof.
  split; [reflexivity |]. intros params.
  unfold Router.dispatch, Router.routes.
  destruct method; cbn [Router.dispatch_in Router.method_eqb].
  - destruct path as [| a [| b path]]; cbn [Router.matches].
    + discriminate.
    + destruct (a =? EmptyString)%string eqn:E; cbn [option_map]; [| discriminate].
      apply String.eqb_eq in E. subst a. vm_compute. discriminate.
    + destruct (a =? EmptyString)%string,
               (Router.lower_case "logs" =? Router.lower_case b)%string,
               (Router.lower_case "active" =? Router.lower_case a)%string,
               path; cbn [option_map]; discriminate.
  - destruct path as [| a [| b path]]; cbn [Router.matches].
    + discriminate.
    + destruct (a =? EmptyString)%string; cbn [option_map]; discriminate.
    + destruct (a =? EmptyString)%string,
               (Router.lower_case "rollback" =? Router.lower_case b)%string,
               path; cbn [option_map]; discriminate.
  - discriminate.
  - destruct path as [| a [| b path]]; cbn [Router.matches]; try discriminate.
    all: destruct (a =? EmptyString)%string; cbn [option_map]; discriminate.
Qed.

(* ===================================================================== *)
(** * A log entry, written and read back *)
(* ===================================================================== *)

Section LogRoundTrip.
Context {host : Host}.

(** X29. A log entry written by [addDeploymentLog] on a deployment is read
    back by [getDeploymentLogs]: whoever could read the logs of the
    deployment before reads, afterwards, the new entry and the entries
    there were, and no deployment row has changed. *)
Theorem added_log_is_returned (id level message user : string) (s : Sys)
    (logs : list DeploymentLog.t) :
  run (DeploymentQueries.getDeploymentLogs id user) s = (inr logs, s) ->
  exists s' logs',
    run (DeploymentService.addDeploymentLog id level message) s = (inr tt, s') /\
    run (DeploymentQueries.getDeploymentLogs id user) s' = (inr logs', s') /\
    Permutation logs'
      (DeploymentLog.mk (uuidv4 (uuids s)) (canonical id) level message (clock s)
       :: logs) /\
    deployments (db s') = deployments (db s).
Proof.
  rewrite getDeploymentLogs_run.
  destruct (refused [id; user]) as [e |] eqn:Ref; [discriminate |].
  destruct (DeploymentService.select_deployment (db s) id user) as [| x rest] eqn:Sel;
    [discriminate |].
  destruct (select_deployment_accepted _ _ _ _ _ Sel) as [_ Acc].
  intros H. injection H as <-.
  assert (Found : find_deployment (db s) id <> None)
    by (eapply select_deployment_found; exact Sel).
  exists (appended_log id level message s). eexists.
  split; [apply addDeploymentLog_run, Found |].
  rewrite getDeploymentLogs_run, Ref.
  assert (Same : DeploymentService.select_deployment
                   (db (appended_log id level message s)) id user = x :: rest)
    by (rewrite <- Sel; reflexivity).
  rewrite Same. split; [reflexivity |]. split; [| reflexivity].
  rewrite logs_of_appended_log by exact Acc.
  rewrite !order_by_perm. rewrite Permutation_app_comm. reflexivity.
Qed.

End LogRoundTrip.

Lemma added_log_is_returned_witness :
  let s := Fixture.sys Fixture.db_two in
  exists s' logs',
    run (DeploymentService.addDeploymentLog (host := Fixture.host_ok)
           Fixture.d1 "info" "hello") s = (inr tt, s') /\
    run (DeploymentQueries.getDeploymentLogs Fixture.d1 Fixture.u1) s' = (inr logs', s') /\
    Permutation logs' [DeploymentLog.mk Fixture.deployment0 Fixture.d1 "info" "hello" 1000000].
Proof.
  cbv zeta.
  destruct (added_log_is_returned (host := Fixture.host_ok) Fixture.d1 "info" "hello" Fixture.u1
              (Fixture.sys Fixture.db_two) [])
    as (s' & logs' & Add & Get & Perm & _); [vm_compute; reflexivity |].
  exists s', logs'. split; [exact Add |]. split; [exact Get | exact Perm].
Defined.

(* ===================================================================== *)
(** * DockerService.detectFramework *)
(* ===================================================================== *)

Section DetectFramework.
Context {host : Host}.

(** X30. [detectFramework] never rejects and always answers one of [react],
    [next], [express], [node].  It issues one external call, the clone into
    a directory named after the first 8 characters of a fresh uuid, and
    touches no table, container or queue.  The answer is the framework
    [buildImage] detects for the dependencies of the manifest when the clone
    succeeds and the manifest can be read, and [node] in every other case:
    a failed clone, no manifest, a manifest that does not parse. *)
Theorem detectFramework_always_answers (repositoryUrl : string) (s : Sys) :
  let tempDir := ("/tmp/detect-" ++ substring 0 8 (uuidv4 (uuids s)))%string in
  let clone := FrameworkDetection.clone_command repositoryUrl tempDir in
  exists framework s',
    run (FrameworkDetection.detectFramework repositoryUrl) s = (inr framework, s') /\
    In framework frameworks /\
    framework = match execSync clone, package_json (tempDir ++ "/package.json") with
                | inr _, Dependencies dependencies devDependencies =>
                    DockerService.detect dependencies devDependencies
                | _, _ => "node"%string
                end /\
    trace s' = trace s ++ [EvExec clone] /\
    db s' = db s /\ docker s' = docker s /\ spawned s' = spawned s.
Proof.
  cbv zeta. unfold FrameworkDetection.detectFramework.
  rewrite run_bind. unfold new_uuid at 1. rewrite run_await. cbn beta iota.
  rewrite run_try_catch, run_bind. unfold exec at 1. rewrite run_await.
  set (tempDir := ("/tmp/detect-" ++ substring 0 8 (uuidv4 (uuids s)))%string).
  set (clone := FrameworkDetection.clone_command repositoryUrl tempDir).
  assert (Node : In "node"%string frameworks) by (unfold frameworks; simpl; auto).
  destruct (execSync clone) as [e | out] eqn:Clone.
  - eexists _, _. split; [reflexivity |]. cbn. repeat split. exact Node.
  - destruct (package_json (tempDir ++ "/package.json")) as [| e | dependencies devDependencies] eqn:M.
    + eexists _, _. split; [reflexivity |]. cbn. repeat split. exact Node.
    + eexists _, _. split; [reflexivity |]. cbn. repeat split. exact Node.
    + eexists _, _. split; [reflexivity |]. cbn. repeat split.
      apply detect_frameworks.
Qed.

End DetectFramework.

(* ===================================================================== *)
(** * The level of the entry that reports an nginx failure *)
(* ===================================================================== *)

Section NginxWarning.
Context {host : Host}.

(** C7, on the code.  When the nginx reconfiguration fails after build and
    run have succeeded, the block settles normally, also under the
    pipeline's own [catch], and no deployment row changes; two entries are
    appended to the log of the deployment, the announcement and the report
    of the failure.  The report has level [warn], which is not the
    [warning] of [DeploymentLog.logLevel]: asked for the entries of level
    [warning], the logs route leaves it out, and shows it for [warn]. *)
Theorem nginx_failure_is_logged_as_warn
    (deploymentId : string) (startTime : Z) (s : Sys) (nginxError : Exn) :
  find_deployment (db s) deploymentId <> None ->
  applyNginxConfig
    (db (appended_log deploymentId "info" "Updating nginx configuration..." s))
  = inl nginxError ->
  exists s2 announced report,
    run (try_catch (DeploymentService.regenerate_nginx deploymentId)
                   (DeploymentService.on_pipeline_error deploymentId startTime)) s
    = (inr tt, s2) /\
    deployments (db s2) = deployments (db s) /\
    logs_of (db s2) deploymentId = logs_of (db s) deploymentId ++ [announced; report] /\
    DeploymentLog.message report
    = "Deployment successful but nginx config update failed (may require manual setup)"%string /\
    DeploymentLog.log_level report = "warn"%string /\
    DeploymentLog.log_level report <> "warning"%string /\
    ~ In report (wanted_logs (db s2) deploymentId (Some "warning"%string)) /\
    In report (wanted_logs (db s2) deploymentId (Some "warn"%string)).
Proof.
  intros Hd Hnginx.
  destruct (nginx_failure_leaves_the_record deploymentId startTime s nginxError Hd Hnginx)
    as (s2 & _ & R & D & L & _).
  pose proof (found_is_read _ _ Hd) as Acc.
  eexists s2, _, _. split; [exact R |]. split; [exact D |].
  assert (Logs : logs_of (db s2) deploymentId
                 = logs_of (db s) deploymentId
                   ++ [ DeploymentLog.mk (uuidv4 (uuids s)) (canonical deploymentId) "info"
                          "Updating nginx configuration..." (clock s);
                        DeploymentLog.mk (uuidv4 (S (uuids s))) (canonical deploymentId)
                          "warn"
                          "Deployment successful but nginx config update failed (may require manual setup)"
                          (clock s + elapsed EvNginxApply) ]).
  { unfold logs_of. rewrite L, filter_app. cbn [filter DeploymentLog.deployment_id].
    rewrite (same_uuid_refl _ Acc). reflexivity. }
  split; [exact Logs |]. split; [reflexivity |]. split; [reflexivity |].
  split; [discriminate |].
  unfold wanted_logs. cbn [or_null]. cbv zeta. split.
  - intros H. apply filter_In in H. destruct H as [_ H]. discriminate H.
  - apply filter_In. split; [| reflexivity].
    eapply Permutation_in; [symmetry; apply order_by_perm |].
    rewrite Logs. apply in_or_app. right. right. left. reflexivity.
Qed.

End NginxWarning.

Lemma nginx_failure_is_logged_as_warn_witness :
  let h := Fixture.host_nginx_fails in
  let s := snd (Fixture.paused h 29) in
  Fixture.status_in s = Some success /\
  exists s2 report,
    run (try_catch (DeploymentService.regenerate_nginx (host := h) Fixture.deployment0)
                   (DeploymentService.on_pipeline_error (host := h) Fixture.deployment0
                      1000000)) s
    = (inr tt, s2) /\
    Fixture.status_in s2 = Some success /\
    DeploymentLog.log_level report = "warn"%string /\
    ~ In report (wanted_logs (db s2) Fixture.deployment0 (Some "warning"%string)).
Proof.
  cbv zeta. split; [vm_compute; reflexivity |].
  destruct (nginx_failure_is_logged_as_warn (host := Fixture.host_nginx_fails)
              Fixture.deployment0 1000000 (snd (Fixture.paused Fixture.host_nginx_fails 29))
              (Error "nginx: configuration file test failed"))
    as (s2 & announced & report & R & D & _ & _ & Level & _ & Hidden & _).
  - vm_compute; discriminate.
  - reflexivity.
  - exists s2, report. split; [exact R |]. split; [| split; [exact Level | exact Hidden]].
    unfold Fixture.status_in, find_deployment. rewrite D. vm_compute. reflexivity.
Defined.

(** The logs route after the whole pipeline with nginx failing: no entry of
    level [warning], and the report under [warn]. *)
Example nginx_failure_through_the_logs_route :
  let h := Fixture.host_nginx_fails in
  let s := snd (Fixture.resumed h 0) in
  let user := JwtPayload.mk Fixture.u1 "a@example.org" "a" 1 2 in
  let logs level :=
    match fst (run (DeploymentRoutes.get_logs (Some user) Fixture.deployment0
                      (DeploymentRoutes.mkLogsQuery (Some level) None None)) s) with
    | inr (Http.sendSuccess page _ _) =>
        Some (map DeploymentLog.message (DeploymentRoutes.items page))
    | _ => None
    end in
  Fixture.status_in s = Some success /\
  logs "warning"%string = Some [] /\
  logs "warn"%string
  = Some ["Deployment successful but nginx config update failed (may require manual setup)"%string].
Proof. vm_compute. repeat split; reflexivity. Qed.
